(** * Twin: profile normalizer, persona synthesis and streaming chat

    A shallow embedding of the server side of the repository
    ([server/letterboxd.ts], [server/openai.ts], [server/spotify.ts],
    [server/storage.ts], the route handlers of [registerRoutes] and the
    configuration module) and of the [sendMessage] mutation of the chat page,
    together with the properties its specification states about them and
    further properties of the same code.

    Conventions.  A JavaScript function that can throw returns an [Outcome];
    calls that leave the process (HTTP fetch, XML and JSON parsing, URL
    parsing, the model service) are fields of an explicit environment record,
    so a test double is an ordinary value of that record.  Text is a Rocq
    string that holds the UTF-8 encoding of the JavaScript string.  Writes to
    the console are left out, except where their argument can throw. *)

From Stdlib Require Import String Ascii List ZArith QArith Lia Bool.
From Stdlib Require Import Permutation Sorted.
From stdpp Require Import base option list strings pretty gmap.

Import ListNotations.
Local Open Scope string_scope.
Local Open Scope list_scope.

(** ** JavaScript values shared by all modules *)

Module JS.

(** A value thrown by [throw]: an [Error] instance with its [message] and
    [name], or any other value. *)
Inductive exn : Type :=
  | Error (message name : string)
  | NonError.

(** The result of running a function body: normal completion or a throw. *)
Inductive Outcome (A : Type) : Type :=
  | Returns (a : A)
  | Throws (e : exn).
Arguments Returns {A} a.
Arguments Throws {A} e.

Definition bind {A B} (m : Outcome A) (k : A -> Outcome B) : Outcome B :=
  match m with
  | Returns a => k a
  | Throws e => Throws e
  end.

(** [try { body } catch (error) { handler }] *)
Definition try_catch {A} (body : Outcome A) (handler : exn -> Outcome A)
  : Outcome A :=
  match body with
  | Returns a => Returns a
  | Throws e => handler e
  end.

Definition TypeError (message : string) : exn := Error message "TypeError".

(** Truthiness of an optional string: [undefined], [null] and the empty
    string are falsy. *)
Definition truthy (s : option string) : bool :=
  match s with
  | Some (String _ _) => true
  | _ => false
  end.

(** [s || d] for an optional string. *)
Definition or_else (s : option string) (d : string) : string :=
  match s with
  | Some (String c r) => String c r
  | _ => d
  end.

(** *** Strings *)

Definition nl : string := String (ascii_of_nat 10) EmptyString.
Definition dquote : string := String (ascii_of_nat 34) EmptyString.

(** [WhiteSpace] and [LineTerminator], as the bytes of their UTF-8 encoding:
    U+0009 to U+000D and U+0020 in one byte, U+00A0 in two, and in three
    bytes U+1680, U+2000 to U+200A, U+2028, U+2029, U+202F, U+205F, U+3000
    and U+FEFF. *)
Definition is_space (c : ascii) : bool :=
  let n := nat_of_ascii c in
  ((9 <=? n) && (n <=? 13))%nat || (n =? 32)%nat.

Definition is_space2 (c1 c2 : ascii) : bool :=
  (nat_of_ascii c1 =? 194)%nat && (nat_of_ascii c2 =? 160)%nat.

Definition is_space3 (c1 c2 c3 : ascii) : bool :=
  let n1 := nat_of_ascii c1 in
  let n2 := nat_of_ascii c2 in
  let n3 := nat_of_ascii c3 in
  ((n1 =? 225) && (n2 =? 154) && (n3 =? 128)
   || (n1 =? 226) && (n2 =? 128)
      && ((128 <=? n3) && (n3 <=? 138) || (n3 =? 168) || (n3 =? 169) || (n3 =? 175))
   || (n1 =? 226) && (n2 =? 129) && (n3 =? 159)
   || (n1 =? 227) && (n2 =? 128) && (n3 =? 128)
   || (n1 =? 239) && (n2 =? 187) && (n3 =? 191))%nat.

Fixpoint trimStart (s : string) : string :=
  match s with
  | EmptyString => EmptyString
  | String c1 r1 =>
      if is_space c1 then trimStart r1
      else
        match r1 with
        | String c2 r2 =>
            if is_space2 c1 c2 then trimStart r2
            else
              match r2 with
              | String c3 r3 => if is_space3 c1 c2 c3 then trimStart r3 else s
              | EmptyString => s
              end
        | EmptyString => s
        end
  end.

(** The string is white space from here to its end. *)
Definition blank (s : string) : bool := String.eqb (trimStart s) EmptyString.

Fixpoint trimEnd (s : string) : string :=
  match s with
  | EmptyString => EmptyString
  | String c r => if blank s then EmptyString else String c (trimEnd r)
  end.

(** [s.trim()] *)
Definition trim (s : string) : string := trimEnd (trimStart s).

(** [s.split(sep)] for a one-character separator: never the empty array. *)
Fixpoint split (sep : ascii) (s : string) : list string :=
  match s with
  | EmptyString => [EmptyString]
  | String c r =>
      if Ascii.eqb c sep then EmptyString :: split sep r
      else match split sep r with
           | h :: t => String c h :: t
           | [] => [String c EmptyString]
           end
  end.

(** [xs.join(sep)] on an array of strings. *)
Fixpoint join (sep : string) (xs : list string) : string :=
  match xs with
  | [] => EmptyString
  | [x] => x
  | x :: rest => x +:+ sep +:+ join sep rest
  end.

(** [xs.slice(0, n)] *)
Definition slice0 {A} (n : nat) (xs : list A) : list A := take n xs.

(** [xs.slice(-n)]: the last [n] elements, all of them when there are fewer. *)
Definition slice_last {A} (n : nat) (xs : list A) : list A :=
  drop (length xs - n) xs.

(** *** Numbers read by [parseFloat]

    A finite Number is kept as the rational it is exactly equal to; the two
    zeros are not told apart. *)
Inductive number : Type :=
  | NaN
  | Fin (q : Q)
  | Infinity (negative : bool).

(** The integer nearest to a non-negative rational, ties to even. *)
Definition nearest_even (q : Q) : Z :=
  let n := Qnum q in
  let d := Zpos (Qden q) in
  let f := (n / d)%Z in
  match (2 * (n mod d) ?= d)%Z with
  | Lt => f
  | Gt => (f + 1)%Z
  | Eq => if Z.even f then f else (f + 1)%Z
  end.

(** [floor (log2 q)] for a positive rational. *)
Definition exponent2 (q : Q) : Z :=
  let e := (Z.log2 (Qnum q) - Z.log2 (Zpos (Qden q)))%Z in
  if Qle_bool (Qpower (2 # 1) e) q then e else (e - 1)%Z.

(** The Number value for a non-negative rational: the nearest multiple of the
    spacing of binary64 at its magnitude (2^-1074 below 2^-1022), ties to
    even; [None] when that is 2^1024, which is infinity. *)
Definition binary64 (q : Q) : option Q :=
  if Qle_bool q 0 then Some 0%Q
  else
    let quantum := Qpower (2 # 1) (Z.max (exponent2 q) (-1022) - 52) in
    let v := Qred (inject_Z (nearest_even (q / quantum)%Q) * quantum)%Q in
    if Qle_bool (Qpower (2 # 1) 1024) v then None else Some v.

Definition digit (c : ascii) : option Z :=
  let n := nat_of_ascii c in
  if ((48 <=? n) && (n <=? 57))%nat then Some (Z.of_nat n - 48)%Z else None.

(** Longest run of decimal digits at the head of [s]: their value on top of
    [acc], how many there are, and the rest of the string. *)
Fixpoint digits (s : string) (acc : Z) (count : nat) : Z * nat * string :=
  match s with
  | String c r =>
      match digit c with
      | Some d => digits r (10 * acc + d)%Z (S count)
      | None => (acc, count, s)
      end
  | EmptyString => (acc, count, s)
  end.

(** [ExponentPart]: [e] or [E], an optional sign, at least one digit;
    otherwise no exponent is read. *)
Definition exponent (s : string) : Z :=
  match s with
  | String c r =>
      if Ascii.eqb c "e" || Ascii.eqb c "E" then
        let '(neg, r') :=
          match r with
          | String "-" t => (true, t)
          | String "+" t => (false, t)
          | _ => (false, r)
          end in
        let '(e, n, _) := digits r' 0%Z 0%nat in
        match n with
        | O => 0%Z
        | S _ => if neg then (- e)%Z else e
        end
      else 0%Z
  | EmptyString => 0%Z
  end.

(** [parseFloat(s)]: leading white space is skipped, then the longest prefix
    that is a [StrDecimalLiteral] is read and its value rounded to the
    nearest Number; [NaN] when there is no such prefix. *)
Definition parseFloat (s : string) : number :=
  let s0 := trimStart s in
  let '(neg, s1) :=
    match s0 with
    | String "-" t => (true, t)
    | String "+" t => (false, t)
    | _ => (false, s0)
    end in
  if String.prefix "Infinity" s1 then Infinity neg
  else
    let '(i, ni, r1) := digits s1 0%Z 0%nat in
    let '(m, nf, r2) :=
      match r1 with
      | String "." t =>
          let '(m, n, r) := digits t i 0%nat in (m, n, r)
      | _ => (i, 0%nat, r1)
      end in
    match (ni + nf)%nat with
    | O => NaN
    | S _ =>
        match binary64 (inject_Z m * Qpower (10 # 1) (exponent r2 - Z.of_nat nf))%Q with
        | Some v => Fin (if neg then Qopp v else v)
        | None => Infinity neg
        end
    end.

(** [a >= b] on numbers, for a finite right operand. *)
Definition ge (a : number) (b : Q) : bool :=
  match a with
  | NaN => false
  | Fin q => Qle_bool b q
  | Infinity negative => negb negative
  end.

(** *** [Array.prototype.sort]

    [cmp x y > 0] asks for [x] after [y]; any other answer ([NaN] is read
    as 0) leaves the two in place.  The sort is stable, so for a consistent
    comparator its result is the one every stable sort gives; insertion from
    the right is one of them.  For an inconsistent comparator ECMAScript
    leaves the order to the implementation and this is only one possible
    result. *)
Fixpoint sort_insert {A} (cmp : A -> A -> Z) (x : A) (l : list A) : list A :=
  match l with
  | [] => [x]
  | y :: l' => if (0 <? cmp x y)%Z then y :: sort_insert cmp x l' else x :: l
  end.

Definition sort {A} (cmp : A -> A -> Z) (l : list A) : list A :=
  foldr (sort_insert cmp) [] l.

(** *** A plain object used as a counter table ([{ [key: string]: number }])

    Own properties are kept in creation order.  A property value is a number
    or, once a non-number has been added to 1, a string ([Text]); the string's
    characters are not observed by the program and are not kept. *)
Inductive value : Type :=
  | Num (n : nat)
  | Text.

Definition Obj : Type := list (string * value).

Fixpoint own (o : Obj) (k : string) : option value :=
  match o with
  | [] => None
  | (k', v) :: o' => if String.eqb k k' then Some v else own o' k
  end.

(** Assignment [o[k] = v] to an own data property: an existing property keeps
    its place, a new one is created last. *)
Fixpoint set (o : Obj) (k : string) (v : value) : Obj :=
  match o with
  | [] => [(k, v)]
  | (k', v') :: o' =>
      if String.eqb k k' then (k', v) :: o' else (k', v') :: set o' k v
  end.

(** The function-valued properties every plain object inherits from
    [Object.prototype]; [__proto__] is inherited too, as an accessor. *)
Definition prototype_functions : list string :=
  [ "constructor"; "hasOwnProperty"; "isPrototypeOf"; "propertyIsEnumerable";
    "toLocaleString"; "toString"; "valueOf"; "__defineGetter__";
    "__defineSetter__"; "__lookupGetter__"; "__lookupSetter__" ].

Definition inherits_function (k : string) : bool :=
  existsb (String.eqb k) prototype_functions.

(** [o[k] = (o[k] || 0) + 1].  Reading a missing key gives [undefined] unless
    the key names an inherited member: an inherited function plus 1 is a
    string, which is stored as an own property; storing a string through the
    [__proto__] accessor changes nothing. *)
Definition increment (o : Obj) (k : string) : Obj :=
  match own o k with
  | Some (Num n) => set o k (Num (n + 1))
  | Some Text => set o k Text
  | None =>
      if inherits_function k then set o k Text
      else if String.eqb k "__proto__" then o
      else set o k (Num 1)
  end.

(** A canonical numeric string below 2^32 - 1 is an array index. *)
Definition array_index (k : string) : option Z :=
  match k with
  | EmptyString => None
  | String c r =>
      let '(v, n, rest) := digits k 0%Z 0%nat in
      match rest with
      | EmptyString =>
          if (Ascii.eqb c "0" && negb (String.eqb r EmptyString))
          then None
          else if (v <=? 4294967294)%Z then Some v else None
      | String _ _ => None
      end
  end.

(** [Object.entries(o)]: own properties whose key is an array index come
    first, in ascending numeric order, then the others in creation order. *)
Definition index_entries (o : Obj) : list (Z * (string * value)) :=
  omap (fun e => match array_index (fst e) with
                 | Some i => Some (i, e)
                 | None => None
                 end) o.

Definition named_entries (o : Obj) : Obj :=
  List.filter (fun e => match array_index (fst e) with
                        | Some _ => false
                        | None => true
                        end) o.

Definition entries (o : Obj) : Obj :=
  map snd (sort (fun x y => (fst x - fst y)%Z) (index_entries o))
  ++ named_entries o.

(** [b - a] on two property values: [NaN], read by the sort as 0, unless both
    are numbers. *)
Definition minus (b a : value) : Z :=
  match b, a with
  | Num nb, Num na => (Z.of_nat nb - Z.of_nat na)%Z
  | _, _ => 0%Z
  end.

(** *** Values produced by [JSON.parse]

    A number is carried by the text [String(n)] gives for it: the program
    does no arithmetic on parsed numbers.  An object keeps its own properties
    as a list of pairs. *)
#[warnings="-register-all"] Inductive json : Type :=
  | JNull
  | JBool (b : bool)
  | JNumber (text : string)
  | JString (s : string)
  | JArray (xs : list json)
  | JObject (props : list (string * json)).

(** [String(v)], as a template literal or [join] applies it. *)
Fixpoint to_string (j : json) : string :=
  match j with
  | JNull => "null"
  | JBool true => "true"
  | JBool false => "false"
  | JNumber text => text
  | JString s => s
  | JArray xs =>
      join "," (map (fun x => match x with
                              | JNull => EmptyString
                              | _ => to_string x
                              end) xs)
  | JObject _ => "[object Object]"
  end.

(** A template-literal hole filled with a property that may be [undefined]. *)
Definition template (v : option json) : string :=
  match v with
  | Some j => to_string j
  | None => "undefined"
  end.

(** *** Elements handed over by xml2js

    An element that has only text is that text (the empty string for an
    empty element); an element with attributes or child elements is an
    object, kept with its own properties.  Such an object is converted to
    text as an object literal is, its properties not being looked at. *)
Inductive element : Type :=
  | Leaf (s : string)
  | Node (properties : list (string * json)).

(** Truthiness of an optional element: an object is truthy. *)
Definition present (e : option element) : bool :=
  match e with
  | Some (Leaf (String _ _)) | Some (Node _) => true
  | _ => false
  end.

(** [String(e)], as a template literal or [join] applies it. *)
Definition text_of (e : element) : string :=
  match e with
  | Leaf s => s
  | Node properties => to_string (JObject properties)
  end.

(** [v.join(sep)] on any value: only an array has [join]; its [null]
    elements are written as the empty string. *)
Definition join_value (sep : string) (v : option json) : Outcome string :=
  match v with
  | Some (JArray xs) =>
      Returns (join sep (map (fun x => match x with
                                       | JNull => EmptyString
                                       | _ => to_string x
                                       end) xs))
  | Some JNull =>
      Throws (TypeError "Cannot read properties of null (reading 'join')")
  | None =>
      Throws (TypeError "Cannot read properties of undefined (reading 'join')")
  | Some _ => Throws (TypeError "join is not a function")
  end.

Fixpoint lookup_prop (props : list (string * json)) (k : string) : option json :=
  match props with
  | [] => None
  | (k', v) :: rest => if String.eqb k k' then Some v else lookup_prop rest k
  end.

(** [v.k] for a key that no built-in prototype defines: it throws on [null],
    and only an object can have the property. *)
Definition get (v : json) (k : string) : Outcome (option json) :=
  match v with
  | JNull =>
      Throws (TypeError ("Cannot read properties of null (reading '" +:+ k +:+ "')"))
  | JObject props => Returns (lookup_prop props k)
  | _ => Returns None
  end.

(** [{ ...o, k: v }] on the properties of [o]: an existing key keeps its
    place and takes the new value, a new key comes last. *)
Fixpoint set_prop (props : list (string * json)) (k : string) (v : json)
  : list (string * json) :=
  match props with
  | [] => [(k, v)]
  | (k', v') :: rest =>
      if String.eqb k k' then (k', v) :: rest else (k', v') :: set_prop rest k v
  end.

Fixpoint characters (s : string) : list json :=
  match s with
  | EmptyString => []
  | String c r => JString (String c EmptyString) :: characters r
  end.

(** The own enumerable properties [{ ...data }] copies: those of an object,
    the indexed elements of an array or of a string, none for the other
    values. *)
Definition spread (data : json) : list (string * json) :=
  match data with
  | JObject props => props
  | JArray xs => imap (fun i x => (pretty i, x)) xs
  | JString s => imap (fun i x => (pretty i, x)) (characters s)
  | _ => []
  end.

#[global] Instance Outcome_ret : MRet Outcome := @Returns.
#[global] Instance Outcome_bind : MBind Outcome := fun A B k m => bind m k.

(** *** Truthiness and [||] on parsed values *)

(** [undefined], [null], [false], [0] and the empty string are falsy. *)
Definition truthy_value (v : option json) : bool :=
  match v with
  | None | Some JNull | Some (JBool false) | Some (JString EmptyString) => false
  | Some (JNumber text) => negb (String.eqb text "0")
  | Some _ => true
  end.

(** [a || b] *)
Definition or_value (a b : option json) : option json :=
  if truthy_value a then a else b.

(** *** Strings: prefixes and the urlencoded serializer *)

Fixpoint drop_chars (n : nat) (s : string) : string :=
  match n, s with
  | S m, String _ r => drop_chars m r
  | _, _ => s
  end.

(** [[0-9]*] up to the end of the string. *)
Fixpoint digits_only (s : string) : bool :=
  match s with
  | EmptyString => true
  | String c r =>
      match digit c with
      | Some _ => digits_only r
      | None => false
      end
  end.

(** The bytes the application/x-www-form-urlencoded serializer leaves as they
    are: letters, digits and [*], [-], [.], [_]. *)
Definition urlencoded_plain (c : ascii) : bool :=
  let n := nat_of_ascii c in
  (((48 <=? n) && (n <=? 57)) || ((65 <=? n) && (n <=? 90))
   || ((97 <=? n) && (n <=? 122)))%nat
  || Ascii.eqb c "*" || Ascii.eqb c "-" || Ascii.eqb c "." || Ascii.eqb c "_".

Definition hex_digit (n : nat) : ascii :=
  match String.get n "0123456789ABCDEF" with
  | Some c => c
  | None => "0"%char
  end.

(** One byte, serialized: itself, [+] for a space, or [%XX]. *)
Definition urlencode_byte (c : ascii) : string :=
  if urlencoded_plain c then String c EmptyString
  else if Ascii.eqb c " " then "+"
  else String "%" (String (hex_digit (nat_of_ascii c / 16))
                     (String (hex_digit (nat_of_ascii c mod 16)) EmptyString)).

Fixpoint urlencode (s : string) : string :=
  match s with
  | EmptyString => EmptyString
  | String c r => urlencode_byte c +:+ urlencode r
  end.

(** [new URLSearchParams(record).toString()]: the pairs in the order of the
    record, each as [name=value], joined with [&]. *)
Definition URLSearchParams_toString (params : list (string * string)) : string :=
  join "&" (map (fun p => urlencode (fst p) +:+ "=" +:+ urlencode (snd p)) params).

(** *** [JSON.stringify] of a string

    The quote, the backslash and the characters below U+0020 are escaped,
    the latter by their short form or as [\u00xx] in lower case; every other
    byte is kept. *)
Definition lower_hex_digit (n : nat) : ascii :=
  match String.get n "0123456789abcdef" with
  | Some c => c
  | None => "0"%char
  end.

Definition backslash : string := String (ascii_of_nat 92) EmptyString.

Definition json_escape (c : ascii) : string :=
  let n := nat_of_ascii c in
  if (n =? 34)%nat then backslash +:+ dquote
  else if (n =? 92)%nat then backslash +:+ backslash
  else if (n =? 8)%nat then backslash +:+ "b"
  else if (n =? 12)%nat then backslash +:+ "f"
  else if (n =? 10)%nat then backslash +:+ "n"
  else if (n =? 13)%nat then backslash +:+ "r"
  else if (n =? 9)%nat then backslash +:+ "t"
  else if (n <? 32)%nat then
    backslash +:+ "u00"
    +:+ String (lower_hex_digit (n / 16)) (String (lower_hex_digit (n mod 16)) EmptyString)
  else String c EmptyString.

Fixpoint json_escaped (s : string) : string :=
  match s with
  | EmptyString => EmptyString
  | String c r => json_escape c +:+ json_escaped r
  end.

Definition JSON_quote (s : string) : string := dquote +:+ json_escaped s +:+ dquote.

(** *** [Set]: the values in insertion order, each once *)

Definition Set_add (values : list string) (v : string) : list string :=
  if existsb (String.eqb v) values then values else values ++ [v].

End JS.

(** ** server/letterboxd.ts *)

Module Letterboxd.
Import JS.

(** [title] and [year] are typed as strings; they hold what the feed item
    has, which is an object for an element with attributes. *)
Record LetterboxdRating : Type := {
  title : element;
  rating : string;
  year : element;
  genres : list string
}.

Record LetterboxdSuccess : Type := {
  recentRatings : list LetterboxdRating;
  favoriteGenres : list string;
  favoriteFilms : list element
}.

(** [LetterboxdResult], one variant per [status] tag. *)
Inductive LetterboxdResult : Type :=
  | success (s : LetterboxdSuccess)
  | error (message : string)
  | not_provided.

(** What [new URL(url)] exposes to this file. *)
Record URL : Type := {
  hostname : string;
  pathname : string
}.

(** The axios response: [data] is the body when it is a string. *)
Record Response : Type := {
  status : Z;
  data : option string
}.

(** One [<item>] of the feed as xml2js hands it over: for each child element
    its first occurrence ([item['letterboxd:filmTitle']?.[0]]), when there is
    one. *)
Record Item : Type := {
  filmTitle : option element;
  filmYear : option element;
  memberRating : option element;
  filmGenres : option element
}.

(** [result.rss.channel[0]]; [item] is absent when the channel has none. *)
Record Channel : Type := {
  item : option (list Item)
}.

(** The collaborators of this file: the URL parser ([None] when the
    constructor throws), the HTTP client and the XML parser, whose result is
    [None] when [result?.rss?.channel?.[0]] is missing. *)
Record Env : Type := {
  new_URL : string -> option URL;
  axios_get : string -> Outcome Response;
  parseXml : string -> Outcome (option Channel)
}.

Definition validateLetterboxdUrl (env : Env) (url : string) : bool :=
  match new_URL env url with
  | Some parsed =>
      String.eqb (hostname parsed) "letterboxd.com"
      && (2 <=? length (split "/" (pathname parsed)))%nat
  | None => false
  end.

(** [path.split('/')[1]]; [None] is [undefined]. *)
Definition extractUsername (env : Env) (url : string) : Outcome (option string) :=
  match new_URL env url with
  | Some parsed => Returns (split "/" (pathname parsed) !! 1%nat)
  | None => Throws (TypeError "Invalid URL")
  end.

(** A template-literal hole filled with a possibly undefined string. *)
Definition interpolate (s : option string) : string :=
  match s with
  | Some v => v
  | None => "undefined"
  end.

(** [`https://letterboxd.com/${username}/rss/`] *)
Definition rssUrl (username : option string) : string :=
  "https://letterboxd.com/" +:+ interpolate username +:+ "/rss/".

(** Line 120, the genres of one item:
    [filmGenres?.[0]?.split(',').map(g => g.trim()) || []].  An object has no
    [split]: the call throws. *)
Definition item_genres (it : Item) : Outcome (list string) :=
  match filmGenres it with
  | Some (Leaf g) => Returns (map trim (split "," g))
  | Some (Node _) => Throws (TypeError "split is not a function")
  | None => Returns []
  end.

(** [e || ''] on an optional element. *)
Definition or_empty (e : option element) : element :=
  match e with
  | Some (Leaf (String c r)) => Leaf (String c r)
  | Some (Node properties) => Node properties
  | _ => Leaf EmptyString
  end.

(** Lines 136-141: the rating record of an item that has a title. *)
Definition rating_of (it : Item) (genres : list string) : LetterboxdRating :=
  {| title := or_empty (filmTitle it);
     rating := match memberRating it with
               | Some (Leaf (String c r)) => String c r +:+ "/5"
               | Some (Node properties) => text_of (Node properties) +:+ "/5"
               | _ => "Watched"
               end;
     year := or_empty (filmYear it);
     genres := genres |}.

(** The callback of [items.slice(0, 20).map(...)], with its own
    [try]/[catch]: it reads the genres, counts them into [genreFrequency] and
    gives the rating record, or [null] for an item without a title.  When
    reading the genres throws, nothing has been counted and the [catch] gives
    [null]. *)
Definition process_item (genreFrequency : Obj) (it : Item)
  : Obj * option LetterboxdRating :=
  match item_genres it with
  | Returns genres =>
      let genreFrequency' := fold_left increment genres genreFrequency in
      (genreFrequency',
       if present (filmTitle it) then Some (rating_of it genres) else None)
  | Throws itemError => (genreFrequency, None)
  end.

(** The whole [map], left to right, with the table it leaves behind. *)
Fixpoint process_items (genreFrequency : Obj) (its : list Item)
  : Obj * list (option LetterboxdRating) :=
  match its with
  | [] => (genreFrequency, [])
  | it :: rest =>
      let '(f1, r) := process_item genreFrequency it in
      let '(f2, rs) := process_items f1 rest in
      (f2, r :: rs)
  end.

(** [.filter(item => item !== null)] *)
Definition non_null {A} (xs : list (option A)) : list A := omap id xs.

(** Lines 159-163: favorite films. *)
Definition favorite_films (ratings : list LetterboxdRating) : list element :=
  slice0 5 (map title
              (List.filter (fun r => ge (parseFloat (rating r)) (45 # 10)) ratings)).

(** Lines 165-169: favorite genres. *)
Definition favorite_genres (genreFrequency : Obj) : list string :=
  map fst
    (slice0 5 (sort (fun x y => minus (snd y) (snd x)) (entries genreFrequency))).

(** Lines 95-182: what is made of a channel. *)
Definition profile_of_channel (channel : Channel) : LetterboxdResult :=
  let items := default [] (item channel) in
  match items with
  | [] => error "No activity found in profile"
  | _ :: _ =>
      let '(genreFrequency, processed) := process_items [] (slice0 20 items) in
      let ratings := non_null processed in
      match ratings with
      | [] => error "No valid ratings found in profile"
      | _ :: _ =>
          success {| recentRatings := slice0 10 ratings;
                     favoriteGenres := favorite_genres genreFrequency;
                     favoriteFilms := favorite_films ratings |}
      end
  end.

(** The body of the outer [try]. *)
Definition fetch_profile (env : Env) (url : string) : Outcome LetterboxdResult :=
  if negb (validateLetterboxdUrl env url) then
    Returns (error "Invalid Letterboxd URL format")
  else
    username ← extractUsername env url;
    response ← axios_get env (rssUrl username);
    (* console.log(..., response.data.substring(0, 500)) *)
    text ← match data response with
           | Some d => Returns d
           | None => Throws (TypeError "response.data.substring is not a function")
           end;
    match parseXml env text with
    | Throws _ => Returns (error "Invalid XML response from Letterboxd")
    | Returns None => Returns (error "Invalid RSS data structure")
    | Returns (Some channel) => Returns (profile_of_channel channel)
    end.

(** The outer [catch]. *)
Definition describe (e : exn) : string :=
  match e with
  | Error message name => message +:+ " (" +:+ name +:+ ")"
  | NonError => "Unknown error occurred"
  end.

Definition getLetterboxdProfile (env : Env) (url : string)
  : Outcome LetterboxdResult :=
  try_catch (fetch_profile env url) (fun e => Returns (error (describe e))).

End Letterboxd.

(** ** server/openai.ts *)

Module OpenAI.
Import JS.

Inductive Status : Type := Success | Failure | NotProvided.

(** [Rating] and [Track] of the shared schema. *)
Record Rating : Type := {
  title : element;
  rating : string;
  year : element
}.

Record Track : Type := {
  name : string;
  artist : string;
  playedAt : option string
}.

(** The two profile interfaces: every field but [status] is optional. *)
Record LetterboxdData : Type := {
  lb_status : Status;
  recentRatings : option (list Rating);
  favoriteGenres : option (list string);
  favoriteFilms : option (list element);
  lb_error : option string
}.

Record SpotifyData : Type := {
  sp_status : Status;
  topArtists : option (list string);
  topGenres : option (list string);
  recentTracks : option (list Track);
  sp_error : option string
}.

(** A non-streamed completion, as far as it is read:
    [response.choices[i].message.content]. *)
Record ChatCompletion : Type := {
  choices : list (option string)
}.

(** A streamed completion: for each chunk [chunk.choices[0]?.delta?.content],
    then the natural end or an error raised by the iterator. *)
Inductive StreamEnd : Type :=
  | EndOfStream
  | Interrupted (e : exn).

Record Stream (A : Type) : Type := {
  items : list A;
  ending : StreamEnd
}.
Arguments items {A} _.
Arguments ending {A} _.

(** The model service and [JSON.parse]. [create] takes the prompt and whether
    a JSON object is requested as the response format. *)
Record Env : Type := {
  create : string -> bool -> Outcome ChatCompletion;
  create_stream : string -> Outcome (Stream (option string));
  JSON_parse : string -> Outcome json
}.

(** [${xs?.join(', ')}] *)
Definition joined (xs : option (list string)) : string :=
  match xs with
  | Some l => join ", " l
  | None => "undefined"
  end.

Definition is_success (st : option Status) : bool :=
  match st with
  | Some Success => true
  | _ => false
  end.

(** The movie and music paragraphs shared by the two synthesis prompts. *)
Definition movie_section (heading : string) (letterboxdData : option LetterboxdData)
  : string :=
  match letterboxdData with
  | Some d =>
      if is_success (Some (lb_status d)) then
        join nl
          [ EmptyString;
            heading;
            "- Recent ratings: " +:+
              joined (option_map
                        (map (fun r => text_of (title r) +:+ " (" +:+ rating r +:+ ")"))
                        (recentRatings d));
            "- Favorite genres: " +:+ joined (favoriteGenres d);
            "- Favorite films: " +:+ joined (option_map (map text_of) (favoriteFilms d));
            EmptyString ]
      else "No movie preference data available."
  | None => "No movie preference data available."
  end.

Definition music_section (heading : string) (spotifyData : option SpotifyData)
  : string :=
  match spotifyData with
  | Some d =>
      if is_success (Some (sp_status d)) then
        join nl
          [ EmptyString;
            heading;
            "- Top artists: " +:+ joined (topArtists d);
            "- Favorite genres: " +:+ joined (topGenres d);
            "- Recent tracks: " +:+
              joined (option_map
                        (fun ts => slice0 5
                                     (map (fun t => name t +:+ " by " +:+ artist t) ts))
                        (recentTracks d));
            EmptyString ]
      else "No music preference data available."
  | None => "No music preference data available."
  end.

Definition analysis_prompt (bio : string)
  (letterboxdData : option LetterboxdData) (spotifyData : option SpotifyData)
  : string :=
  join nl
    [ "Analyze this person's personality based on:";
      "Bio: " +:+ bio;
      movie_section "Their movie preferences:" letterboxdData;
      music_section "Their music preferences:" spotifyData;
      EmptyString;
      "Create a brief, realistic personality summary based ONLY on the information provided.";
      "If certain data is not available, focus only on the provided content.";
      "Do not make assumptions about interests or preferences unless explicitly shown in the data.";
      "Keep it to 2-3 concise sentences." ].

(** [response.choices[0].message.content] *)
Definition first_content (response : ChatCompletion) : Outcome (option string) :=
  match choices response with
  | c :: _ => Returns c
  | [] => Throws (TypeError "Cannot read properties of undefined (reading 'message')")
  end.

Definition analyzePersonality (env : Env) (bio : string)
  (letterboxdData : option LetterboxdData) (spotifyData : option SpotifyData)
  : Outcome string :=
  response ← create env (analysis_prompt bio letterboxdData spotifyData) false;
  content ← first_content response;
  Returns (or_else content EmptyString).

Definition persona_prompt (name bio : string)
  (letterboxdData : option LetterboxdData) (spotifyData : option SpotifyData)
  (personalityInsight : string) : string :=
  join nl
    [ "Generate a digital twin personality for " +:+ name +:+ " based on:";
      "Bio: " +:+ bio;
      movie_section "Movie Preferences:" letterboxdData;
      music_section "Music Preferences:" spotifyData;
      EmptyString;
      "Personality Analysis: " +:+ personalityInsight;
      EmptyString;
      "Create a personality that matches the user's actual traits and interests.";
      "Only include interests and preferences that are evidenced in the provided data.";
      "Do not make assumptions about media preferences unless specifically shown.";
      EmptyString;
      "Respond with JSON in this format: {";
      "  " +:+ dquote +:+ "interests" +:+ dquote +:+ ": string[],";
      "  " +:+ dquote +:+ "style" +:+ dquote +:+ ": string,";
      "  " +:+ dquote +:+ "traits" +:+ dquote +:+ ": string[],";
      "  " +:+ dquote +:+ "personalityInsight" +:+ dquote +:+ ": string";
      "}" ].

(** The object returned is [{ ...data, personalityInsight }]: whatever the
    parsed response has, with the insight of the first call on top. *)
Definition generateTwinPersonality (env : Env) (name bio : string)
  (letterboxdData : option LetterboxdData) (spotifyData : option SpotifyData)
  : Outcome json :=
  personalityInsight ← analyzePersonality env bio letterboxdData spotifyData;
  response ←
    create env (persona_prompt name bio letterboxdData spotifyData personalityInsight)
      true;
  content ← first_content response;
  data ← JSON_parse env (or_else content "{}");
  Returns (JObject (set_prop (spread data) "personalityInsight"
                      (JString personalityInsight))).

(** The prompt of the chat call; building it reads the persona and throws
    when the persona is [null] or has no array under [interests] or
    [traits]. *)
Definition chat_prompt (twinPersonality : json) (name message : string)
  (context : list string) : Outcome string :=
  interests_v ← get twinPersonality "interests";
  interests ← join_value ", " interests_v;
  style ← get twinPersonality "style";
  traits_v ← get twinPersonality "traits";
  traits ← join_value ", " traits_v;
  insight ← get twinPersonality "personalityInsight";
  Returns
    (join nl
       [ "You are roleplaying as " +:+ name +:+
           ", a digital twin of the user. Stay in character throughout the conversation.";
         EmptyString;
         "Your Personality Profile:";
         "- Name: " +:+ name;
         "- Key Interests: " +:+ interests;
         "- Communication Style: " +:+ template style;
         "- Notable Traits: " +:+ traits;
         EmptyString;
         "Additional Context About You:";
         template insight;
         EmptyString;
         "Your Role:";
         "- You are a digital twin who shares the exact same traits and interests as shown in your profile";
         "- Only discuss topics and preferences that are evidenced in your profile";
         "- If asked about preferences or interests not in your profile, acknowledge that you're still learning about those aspects";
         "- Stay consistently in character, using your defined communication style";
         EmptyString;
         "Previous messages for context:";
         join nl context;
         EmptyString;
         "Remember to maintain your personality while responding to:";
         message ]).

(** [if (content) yield content]: the fragments a list of chunks gives. *)
Definition fragments (chunks : list (option string)) : list string :=
  omap (fun content => if truthy content then content else None) chunks.

(** The async generator, as the sequence it produces: the fragments in
    arrival order, ended by the end of the upstream stream or by whatever was
    thrown, be it while building the prompt, opening the stream or reading
    it. *)
Definition streamChatResponse (env : Env) (twinPersonality : json)
  (name message : string) (context : list string) : Stream string :=
  match chat_prompt twinPersonality name message context with
  | Throws e => {| items := []; ending := Interrupted e |}
  | Returns prompt =>
      match create_stream env prompt with
      | Throws e => {| items := []; ending := Interrupted e |}
      | Returns stream =>
          {| items := fragments (items stream); ending := ending stream |}
      end
  end.

End OpenAI.

(** ** server/spotify.ts

    The two Web API responses are read as typed records: of an artist its
    [name] and [genres], of a recently played item the name of its track, the
    names of the track's artists and [played_at]. *)

Module Spotify.
Import JS.

Record Track : Type := {
  name : string;
  artist : string;
  playedAt : option string
}.

Record SpotifySuccess : Type := {
  topArtists : list string;
  topGenres : list string;
  recentTracks : list Track
}.

(** [SpotifyResult], one variant per [status] tag. *)
Inductive SpotifyResult : Type :=
  | success (s : SpotifySuccess)
  | error (message : string)
  | not_provided.

Record Artist : Type := {
  artist_name : string;
  genres : list string
}.

Record PlayedItem : Type := {
  track_name : string;
  track_artists : list string;
  played_at : option string
}.

(** What a request that does not return throws: an axios error with its
    message and, when the server answered, the body of the answer
    ([error.response.data]); or anything else. *)
Inductive Failure : Type :=
  | AxiosError (message : string) (response : option json)
  | Thrown (e : exn).

Inductive Fetch (A : Type) : Type :=
  | Fetched (a : A)
  | Failed (f : Failure).
Arguments Fetched {A} a.
Arguments Failed {A} f.

(** The process environment and the three requests.  [post_token] is given
    the form body and the credentials that go, base64-encoded, into the
    [Authorization] header; the two [get] requests are given that header.
    When both requests of [Promise.all] fail, [artists_fail_first] says whose
    rejection comes first. *)
Record Env : Type := {
  SPOTIFY_CLIENT_ID : option string;
  SPOTIFY_CLIENT_SECRET : option string;
  SPOTIFY_REDIRECT_URI : option string;
  post_token : string -> string -> Fetch json;
  get_top_artists : string -> Fetch (list Artist);
  get_recently_played : string -> Fetch (list PlayedItem);
  artists_fail_first : bool
}.

(** The string matches [/^:[0-9]+$/]. *)
Definition is_port (s : string) : bool :=
  match s with
  | String ":" (String c r) =>
      match digit c with
      | Some _ => digits_only r
      | None => false
      end
  | _ => false
  end.

(** [s.replace(/:[0-9]+$/, '')]: the leftmost place from which the rest of
    the string is a colon and digits is where the string is cut. *)
Fixpoint strip_port (s : string) : string :=
  if is_port s then EmptyString
  else match s with
       | EmptyString => EmptyString
       | String c r => String c (strip_port r)
       end.

(** [s.replace(/^https?:\/\//, '')] *)
Definition strip_protocol (s : string) : string :=
  if String.prefix "https://" s then drop_chars 8 s
  else if String.prefix "http://" s then drop_chars 7 s
  else s.

Definition getRedirectUri (env : Env) (requestHost : option string) : string :=
  match requestHost with
  | Some (String c r) =>
      let sanitizedHost := strip_protocol (strip_port (String c r)) in
      "https://" +:+ sanitizedHost +:+ "/api/callback/spotify"
  | _ =>
      or_else (SPOTIFY_REDIRECT_URI env) "http://localhost:5000/api/callback/spotify"
  end.

(** The record handed to [URLSearchParams] by [getAuthUrl]: [state] is part
    of it when it is truthy. *)
Definition auth_params (client_id : string) (state requestHost : option string)
  (env : Env) : list (string * string) :=
  [ ("client_id", client_id);
    ("response_type", "code");
    ("redirect_uri", getRedirectUri env requestHost);
    ("scope", join " " ["user-read-recently-played"; "user-top-read";
                        "playlist-read-private"]) ]
  ++ match state with
     | Some (String c r) => [("state", String c r)]
     | _ => []
     end.

Definition getAuthUrl (env : Env) (state requestHost : option string)
  : Outcome string :=
  match SPOTIFY_CLIENT_ID env with
  | Some (String c r) =>
      Returns ("https://accounts.spotify.com/authorize?"
               +:+ URLSearchParams_toString
                     (auth_params (String c r) state requestHost env))
  | _ => Throws (Error "SPOTIFY_CLIENT_ID is not configured" "Error")
  end.

(** [SPOTIFY_CLIENT_ID + ':' + SPOTIFY_CLIENT_SECRET] *)
Definition credentials (env : Env) : string :=
  Letterboxd.interpolate (SPOTIFY_CLIENT_ID env) +:+ ":"
  +:+ Letterboxd.interpolate (SPOTIFY_CLIENT_SECRET env).

(** The [catch] of [getAccessToken]. *)
Definition token_failure (f : Failure) : Outcome (option json) :=
  match f with
  | AxiosError _ (Some data) =>
      description ← get data "error_description";
      code ← get data "error";
      Throws (Error ("Spotify authentication failed: "
                     +:+ template (or_value description code)) "Error")
  | _ => Throws (Error "Failed to authenticate with Spotify" "Error")
  end.

(** The token is [response.data.access_token], whatever that is; [None] is
    [undefined]. *)
Definition getAccessToken (env : Env) (code : string) (requestHost : option string)
  : Outcome (option json) :=
  let params :=
    [ ("grant_type", "authorization_code");
      ("code", code);
      ("redirect_uri", getRedirectUri env requestHost) ] in
  match post_token env (URLSearchParams_toString params) (credentials env) with
  | Fetched data =>
      match get data "access_token" with
      | Returns token => Returns token
      | Throws e => token_failure (Thrown e)
      end
  | Failed f => token_failure f
  end.

(** [Promise.all] of two requests. *)
Definition Promise_all {A B} (first_fails_first : bool) (a : Fetch A) (b : Fetch B)
  : Fetch (A * B) :=
  match a, b with
  | Fetched x, Fetched y => Fetched (x, y)
  | Failed f, Fetched _ => Failed f
  | Fetched _, Failed f => Failed f
  | Failed f, Failed g => Failed (if first_fails_first then f else g)
  end.

(** Lines 140-144: the genres of all the artists, collected in a [Set]. *)
Definition genre_set (artists : list Artist) : list string :=
  fold_left Set_add (flat_map genres artists) [].

(** The callback of [recentTracks.items.slice(0, 10).map(...)]:
    [item.track.artists[0].name] throws on a track without artists. *)
Definition track_of (it : PlayedItem) : Outcome Track :=
  match track_artists it with
  | first :: _ =>
      Returns {| name := track_name it; artist := first; playedAt := played_at it |}
  | [] => Throws (TypeError "Cannot read properties of undefined (reading 'name')")
  end.

Fixpoint tracks_of (its : list PlayedItem) : Outcome (list Track) :=
  match its with
  | [] => Returns []
  | it :: rest =>
      t ← track_of it;
      ts ← tracks_of rest;
      Returns (t :: ts)
  end.

(** The [catch] of [getUserData]. *)
Definition data_failure (f : Failure) : Outcome SpotifyResult :=
  match f with
  | AxiosError _ (Some data) =>
      err ← get data "error";
      detail ← match err with
               | None | Some JNull => Returns None
               | Some e => get e "message"
               end;
      Returns (error ("Spotify API error: " +:+ template (or_value detail err)))
  | AxiosError message None => Returns (error message)
  | Thrown (Error message _) => Returns (error message)
  | Thrown NonError => Returns (error "Failed to fetch Spotify data")
  end.

Definition getUserData (env : Env) (accessToken : option json)
  : Outcome SpotifyResult :=
  let authorization := "Bearer " +:+ template accessToken in
  match Promise_all (artists_fail_first env)
          (get_top_artists env authorization)
          (get_recently_played env authorization) with
  | Fetched (artists, played) =>
      match tracks_of (slice0 10 played) with
      | Returns tracks =>
          Returns (success {| topArtists := map artist_name (slice0 5 artists);
                              topGenres := slice0 5 (genre_set artists);
                              recentTracks := tracks |})
      | Throws e => data_failure (Thrown e)
      end
  | Failed f => data_failure f
  end.

End Spotify.


(** ** server/storage.ts

    The database behind [db] is not part of the repository.  It is modelled
    as the two tables of the schema: [users] keyed by its primary key and
    [messages] as the rows in the order in which they were inserted.  Both
    [serial] keys count upwards.  A [select] without [orderBy] returns the
    rows that match in an order the database chooses: the database carries
    that choice as [scan].  Database failures are not modelled. *)

Module Storage.
Import JS.

Record Message : Type := {
  id : Z;
  userId : Z;
  content : string;
  fromUser : bool
}.

Record User : Type := {
  user_id : Z;
  name : string;
  spotifyUrl : option string;
  letterboxdUrl : option string;
  bio : string;
  letterboxdData : OpenAI.LetterboxdData;
  spotifyData : OpenAI.SpotifyData;
  twinPersonality : json
}.

(** [InsertUser & { letterboxdData?: any; spotifyData?: any }] *)
Record InsertUser : Type := {
  ins_name : string;
  ins_spotifyUrl : option string;
  ins_letterboxdUrl : option string;
  ins_bio : string;
  ins_letterboxdData : option OpenAI.LetterboxdData;
  ins_spotifyData : option OpenAI.SpotifyData
}.

(** The order in which a [select] returns the rows it found. *)
Record Scan : Type := {
  rows_of : list Message -> list Message;
  rows_perm : forall rows, Permutation (rows_of rows) rows
}.

Record DB : Type := {
  users : gmap Z User;
  messages : list Message;
  next_user : Z;
  next_message : Z;
  scan : Scan
}.

Definition lb_not_provided : OpenAI.LetterboxdData :=
  {| OpenAI.lb_status := OpenAI.NotProvided;
     OpenAI.recentRatings := None;
     OpenAI.favoriteGenres := None;
     OpenAI.favoriteFilms := None;
     OpenAI.lb_error := None |}.

Definition sp_not_provided : OpenAI.SpotifyData :=
  {| OpenAI.sp_status := OpenAI.NotProvided;
     OpenAI.topArtists := None;
     OpenAI.topGenres := None;
     OpenAI.recentTracks := None;
     OpenAI.sp_error := None |}.

(** [url || null] *)
Definition or_null (url : option string) : option string :=
  if truthy url then url else None.

Definition getUser (db : DB) (id : Z) : option User := users db !! id.

Definition createUser (db : DB) (insertUser : InsertUser) : DB * User :=
  let user :=
    {| user_id := next_user db;
       name := ins_name insertUser;
       spotifyUrl := or_null (ins_spotifyUrl insertUser);
       letterboxdUrl := or_null (ins_letterboxdUrl insertUser);
       bio := ins_bio insertUser;
       letterboxdData := default lb_not_provided (ins_letterboxdData insertUser);
       spotifyData := default sp_not_provided (ins_spotifyData insertUser);
       twinPersonality := JNull |} in
  ({| users := <[next_user db := user]> (users db);
      messages := messages db;
      next_user := (next_user db + 1)%Z;
      next_message := next_message db;
      scan := scan db |},
   user).

Definition with_users (db : DB) (us : gmap Z User) : DB :=
  {| users := us;
     messages := messages db;
     next_user := next_user db;
     next_message := next_message db;
     scan := scan db |}.

Definition updateUser (db : DB) (id : Z) (insertUser : InsertUser)
  : DB * Outcome User :=
  match users db !! id with
  | Some old =>
      let user :=
        {| user_id := id;
           name := ins_name insertUser;
           spotifyUrl := or_null (ins_spotifyUrl insertUser);
           letterboxdUrl := or_null (ins_letterboxdUrl insertUser);
           bio := ins_bio insertUser;
           letterboxdData := default lb_not_provided (ins_letterboxdData insertUser);
           spotifyData := default sp_not_provided (ins_spotifyData insertUser);
           twinPersonality := twinPersonality old |} in
      (with_users db (<[id := user]> (users db)), Returns user)
  | None => (db, Throws (Error "User not found" "Error"))
  end.

Definition updateUserTwin (db : DB) (id : Z) (personality : json)
  : DB * Outcome User :=
  match users db !! id with
  | Some old =>
      let user :=
        {| user_id := id;
           name := name old;
           spotifyUrl := spotifyUrl old;
           letterboxdUrl := letterboxdUrl old;
           bio := bio old;
           letterboxdData := letterboxdData old;
           spotifyData := spotifyData old;
           twinPersonality := personality |} in
      (with_users db (<[id := user]> (users db)), Returns user)
  | None => (db, Throws (Error "User not found" "Error"))
  end.

(** [select().from(messages).where(eq(messages.userId, userId))] *)
Definition getMessages (db : DB) (uid : Z) : list Message :=
  rows_of (scan db) (List.filter (fun m => (userId m =? uid)%Z) (messages db)).

Definition addMessage (db : DB) (uid : Z) (text : string) (from_user : bool)
  : DB * Message :=
  let message :=
    {| id := next_message db; userId := uid; content := text; fromUser := from_user |} in
  ({| users := users db;
      messages := messages db ++ [message];
      next_user := next_user db;
      next_message := (next_message db + 1)%Z;
      scan := scan db |},
   message).

End Storage.

(** ** The route handlers of [registerRoutes] *)

Module Routes.
Import JS.

(** What a handler hands to the response: a raw chunk, or one of the objects
    it serialises with [JSON.stringify] / [res.json]. *)
Inductive Payload : Type :=
  | Raw (chunk : string)
  | UserMessageLine (userMessage : Storage.Message)
  | ErrorObject (error : string)
  | MessageObject (message : string)
  | UserObject (user : Storage.User).

(** The response object: its status, everything written so far and whether
    [end] was called.  Headers are not kept. *)
Record Res : Type := {
  statusCode : Z;
  body : list Payload;
  writableEnded : bool
}.

Definition fresh : Res := {| statusCode := 200; body := []; writableEnded := false |}.

(** [res.write(p)] *)
Definition write (res : Res) (p : Payload) : Res :=
  {| statusCode := statusCode res; body := body res ++ [p]; writableEnded := writableEnded res |}.

(** [res.end()] and [res.end(p)] *)
Definition end_ (res : Res) (p : option Payload) : Res :=
  {| statusCode := statusCode res;
     body := body res ++ match p with Some x => [x] | None => [] end;
     writableEnded := true |}.

(** [res.status(code).json(p)] *)
Definition status_json (code : Z) (p : Payload) : Res :=
  {| statusCode := code; body := [p]; writableEnded := true |}.

(** *** What the chat handler puts on the wire

    [JSON.stringify] of a message row, with the columns in the order of the
    schema, and the text of each payload the chat handler writes.  The user
    object of the other handlers is not serialized here: the row kept in the
    store holds of a profile what the synthesis functions read. *)
Definition stringify_message (m : Storage.Message) : string :=
  "{" +:+ JSON_quote "id" +:+ ":" +:+ pretty (Storage.id m)
  +:+ "," +:+ JSON_quote "userId" +:+ ":" +:+ pretty (Storage.userId m)
  +:+ "," +:+ JSON_quote "content" +:+ ":" +:+ JSON_quote (Storage.content m)
  +:+ "," +:+ JSON_quote "fromUser" +:+ ":"
  +:+ (if Storage.fromUser m then "true" else "false") +:+ "}".

(** [JSON.stringify({ userMessage })] *)
Definition stringify_control (userMessage : Storage.Message) : string :=
  "{" +:+ JSON_quote "userMessage" +:+ ":" +:+ stringify_message userMessage +:+ "}".

Definition written (p : Payload) : option string :=
  match p with
  | Raw chunk => Some chunk
  | UserMessageLine userMessage => Some (stringify_control userMessage +:+ nl)
  | ErrorObject error => Some ("{" +:+ JSON_quote "error" +:+ ":" +:+ JSON_quote error +:+ "}")
  | MessageObject message =>
      Some ("{" +:+ JSON_quote "message" +:+ ":" +:+ JSON_quote message +:+ "}")
  | UserObject _ => None
  end.

(** The bytes of a response body, in the order of the writes. *)
Fixpoint sent (body : list Payload) : option string :=
  match body with
  | [] => Some EmptyString
  | p :: rest =>
      match written p, sent rest with
      | Some text, Some more => Some (text +:+ more)
      | _, _ => None
      end
  end.

(** [error instanceof Error ? error.message : "An error occurred"] *)
Definition message_of (e : exn) : string :=
  match e with
  | Error message _ => message
  | NonError => "An error occurred"
  end.

(** The profile object as the synthesis functions read it. *)
Definition profile_data (r : Letterboxd.LetterboxdResult) : OpenAI.LetterboxdData :=
  match r with
  | Letterboxd.success p =>
      {| OpenAI.lb_status := OpenAI.Success;
         OpenAI.recentRatings :=
           Some (map (fun x => {| OpenAI.title := Letterboxd.title x;
                                  OpenAI.rating := Letterboxd.rating x;
                                  OpenAI.year := Letterboxd.year x |})
                   (Letterboxd.recentRatings p));
         OpenAI.favoriteGenres := Some (Letterboxd.favoriteGenres p);
         OpenAI.favoriteFilms := Some (Letterboxd.favoriteFilms p);
         OpenAI.lb_error := None |}
  | Letterboxd.error message =>
      {| OpenAI.lb_status := OpenAI.Failure;
         OpenAI.recentRatings := None;
         OpenAI.favoriteGenres := None;
         OpenAI.favoriteFilms := None;
         OpenAI.lb_error := Some message |}
  | Letterboxd.not_provided => Storage.lb_not_provided
  end.

(** [letterboxdData.status === 'success' ? letterboxdData : undefined] *)
Definition if_success (d : OpenAI.LetterboxdData) : option OpenAI.LetterboxdData :=
  match OpenAI.lb_status d with
  | OpenAI.Success => Some d
  | _ => None
  end.

(** Lines 198-200: the profile is fetched when a URL was given. *)
Definition integration (lb : Letterboxd.Env) (userData : Storage.InsertUser)
  : Outcome Letterboxd.LetterboxdResult :=
  match Storage.ins_letterboxdUrl userData with
  | Some (String c r) => Letterboxd.getLetterboxdProfile lb (String c r)
  | _ => Returns Letterboxd.not_provided
  end.

(** *** POST /api/users

    [userData] is the request body after [insertUserSchema.parse], which
    throws on a body that does not validate. *)
Definition create_user (lb : Letterboxd.Env) (ai : OpenAI.Env)
  (parsed : Outcome Storage.InsertUser) (db : Storage.DB) : Storage.DB * Res :=
  match parsed with
  | Throws e => (db, status_json 400 (MessageObject (message_of e)))
  | Returns userData =>
      let '(db1, user) := Storage.createUser db userData in
      match integration lb userData with
      | Throws e => (db1, status_json 400 (MessageObject (message_of e)))
      | Returns result =>
          let letterboxdData := profile_data result in
          let update :=
            {| Storage.ins_name := Storage.ins_name userData;
               Storage.ins_spotifyUrl := Storage.ins_spotifyUrl userData;
               Storage.ins_letterboxdUrl := Storage.ins_letterboxdUrl userData;
               Storage.ins_bio := Storage.ins_bio userData;
               Storage.ins_letterboxdData := Some letterboxdData;
               Storage.ins_spotifyData := Some Storage.sp_not_provided |} in
          match Storage.updateUser db1 (Storage.user_id user) update with
          | (db2, Throws e) => (db2, status_json 400 (MessageObject (message_of e)))
          | (db2, Returns _) =>
              match OpenAI.generateTwinPersonality ai
                      (Storage.ins_name userData) (Storage.ins_bio userData)
                      (if_success letterboxdData) None with
              | Throws e => (db2, status_json 400 (MessageObject (message_of e)))
              | Returns twin =>
                  match Storage.updateUserTwin db2 (Storage.user_id user) twin with
                  | (db3, Throws e) =>
                      (db3, status_json 400 (MessageObject (message_of e)))
                  | (db3, Returns finalUser) =>
                      (db3, status_json 200 (UserObject finalUser))
                  end
              end
          end
      end
  end.

(** *** POST /api/users/:id/messages *)

(** Lines 307-309: the context handed to the chat call. *)
Definition context (twin_name : string) (messages : list Storage.Message)
  : list string :=
  map (fun m => (if Storage.fromUser m then "User" else twin_name)
                +:+ ": " +:+ Storage.content m)
      (slice_last 5 messages).

(** What the handler does at the generator, in order: a request for the next
    fragment, or a fragment forwarded to the response. *)
Inductive Event : Type :=
  | Next
  | Forward (chunk : string).

(** The client: the number of writes it takes before it closes the
    connection, if it ever does.  The handler registers no listener on the
    request or the socket and takes no abort signal, so it does not see this;
    writes to a closed connection are dropped by the transport. *)
Record Client : Type := {
  closes_after : option nat
}.

Definition patient : Client := {| closes_after := None |}.

(** What the client has received of a response. *)
Definition received (client : Client) (res : Res) : list Payload :=
  match closes_after client with
  | Some k => take k (body res)
  | None => body res
  end.

(** The state of the [for await] loop. *)
Record Loop : Type := {
  res : Res;
  fullResponse : string;
  trace : list Event
}.

(** Lines 314-322: every fragment is written to the response and appended to
    [fullResponse] before the next one is asked for; the last request meets
    the end of the sequence. *)
Fixpoint for_await (chunks : list string) (st : Loop) : Loop :=
  match chunks with
  | [] =>
      {| res := res st; fullResponse := fullResponse st; trace := trace st ++ [Next] |}
  | chunk :: rest =>
      for_await rest
        {| res := write (res st) (Raw chunk);
           fullResponse := fullResponse st +:+ chunk;
           trace := trace st ++ [Next; Forward chunk] |}
  end.

(** The result of the handler: the database and the response it leaves, and
    the order of its dealings with the generator. *)
Record Handled : Type := {
  db_after : Storage.DB;
  response : Res;
  events : list Event
}.

(** Lines 306-319: the generator the loop runs over, made from the user's
    persona and name, the new message and the context of [messages]. *)
Definition reply (ai : OpenAI.Env) (user : Storage.User) (content : string)
  (messages : list Storage.Message) : OpenAI.Stream string :=
  OpenAI.streamChatResponse ai (Storage.twinPersonality user)
    (Storage.name user) content (context (Storage.name user) messages).

Definition send_message (ai : OpenAI.Env) (client : Client) (uid : Z)
  (content : string) (db : Storage.DB) : Handled :=
  match Storage.getUser db uid with
  | None =>
      {| db_after := db;
         response := status_json 404 (MessageObject "User not found");
         events := [] |}
  | Some user =>
      (* Save user message first *)
      let '(db1, userMessage) := Storage.addMessage db uid content true in
      (* Send user message object first *)
      let res0 := write fresh (UserMessageLine userMessage) in
      (* Get context from previous messages; stream the twin's response *)
      let stream := reply ai user content (Storage.getMessages db1 uid) in
      let st :=
        for_await (OpenAI.items stream)
          {| res := res0; fullResponse := EmptyString; trace := [] |} in
      match OpenAI.ending stream with
      | OpenAI.EndOfStream =>
          (* Save twin's complete response *)
          let '(db2, _) := Storage.addMessage db1 uid (fullResponse st) false in
          {| db_after := db2; response := end_ (res st) None; events := trace st |}
      | OpenAI.Interrupted _ =>
          {| db_after := db1;
             response :=
               if writableEnded (res st) then res st
               else end_ (res st) (Some (ErrorObject "Failed to generate response"));
             events := trace st |}
      end
  end.

(** *** PATCH /api/users/:id *)

(** Lines 245-248: the Spotify entry the handler writes. *)
Definition patched_spotify (userData : Storage.InsertUser) : OpenAI.SpotifyData :=
  if truthy (Storage.ins_spotifyUrl userData) then
    {| OpenAI.sp_status := OpenAI.Failure;
       OpenAI.topArtists := None;
       OpenAI.topGenres := None;
       OpenAI.recentTracks := None;
       OpenAI.sp_error := Some "Spotify integration not implemented yet" |}
  else Storage.sp_not_provided.

Definition update_user (lb : Letterboxd.Env) (ai : OpenAI.Env)
  (parsed : Outcome Storage.InsertUser) (userId : Z) (db : Storage.DB)
  : Storage.DB * Res :=
  match parsed with
  | Throws e => (db, status_json 400 (MessageObject (message_of e)))
  | Returns userData =>
      match Storage.getUser db userId with
      | None => (db, status_json 404 (MessageObject "User not found"))
      | Some _ =>
          match integration lb userData with
          | Throws e => (db, status_json 400 (MessageObject (message_of e)))
          | Returns result =>
              let letterboxdData := profile_data result in
              let update :=
                {| Storage.ins_name := Storage.ins_name userData;
                   Storage.ins_spotifyUrl := Storage.ins_spotifyUrl userData;
                   Storage.ins_letterboxdUrl := Storage.ins_letterboxdUrl userData;
                   Storage.ins_bio := Storage.ins_bio userData;
                   Storage.ins_letterboxdData := Some letterboxdData;
                   Storage.ins_spotifyData := Some (patched_spotify userData) |} in
              match Storage.updateUser db userId update with
              | (db1, Throws e) => (db1, status_json 400 (MessageObject (message_of e)))
              | (db1, Returns _) =>
                  match OpenAI.generateTwinPersonality ai
                          (Storage.ins_name userData) (Storage.ins_bio userData)
                          (if_success letterboxdData) None with
                  | Throws e => (db1, status_json 400 (MessageObject (message_of e)))
                  | Returns twin =>
                      match Storage.updateUserTwin db1 userId twin with
                      | (db2, Throws e) =>
                          (db2, status_json 400 (MessageObject (message_of e)))
                      | (db2, Returns updatedUser) =>
                          (db2, status_json 200 (UserObject updatedUser))
                      end
                  end
              end
          end
      end
  end.

(** *** GET /api/users/:id and GET /api/users/:id/messages *)


Definition get_messages (userId : Z) (db : Storage.DB) : list Storage.Message :=
  Storage.getMessages db userId.

(** *** The Spotify endpoints

    They answer with a redirect or with an error object.  The session keeps
    the two fields the handlers write. *)
Inductive Reply : Type :=
  | Redirect (location : string)
  | Json (status : Z) (error : string) (details : option string).

Record Session : Type := {
  originalHost : option string;
  pendingSpotifyData : option Spotify.SpotifyResult
}.

(** GET /api/connect/spotify; [userId] is [req.query.userId] and [host] is
    [req.get('host')]. *)
Definition connect_spotify (sp : Spotify.Env) (userId host : option string)
  (session : Session) : Session * Reply :=
  match userId with
  | Some (String c r) =>
      let state := String c r in
      let session1 :=
        {| originalHost := Some (or_else host EmptyString);
           pendingSpotifyData := pendingSpotifyData session |} in
      match Spotify.getAuthUrl sp (Some state) host with
      | Returns authUrl => (session1, Redirect authUrl)
      | Throws e =>
          (session1,
           Json 500
             match e with
             | Error message _ => message
             | NonError => "Failed to connect to Spotify"
             end
             (Some "An unexpected error occurred during Spotify connection"))
      end
  | _ => (session, Json 400 "Missing userId parameter" None)
  end.

(** The Spotify result as the stored profile and the synthesis functions
    read it. *)
Definition spotify_data (r : Spotify.SpotifyResult) : OpenAI.SpotifyData :=
  match r with
  | Spotify.success s =>
      {| OpenAI.sp_status := OpenAI.Success;
         OpenAI.topArtists := Some (Spotify.topArtists s);
         OpenAI.topGenres := Some (Spotify.topGenres s);
         OpenAI.recentTracks :=
           Some (map (fun t => {| OpenAI.name := Spotify.name t;
                                  OpenAI.artist := Spotify.artist t;
                                  OpenAI.playedAt := Spotify.playedAt t |})
                   (Spotify.recentTracks s));
         OpenAI.sp_error := None |}
  | Spotify.error message =>
      {| OpenAI.sp_status := OpenAI.Failure;
         OpenAI.topArtists := None;
         OpenAI.topGenres := None;
         OpenAI.recentTracks := None;
         OpenAI.sp_error := Some message |}
  | Spotify.not_provided => Storage.sp_not_provided
  end.

(** [spotifyData.status === 'success' ? spotifyData : undefined] *)
Definition if_connected (d : OpenAI.SpotifyData) : option OpenAI.SpotifyData :=
  match OpenAI.sp_status d with
  | OpenAI.Success => Some d
  | _ => None
  end.

(** [{ ...user, spotifyData }] as [updateUser] reads it. *)
Definition with_spotify (user : Storage.User) (spotifyData : OpenAI.SpotifyData)
  : Storage.InsertUser :=
  {| Storage.ins_name := Storage.name user;
     Storage.ins_spotifyUrl := Storage.spotifyUrl user;
     Storage.ins_letterboxdUrl := Storage.letterboxdUrl user;
     Storage.ins_bio := Storage.bio user;
     Storage.ins_letterboxdData := Some (Storage.letterboxdData user);
     Storage.ins_spotifyData := Some spotifyData |}.

(** What the callback leaves behind. *)
Record Called : Type := {
  stored : Storage.DB;
  session_after : Session;
  reply_sent : Reply
}.

(** Lines 133-165, the [try] block of the callback, with the database and
    the session as it leaves them: [Throws] is what its [catch] receives. *)
Definition exchange (sp : Spotify.Env) (ai : OpenAI.Env) (Number : string -> Z)
  (code userId : string) (host : option string) (session : Session)
  (db : Storage.DB) : Storage.DB * Session * Outcome Reply :=
  match Spotify.getAccessToken sp code host with
  | Throws e => (db, session, Throws e)
  | Returns accessToken =>
      match Spotify.getUserData sp accessToken with
      | Throws e => (db, session, Throws e)
      | Returns spotifyData =>
          if String.eqb userId "pending" then
            (* Store Spotify data in session and redirect back to create form *)
            (db,
             {| originalHost := originalHost session;
                pendingSpotifyData := Some spotifyData |},
             Returns (Redirect "/?spotify=connected"))
          else
            (* Update user with Spotify data *)
            match Storage.getUser db (Number userId) with
            | None => (db, session, Returns (Redirect "/?error=user_not_found"))
            | Some user =>
                (* Generate new twin personality with updated data *)
                match OpenAI.generateTwinPersonality ai
                        (Storage.name user) (Storage.bio user)
                        (if_success (Storage.letterboxdData user))
                        (if_connected (spotify_data spotifyData)) with
                | Throws e => (db, session, Throws e)
                | Returns twin =>
                    match Storage.updateUser db (Storage.user_id user)
                            (with_spotify user (spotify_data spotifyData)) with
                    | (db1, Throws e) => (db1, session, Throws e)
                    | (db1, Returns _) =>
                        match Storage.updateUserTwin db1 (Storage.user_id user) twin with
                        | (db2, Throws e) => (db2, session, Throws e)
                        | (db2, Returns _) =>
                            (db2, session, Returns (Redirect ("/chat/" +:+ userId)))
                        end
                    end
                end
            end
      end
  end.

(** GET /api/callback/spotify; [code], [userId] and [error] are the query
    parameters [code], [state] and [error], and [Number] is the conversion of
    [Number(userId)] on the ids the route is given. *)
Definition spotify_callback (sp : Spotify.Env) (ai : OpenAI.Env) (Number : string -> Z)
  (code userId error host : option string) (session : Session) (db : Storage.DB)
  : Called :=
  match error with
  | Some (String c r) =>
      {| stored := db;
         session_after := session;
         reply_sent := Redirect ("/?error=" +:+ String c r) |}
  | _ =>
      match code, userId with
      | Some (String c r), Some (String c' r') =>
          let '(db1, session1, outcome) :=
            exchange sp ai Number (String c r) (String c' r') host session db in
          {| stored := db1;
             session_after := session1;
             reply_sent :=
               match outcome with
               | Returns reply => reply
               | Throws _ => Redirect "/?error=spotify_auth_failed"
               end |}
      | _, _ =>
          {| stored := db;
             session_after := session;
             reply_sent := Redirect "/?error=missing_params" |}
      end
  end.

(** *** GET /api/test/letterboxd *)

Inductive Tested : Type :=
  | Profile (result : Letterboxd.LetterboxdResult)
  | Refused (status : Z) (error : string).

Definition test_letterboxd (lb : Letterboxd.Env) (url : option string) : Tested :=
  match url with
  | Some (String c r) =>
      match Letterboxd.getLetterboxdProfile lb (String c r) with
      | Returns result => Profile result
      | Throws e =>
          Refused 500
            match e with
            | Error message _ => message
            | NonError => "Unknown error"
            end
      end
  | _ => Refused 400 "URL parameter required"
  end.

End Routes.

(** ** The configuration module (server/vite.ts, second part)

    The module runs once when it is loaded; [load] is that run, from the
    process environment to the exported [config] or to the error thrown. *)

Module Config.
Import JS.

(** What [new URL(...)] exposes to this module. *)
Record URL : Type := {
  host : string;
  pathname : string
}.

Record Env : Type := {
  process_env : string -> option string;
  new_URL : string -> Outcome URL
}.

(** The exported object, category by category. *)
Record Config : Type := {
  openai_apiKey : option string;
  database_url : option string;
  server_port : number;
  server_nodeEnv : string;
  server_isProduction : bool;
  session_secret : option string
}.

(** [parseInt(s, 10)]: leading white space and a sign are skipped, then the
    longest run of digits is read; [NaN] when there is none. *)
Definition parseInt (s : string) : number :=
  let s0 := trimStart s in
  let '(neg, s1) :=
    match s0 with
    | String "-" t => (true, t)
    | String "+" t => (false, t)
    | _ => (false, s0)
    end in
  let '(i, n, _) := digits s1 0%Z 0%nat in
  match n with
  | O => NaN
  | S _ =>
      match binary64 (inject_Z i) with
      | Some v => Fin (if neg then Qopp v else v)
      | None => Infinity neg
      end
  end.

Definition requiredEnvVars : list string :=
  ["DATABASE_URL"; "OPENAI_API_KEY"; "SESSION_SECRET"].

Definition missingEnvVars (env : Env) : list string :=
  List.filter (fun envVar => negb (truthy (process_env env envVar))) requiredEnvVars.

(** Lines 136-143: the [try] around the URL check, and its [catch]. *)
Definition check_database_url (env : Env) (url : string) : Outcome unit :=
  try_catch
    (dbUrl ← new_URL env url;
     if String.eqb (host dbUrl) EmptyString || String.eqb (pathname dbUrl) EmptyString
     then Throws (Error "Invalid DATABASE_URL format" "Error")
     else Returns tt)
    (fun error =>
       Throws (Error ("Invalid DATABASE_URL format: "
                      +:+ match error with
                          | Error message _ => message
                          | NonError => "unknown error"
                          end) "Error")).

Definition is_undefined (value : option string) : bool :=
  match value with
  | Some _ => false
  | None => true
  end.

(** Lines 163-168: the entries of [config] in order, with whether the value
    is [undefined] or [null]; a Number and a boolean never are. *)
Definition undefined_entries (config : Config) : list (string * bool) :=
  [ ("openai.apiKey", is_undefined (openai_apiKey config));
    ("database.url", is_undefined (database_url config));
    ("server.port", false);
    ("server.nodeEnv", false);
    ("server.isProduction", false);
    ("session.secret", is_undefined (session_secret config)) ].

Fixpoint type_guard (entries : list (string * bool)) : Outcome unit :=
  match entries with
  | [] => Returns tt
  | (key, true) :: _ =>
      Throws (Error ("Configuration error: " +:+ key +:+ " is not defined") "Error")
  | (_, false) :: rest => type_guard rest
  end.

Definition load (env : Env) : Outcome Config :=
  match missingEnvVars env with
  | _ :: _ =>
      Throws (Error ("Missing required environment variables: "
                     +:+ join ", " (missingEnvVars env)) "Error")
  | [] =>
      let PORT := parseInt (or_else (process_env env "PORT") "3000") in
      let NODE_ENV := or_else (process_env env "NODE_ENV") "development" in
      match process_env env "DATABASE_URL" with
      | Some (String c r) =>
          _ ← check_database_url env (String c r);
          let config :=
            {| openai_apiKey := process_env env "OPENAI_API_KEY";
               database_url := process_env env "DATABASE_URL";
               server_port := PORT;
               server_nodeEnv := NODE_ENV;
               server_isProduction := String.eqb NODE_ENV "production";
               session_secret := process_env env "SESSION_SECRET" |} in
          _ ← type_guard (undefined_entries config);
          Returns config
      | _ => Throws (Error "DATABASE_URL is required" "Error")
      end
  end.

End Config.

(** ** client/src/pages/chat.tsx: the [sendMessage] mutation

    The state the mutation writes: the text shown while the reply streams,
    the messages it adds to the cached history, the optimistic message and the
    streaming flag.  A read of the response body is the text its bytes decode
    to. *)

Module Client.
Import JS.

Record View : Type := {
  streamingMessage : string;
  cached : list (option json);
  optimisticMessage : option string;
  isStreaming : bool
}.

(** The response of [fetch]: [ok], and the reads of the body reader with the
    way they end, when there is a body. *)
Record Response : Type := {
  ok : bool;
  body : option (OpenAI.Stream string)
}.

(** [fetch] is given the URL and the content that goes into the body. *)
Record Env : Type := {
  fetch : string -> string -> Outcome Response;
  JSON_parse : string -> Outcome json
}.

(** [text.split('\n')[0]] *)
Definition first_line (text : string) : string :=
  match split (ascii_of_nat 10) text with
  | line :: _ => line
  | [] => EmptyString
  end.

(** [const { userMessage } = JSON.parse(...)]: destructuring [null] throws. *)
Definition userMessage_of (env : Env) (text : string) : Outcome (option json) :=
  parsed ← JSON_parse env (first_line text);
  get parsed "userMessage".

(** [setStreamingMessage(prev => prev + text)] *)
Definition show (view : View) (text : string) : View :=
  {| streamingMessage := streamingMessage view +:+ text;
     cached := cached view;
     optimisticMessage := optimisticMessage view;
     isStreaming := isStreaming view |}.

(** Lines 100-113 for the first read. *)
Definition first_read (env : Env) (view : View) (text : string) : View :=
  match userMessage_of env text with
  | Returns userMessage =>
      (* Add user message to the messages array; clear optimistic message *)
      {| streamingMessage := streamingMessage view;
         cached := cached view ++ [userMessage];
         optimisticMessage := None;
         isStreaming := isStreaming view |}
  | Throws _ => show view text
  end.

(** The [while] loop over the reads. *)
Definition read_all (env : Env) (view : View) (reads : list string) : View :=
  match reads with
  | [] => view
  | first :: rest => fold_left show rest (first_read env view first)
  end.

(** The [finally] block. *)
Definition settle (view : View) : View :=
  {| streamingMessage := streamingMessage view;
     cached := cached view;
     optimisticMessage := None;
     isStreaming := false |}.

(** [mutationFn] on the page of user [id]: the view it leaves and whether
    it threw. *)
Definition sendMessage (env : Env) (id : option string) (content : string)
  (view : View) : View * Outcome unit :=
  let started :=
    {| streamingMessage := EmptyString;
       cached := cached view;
       optimisticMessage := Some content;
       isStreaming := true |} in
  match fetch env ("/api/users/" +:+ Letterboxd.interpolate id +:+ "/messages")
          content with
  | Throws e => (settle started, Throws e)
  | Returns response =>
      if negb (ok response) then
        (settle started, Throws (Error "Failed to send message" "Error"))
      else
        match body response with
        | None => (settle started, Throws (Error "No response stream" "Error"))
        | Some stream =>
            let read := read_all env started (OpenAI.items stream) in
            match OpenAI.ending stream with
            | OpenAI.EndOfStream => (settle read, Returns tt)
            | OpenAI.Interrupted e => (settle read, Throws e)
            end
        end
  end.

End Client.

(** ** Vocabulary of the specification *)

Module Spec.
Import JS.

(** The concatenation, in order, of a sequence of fragments. *)
Definition concatenation (fragments : list string) : string :=
  foldr String.append EmptyString fragments.

(** The raw text chunks among what a response carries, in order. *)
Definition raw_chunks (body : list Routes.Payload) : list string :=
  omap (fun p => match p with
                 | Routes.Raw chunk => Some chunk
                 | _ => None
                 end) body.

(** The fragments forwarded to the consumer, in order. *)
Definition forwarded (events : list Routes.Event) : list string :=
  omap (fun ev => match ev with
                  | Routes.Forward chunk => Some chunk
                  | Routes.Next => None
                  end) events.

(** How many times a next fragment is requested once [n] fragments have been
    forwarded. *)
Fixpoint requests_after (n : nat) (events : list Routes.Event) : nat :=
  match events with
  | [] => 0
  | Routes.Next :: rest =>
      (match n with O => 1 | S _ => 0 end + requests_after n rest)%nat
  | Routes.Forward _ :: rest => requests_after (pred n) rest
  end.

(** The reply the chat route generates for [content] sent to [user]: the
    generator is made once the message is in the log. *)
Definition generated (ai : OpenAI.Env) (db : Storage.DB) (uid : Z)
  (user : Storage.User) (content : string) : OpenAI.Stream string :=
  Routes.reply ai user content
    (Storage.getMessages (fst (Storage.addMessage db uid content true)) uid).

(** A chat request completes normally: the response is ended with status 200
    and carries no error object. *)
Definition completed (h : Routes.Handled) : bool :=
  (Routes.statusCode (Routes.response h) =? 200)%Z
  && Routes.writableEnded (Routes.response h)
  && forallb (fun p => match p with
                       | Routes.ErrorObject _ | Routes.MessageObject _ => false
                       | _ => true
                       end) (Routes.body (Routes.response h)).

(** The channel a fetch obtained, when it got that far. *)
Definition feed (env : Letterboxd.Env) (url : string) : option Letterboxd.Channel :=
  match Letterboxd.extractUsername env url with
  | Returns username =>
      match Letterboxd.axios_get env (Letterboxd.rssUrl username) with
      | Returns response =>
          match Letterboxd.data response with
          | Some text =>
              match Letterboxd.parseXml env text with
              | Returns (Some channel) => Some channel
              | _ => None
              end
          | None => None
          end
      | Throws _ => None
      end
  | Throws _ => None
  end.

(** The items a fetch examines: the first twenty of the feed. *)
Definition examined (channel : Letterboxd.Channel) : list Letterboxd.Item :=
  take 20 (default [] (Letterboxd.item channel)).

(** The processed items: the rating records the callback gives for the
    examined items, in feed order. *)
Definition processed (channel : Letterboxd.Channel) : list Letterboxd.LetterboxdRating :=
  omap (fun it => snd (Letterboxd.process_item [] it)) (examined channel).

(** A rating of at least 90% of the maximum of the 0-5 scale. *)
Definition high_rated (r : Letterboxd.LetterboxdRating) : bool :=
  ge (parseFloat (Letterboxd.rating r)) ((9 # 10) * 5).

(** The genres an item is tagged with, when its genre element is text: the
    pieces between commas, without the white space around them. *)
Definition genres_read (it : Letterboxd.Item) : list string :=
  match Letterboxd.filmGenres it with
  | Some (Leaf g) => map trim (split "," g)
  | _ => []
  end.

(** The genres read from the examined items, in feed order. *)
Definition all_genres (channel : Letterboxd.Channel) : list string :=
  flat_map genres_read (examined channel).

(** The item is one the callback does not give up on: its genre element is
    not an object. *)
Definition kept (it : Letterboxd.Item) : bool :=
  match Letterboxd.filmGenres it with
  | Some (Node _) => false
  | _ => true
  end.

(** How often a genre occurs. *)
Definition frequency (genres : list string) (g : string) : nat :=
  count_occ String.string_dec genres g.

(** The distinct genres in the order in which they are first seen. *)
Definition first_seen (genres : list string) : list string :=
  fold_left (fun seen g => if existsb (String.eqb g) seen then seen else seen ++ [g])
    genres [].

(** [a] is seen before [b]: [a] occurs, and nothing before its first
    occurrence is [a] or [b]. *)
Definition seen_before (genres : list string) (a b : string) : Prop :=
  exists l1 l2, genres = l1 ++ a :: l2 /\ ~ In a l1 /\ ~ In b l1 /\ a <> b.

(** [a] ranks before [b]: it is more frequent or, at equal frequency, seen
    first. *)
Definition ranks_before (genres : list string) (a b : string) : Prop :=
  frequency genres b < frequency genres a
  \/ (frequency genres a = frequency genres b /\ seen_before genres a b).

(** A genre name that is neither an array index nor the name of a member of
    [Object.prototype]. *)
Definition plain (g : string) : bool :=
  match array_index g with
  | Some _ => false
  | None => negb (inherits_function g) && negb (String.eqb g "__proto__")
  end.

(** [a] stands before an occurrence of [b] in [l]. *)
Definition precedes {A} (l : list A) (a b : A) : Prop :=
  exists l1 l2, l = l1 ++ a :: l2 /\ In b l2.

(** The comparator [(x, y) => key(y) - key(x)]. *)
Definition by_key_desc {A} (key : A -> nat) (x y : A) : Z :=
  (Z.of_nat (key y) - Z.of_nat (key x))%Z.

(** Descending by [key], and in the order of [l] among equal keys. *)
Definition stable_desc {A} (key : A -> nat) (l : list A) (a b : A) : Prop :=
  key b < key a \/ (key a = key b /\ precedes l a b).

(** The table with the count [f k] under every key [k] of a list. *)
Definition counts (f : string -> nat) (keys : list string) : Obj :=
  map (fun k => (k, Num (f k))) keys.

(** The value of a hexadecimal digit. *)
Definition hex_value (c : ascii) : option nat :=
  let n := nat_of_ascii c in
  if ((48 <=? n) && (n <=? 57))%nat then Some (n - 48)%nat
  else if ((65 <=? n) && (n <=? 70))%nat then Some (n - 55)%nat
  else if ((97 <=? n) && (n <=? 102))%nat then Some (n - 87)%nat
  else None.

(** The reading of urlencoded text: [+] is a space, [%XX] a byte. *)
Fixpoint urldecode (s : string) : string :=
  match s with
  | EmptyString => EmptyString
  | String c r =>
      if Ascii.eqb c "+" then String " " (urldecode r)
      else if Ascii.eqb c "%" then
        match r with
        | String a (String b r') =>
            match hex_value a, hex_value b with
            | Some x, Some y => String (ascii_of_nat (16 * x + y)) (urldecode r')
            | _, _ => String c (urldecode r)
            end
        | _ => String c (urldecode r)
        end
      else String c (urldecode r)
  end.

(** The pairs a receiver reads from a query: the text is cut at every [&],
    empty pieces are skipped, each piece is cut at its first [=], and both
    halves are decoded. *)
Definition parse_pair (piece : string) : string * string :=
  match split "=" piece with
  | k :: rest => (urldecode k, urldecode (join "=" rest))
  | [] => (EmptyString, EmptyString)
  end.

Definition parse_query (query : string) : list (string * string) :=
  map parse_pair
    (List.filter (fun piece => negb (String.eqb piece EmptyString))
       (split "&" query)).


(** The member rating of an item is text that reads as at least 4.5. *)
Definition stars_high (it : Letterboxd.Item) : bool :=
  match Letterboxd.memberRating it with
  | Some (Leaf stars) => ge (parseFloat stars) (45 # 10)
  | _ => false
  end.

(** The title of an item that is kept, has a title and is rated at least
    4.5. *)
Definition favorite_title (it : Letterboxd.Item) : option element :=
  if kept it && present (Letterboxd.filmTitle it) && stars_high it
  then Letterboxd.filmTitle it else None.

(** The character occurs in the string. *)
Fixpoint occurs (c : ascii) (s : string) : bool :=
  match s with
  | EmptyString => false
  | String d r => Ascii.eqb d c || occurs c r
  end.

(** One pair of a serialized query. *)
Definition encoded_pair (p : string * string) : string :=
  urlencode (fst p) +:+ "=" +:+ urlencode (snd p).

(** What a played item becomes in the Spotify profile. *)
Definition track_from (it : Spotify.PlayedItem) (t : Spotify.Track) : Prop :=
  Spotify.name t = Spotify.track_name it
  /\ head (Spotify.track_artists it) = Some (Spotify.artist t)
  /\ Spotify.playedAt t = Spotify.played_at it.

(** A stored URL is [null] or a non-empty string. *)
Definition stored_url (url : option string) : Prop := Storage.or_null url = url.

(** The store as the database keeps it: every row is kept under its own id,
    the ids given out are below the counters of the two [serial] keys, no
    stored URL is the empty string, and the ids of the messages grow along
    the log. *)
Record consistent (db : Storage.DB) : Prop := {
  keyed : forall k u, Storage.users db !! k = Some u -> Storage.user_id u = k;
  users_below :
    forall k u, Storage.users db !! k = Some u -> (k < Storage.next_user db)%Z;
  urls_stored :
    forall k u, Storage.users db !! k = Some u ->
                stored_url (Storage.spotifyUrl u)
                /\ stored_url (Storage.letterboxdUrl u);
  messages_below :
    Forall (fun m => (Storage.id m < Storage.next_message db)%Z) (Storage.messages db);
  messages_grow :
    StronglySorted (fun a b => (Storage.id a < Storage.id b)%Z) (Storage.messages db)
}.

(** A stored row with its Spotify entry and its persona replaced. *)
Definition connected (user : Storage.User) (spotifyData : OpenAI.SpotifyData)
  (twin : json) : Storage.User :=
  {| Storage.user_id := Storage.user_id user;
     Storage.name := Storage.name user;
     Storage.spotifyUrl := Storage.spotifyUrl user;
     Storage.letterboxdUrl := Storage.letterboxdUrl user;
     Storage.bio := Storage.bio user;
     Storage.letterboxdData := Storage.letterboxdData user;
     Storage.spotifyData := spotifyData;
     Storage.twinPersonality := twin |}.

(** A persona the chat prompt can be built from: an object with an array
    under [interests] and under [traits]. *)
Definition is_array (v : option json) : bool :=
  match v with
  | Some (JArray _) => true
  | _ => false
  end.

Definition chat_ready (persona : json) : bool :=
  match persona with
  | JObject props =>
      is_array (lookup_prop props "interests") && is_array (lookup_prop props "traits")
  | _ => false
  end.



(** The turn log of a user: the user's turns in the order of their
    creation. *)
Definition turn_log (db : Storage.DB) (uid : Z) : list Storage.Message :=
  List.filter (fun m => (Storage.userId m =? uid)%Z) (Storage.messages db).



(** The text of the error object the chat handler ends a failed reply
    with. *)
Definition error_text : string :=
  "{" +:+ JSON_quote "error" +:+ ":" +:+ JSON_quote "Failed to generate response" +:+ "}".

End Spec.

(** ** Test doubles *)

Module Stub.
Import JS.

Definition persona : json :=
  JObject [ ("interests", JArray [JString "film"; JString "jazz"]);
            ("style", JString "warm");
            ("traits", JArray [JString "curious"]);
            ("personalityInsight", JString "Watches a film most evenings.") ].

Definition ada : Storage.User :=
  {| Storage.user_id := 1;
     Storage.name := "Ada";
     Storage.spotifyUrl := None;
     Storage.letterboxdUrl := None;
     Storage.bio := "Engineer";
     Storage.letterboxdData := Storage.lb_not_provided;
     Storage.spotifyData := Storage.sp_not_provided;
     Storage.twinPersonality := persona |}.

(** A database that returns rows in the order of their insertion, and one
    whose scan starts in the middle of the rows and wraps around. *)
Definition in_order : Storage.Scan :=
  {| Storage.rows_of := fun rows => rows;
     Storage.rows_perm := fun rows => Permutation_refl rows |}.


(** A database holding one user and no messages. *)
Definition db : Storage.DB :=
  {| Storage.users := {[ 1%Z := ada ]};
     Storage.messages := [];
     Storage.next_user := 2;
     Storage.next_message := 1;
     Storage.scan := in_order |}.

Definition syntax_error : exn := Error "Unexpected token" "SyntaxError".

(** A streaming service that emits [chunks] and then ends as [ending]. *)
Definition streaming (chunks : list (option string)) (ending : OpenAI.StreamEnd)
  : OpenAI.Env :=
  {| OpenAI.create := fun _ _ => Throws NonError;
     OpenAI.create_stream :=
       fun _ => Returns {| OpenAI.items := chunks; OpenAI.ending := ending |};
     OpenAI.JSON_parse := fun _ => Throws syntax_error |}.

Definition StreamInterruptedError : exn :=
  Error "stream interrupted" "StreamInterruptedError".

(** A model service whose first call gives an insight and whose second,
    structured call gives no content; [JSON.parse] is given on the one text
    it is then applied to. *)
Definition sparse : OpenAI.Env :=
  {| OpenAI.create :=
       fun _ json_mode =>
         Returns {| OpenAI.choices :=
                      [if json_mode then None else Some "Curious engineer."] |};
     OpenAI.create_stream := fun _ => Throws NonError;
     OpenAI.JSON_parse :=
       fun text => if String.eqb text "{}" then Returns (JObject [])
                   else Throws syntax_error |}.

(** A model service that answers every call with no content. *)
Definition silent : OpenAI.Env :=
  {| OpenAI.create := fun _ _ => Returns {| OpenAI.choices := [None] |};
     OpenAI.create_stream := fun _ => Throws NonError;
     OpenAI.JSON_parse := fun _ => Throws syntax_error |}.

(** A profile provider that is never reached. *)
Definition offline : Letterboxd.Env :=
  {| Letterboxd.new_URL := fun _ => None;
     Letterboxd.axios_get := fun _ => Throws (Error "Network Error" "AxiosError");
     Letterboxd.parseXml := fun _ => Throws NonError |}.

(** A profile provider whose requests fail. *)
Definition unreachable : Letterboxd.Env :=
  {| Letterboxd.new_URL :=
       fun _ => Some {| Letterboxd.hostname := "letterboxd.com";
                        Letterboxd.pathname := "/ada/" |};
     Letterboxd.axios_get := fun _ => Throws (Error "Network Error" "AxiosError");
     Letterboxd.parseXml := fun _ => Throws NonError |}.




(** A streaming service whose chunks are not all text. *)
Definition sputtering : OpenAI.Env :=
  streaming [Some "a"; None; Some EmptyString; Some "b"] OpenAI.EndOfStream.

(** A valid request body without profile links. *)
Definition engineer : Storage.InsertUser :=
  {| Storage.ins_name := "Ada";
     Storage.ins_spotifyUrl := None;
     Storage.ins_letterboxdUrl := None;
     Storage.ins_bio := "Engineer";
     Storage.ins_letterboxdData := None;
     Storage.ins_spotifyData := None |}.

(** A profile provider that serves the feed [items] for every profile. *)
Definition serving (items : list Letterboxd.Item) : Letterboxd.Env :=
  {| Letterboxd.new_URL :=
       fun _ => Some {| Letterboxd.hostname := "letterboxd.com";
                        Letterboxd.pathname := "/ada/" |};
     Letterboxd.axios_get :=
       fun _ => Returns {| Letterboxd.status := 200; Letterboxd.data := Some "<rss/>" |};
     Letterboxd.parseXml :=
       fun _ => Returns (Some {| Letterboxd.item := Some items |}) |}.

Definition film (title : string) (stars : option string) (genres : string)
  : Letterboxd.Item :=
  {| Letterboxd.filmTitle := Some (Leaf title);
     Letterboxd.filmYear := Some (Leaf "1999");
     Letterboxd.memberRating := Leaf <$> stars;
     Letterboxd.filmGenres := Some (Leaf genres) |}.

(** Items rated 5/5, 4.5/5 and 3/5, tagged [A,B], [A,C] and [A]. *)
Definition three_films : list Letterboxd.Item :=
  [ film "First" (Some "5.0") "A, B";
    film "Second" (Some "4.5") "A, C";
    film "Third" (Some "3.0") "A" ].

(** An item whose genre element has an attribute: xml2js hands it over as
    an object. *)
Definition tagged : Letterboxd.Item :=
  {| Letterboxd.filmTitle := Some (Leaf "Only");
     Letterboxd.filmYear := Some (Leaf "1999");
     Letterboxd.memberRating := Some (Leaf "5.0");
     Letterboxd.filmGenres :=
       Some (Node [("_", JString "Drama");
                   ("$", JObject [("lang", JString "en")])]) |}.

(** One item tagged with a genre name and a numeral. *)
Definition numbered : list Letterboxd.Item :=
  [ film "Only" (Some "4.0") "Drama, 7" ].

(** One item tagged with a genre name and two names of members of
    [Object.prototype]. *)
Definition inherited : list Letterboxd.Item :=
  [ film "Only" (Some "4.0") "Drama, __proto__, constructor" ].

(** The scenarios of the specification's section 8, run against [db]. *)
Definition hello : OpenAI.Env :=
  streaming [Some "Hel"; Some "lo"; Some " there"] OpenAI.EndOfStream.

Definition broken : OpenAI.Env :=
  streaming [Some "Hel"] (OpenAI.Interrupted StreamInterruptedError).

(** A streaming service whose reply ends, without a failure, in the text of
    the error object. *)
Definition imitating : OpenAI.Env :=
  streaming [Some "Hel"; Some Spec.error_text] OpenAI.EndOfStream.

(** A client that takes the control line and one fragment, then leaves. *)
Definition leaving : Routes.Client := {| Routes.closes_after := Some 2 |}.

(** The stored row of the first message sent to [db]. *)
Definition hi : Storage.Message :=
  {| Storage.id := 1; Storage.userId := 1;
     Storage.content := "Hi"; Storage.fromUser := true |}.

(** The page of [ada] when its request is answered with the response [res]
    of the chat handler, one read for each write; [JSON.parse] is given on
    the control line of [hi]. *)
Definition answered (res : Routes.Res) : Client.Env :=
  {| Client.fetch :=
       fun _ _ =>
         Returns {| Client.ok :=
                      (200 <=? Routes.statusCode res)%Z
                      && (Routes.statusCode res <? 300)%Z;
                    Client.body :=
                      Some {| OpenAI.items := omap Routes.written (Routes.body res);
                              OpenAI.ending := OpenAI.EndOfStream |} |};
     Client.JSON_parse :=
       fun text =>
         if String.eqb text (Routes.stringify_control hi)
         then Returns (JObject [("userMessage",
                                 JObject [ ("id", JNumber "1");
                                           ("userId", JNumber "1");
                                           ("content", JString "Hi");
                                           ("fromUser", JBool true) ])])
         else Throws syntax_error |}.

(** A Spotify service that answers every request: two artists and one
    played track. *)
Definition connected_account : Spotify.Env :=
  {| Spotify.SPOTIFY_CLIENT_ID := Some "abc";
     Spotify.SPOTIFY_CLIENT_SECRET := Some "xyz";
     Spotify.SPOTIFY_REDIRECT_URI := None;
     Spotify.post_token :=
       fun _ _ => Spotify.Fetched (JObject [("access_token", JString "token")]);
     Spotify.get_top_artists :=
       fun _ =>
         Spotify.Fetched
           [ {| Spotify.artist_name := "Miles Davis";
                Spotify.genres := ["jazz"; "bebop"] |};
             {| Spotify.artist_name := "Nina Simone";
                Spotify.genres := ["soul"; "jazz"] |} ];
     Spotify.get_recently_played :=
       fun _ =>
         Spotify.Fetched
           [ {| Spotify.track_name := "So What";
                Spotify.track_artists := ["Miles Davis"];
                Spotify.played_at := Some "2024-01-01T00:00:00Z" |} ];
     Spotify.artists_fail_first := true |}.

(** A user created while the model service could not be reached: the row
    has no persona. *)
Definition grace : Storage.User :=
  {| Storage.user_id := 2;
     Storage.name := "Grace";
     Storage.spotifyUrl := None;
     Storage.letterboxdUrl := None;
     Storage.bio := "Admiral";
     Storage.letterboxdData := Storage.lb_not_provided;
     Storage.spotifyData := Storage.sp_not_provided;
     Storage.twinPersonality := JNull |}.

Definition two_users : Storage.DB :=
  {| Storage.users := <[ 2%Z := grace ]> {[ 1%Z := ada ]};
     Storage.messages := [];
     Storage.next_user := 3;
     Storage.next_message := 1;
     Storage.scan := in_order |}.

(** A Spotify profile that was read. *)
Definition listener : OpenAI.SpotifyData :=
  {| OpenAI.sp_status := OpenAI.Success;
     OpenAI.topArtists := Some ["Miles Davis"];
     OpenAI.topGenres := Some ["jazz"];
     OpenAI.recentTracks := Some [];
     OpenAI.sp_error := None |}.

(** A film profile whose fetch failed. *)
Definition failed_profile : OpenAI.LetterboxdData :=
  {| OpenAI.lb_status := OpenAI.Failure;
     OpenAI.recentRatings := None;
     OpenAI.favoriteGenres := None;
     OpenAI.favoriteFilms := None;
     OpenAI.lb_error := Some "Network Error (AxiosError)" |}.

(** A profile provider that answers every URL but the feed of [ada]. *)
Definition selective : Letterboxd.Env :=
  {| Letterboxd.new_URL :=
       fun _ => Some {| Letterboxd.hostname := "letterboxd.com";
                        Letterboxd.pathname := "/ada/" |};
     Letterboxd.axios_get :=
       fun url =>
         if String.eqb url "https://letterboxd.com/ada/rss/"
         then Throws (Error "Network Error" "AxiosError")
         else Returns {| Letterboxd.status := 200; Letterboxd.data := Some "<rss/>" |};
     Letterboxd.parseXml := fun _ => Throws NonError |}.

(** The control line of a reply and a server whose response arrives in two
    reads, the first of which holds the control line and the start of the
    reply. *)
Definition control_line : string := "{userMessage}".

Definition coalescing : Client.Env :=
  {| Client.fetch :=
       fun _ _ =>
         Returns {| Client.ok := true;
                    Client.body :=
                      Some {| OpenAI.items := [control_line +:+ nl +:+ "Hel"; "lo"];
                              OpenAI.ending := OpenAI.EndOfStream |} |};
     Client.JSON_parse :=
       fun text =>
         if String.eqb text control_line
         then Returns (JObject [("userMessage", JString "Hi")])
         else Throws syntax_error |}.

Definition idle : Client.View :=
  {| Client.streamingMessage := EmptyString;
     Client.cached := [];
     Client.optimisticMessage := None;
     Client.isStreaming := false |}.

End Stub.

(** * Properties *)

(** ** The streaming loop *)

Section Loop.
Import Routes.

Lemma append_empty_r (s : string) : s +:+ EmptyString = s.
Proof.
  induction s as [|c s IH]; [reflexivity|].
  change (String c (s +:+ EmptyString) = String c s). now f_equal.
Qed.

Lemma append_assoc (a b c : string) : (a +:+ b) +:+ c = a +:+ (b +:+ c).
Proof.
  induction a as [|x a IH]; [reflexivity|].
  change (String x ((a +:+ b) +:+ c) = String x (a +:+ b +:+ c)). now f_equal.
Qed.

Lemma for_await_res chunks st :
  res (for_await chunks st)
  = {| statusCode := statusCode (res st);
       body := body (res st) ++ map Raw chunks;
       writableEnded := writableEnded (res st) |}.
Proof.
  revert st. induction chunks as [|c chunks IH]; intros st; simpl.
  - rewrite app_nil_r. now destruct (res st).
  - rewrite IH. simpl. now rewrite <- app_assoc.
Qed.

Lemma for_await_fullResponse chunks st :
  fullResponse (for_await chunks st)
  = fullResponse st +:+ Spec.concatenation chunks.
Proof.
  revert st. induction chunks as [|c chunks IH]; intros st; simpl.
  - now rewrite append_empty_r.
  - rewrite IH. simpl. apply append_assoc.
Qed.

Lemma for_await_trace chunks st :
  trace (for_await chunks st)
  = trace st ++ flat_map (fun c => [Next; Forward c]) chunks ++ [Next].
Proof.
  revert st. induction chunks as [|c chunks IH]; intros st; simpl.
  - reflexivity.
  - rewrite IH. simpl. now rewrite <- app_assoc.
Qed.

Lemma raw_chunks_Raw chunks : Spec.raw_chunks (map Raw chunks) = chunks.
Proof. induction chunks as [|c chunks IH]; simpl; [reflexivity | now rewrite IH]. Qed.

Lemma forwarded_loop chunks :
  Spec.forwarded (flat_map (fun c => [Next; Forward c]) chunks ++ [Next]) = chunks.
Proof. induction chunks as [|c chunks IH]; simpl; [reflexivity | now rewrite IH]. Qed.

(** The user's turn as [addMessage] stores it. *)
Lemma addMessage_spec db uid text from_user :
  Storage.addMessage db uid text from_user
  = ({| Storage.users := Storage.users db;
        Storage.messages :=
          Storage.messages db
          ++ [{| Storage.id := Storage.next_message db; Storage.userId := uid;
                 Storage.content := text; Storage.fromUser := from_user |}];
        Storage.next_user := Storage.next_user db;
        Storage.next_message := (Storage.next_message db + 1)%Z;
        Storage.scan := Storage.scan db |},
     {| Storage.id := Storage.next_message db; Storage.userId := uid;
        Storage.content := text; Storage.fromUser := from_user |}).
Proof. reflexivity. Qed.

(** The handler on an existing user, with the loop run to its end. *)
Lemma send_message_existing ai client uid content db user :
  Storage.getUser db uid = Some user ->
  let userTurn :=
    {| Storage.id := Storage.next_message db; Storage.userId := uid;
       Storage.content := content; Storage.fromUser := true |} in
  let db1 := fst (Storage.addMessage db uid content true) in
  let stream := Spec.generated ai db uid user content in
  let chunks := OpenAI.items stream in
  send_message ai client uid content db
  = match OpenAI.ending stream with
    | OpenAI.EndOfStream =>
        {| db_after :=
             fst (Storage.addMessage db1 uid (Spec.concatenation chunks) false);
           response :=
             {| statusCode := 200;
                body := UserMessageLine userTurn :: map Raw chunks;
                writableEnded := true |};
           events := flat_map (fun c => [Next; Forward c]) chunks ++ [Next] |}
    | OpenAI.Interrupted _ =>
        {| db_after := db1;
           response :=
             {| statusCode := 200;
                body := UserMessageLine userTurn :: map Raw chunks
                        ++ [ErrorObject "Failed to generate response"];
                writableEnded := true |};
           events := flat_map (fun c => [Next; Forward c]) chunks ++ [Next] |}
    end.
Proof.
  intros Huser. unfold send_message, Spec.generated. rewrite Huser.
  rewrite addMessage_spec. cbn [fst].
  set (db1 := Storage.Build_DB _ _ _ _ _).
  set (userTurn := Storage.Build_Message _ _ _ _).
  set (stream := reply ai user content (Storage.getMessages db1 uid)).
  set (st0 := Build_Loop _ _ _).
  destruct (OpenAI.ending stream) eqn:Hend.
  - rewrite addMessage_spec. cbn [fst].
    rewrite for_await_fullResponse, for_await_res, for_await_trace.
    subst st0. unfold end_, write, fresh. cbn. rewrite app_nil_r. reflexivity.
  - rewrite for_await_res, for_await_trace. subst st0.
    unfold end_, write, fresh. cbn. reflexivity.
Qed.

Lemma requests_after_loop chunks n :
  n <= length chunks ->
  Spec.requests_after n (flat_map (fun c => [Next; Forward c]) chunks ++ [Next])
  = length chunks - n + 1.
Proof.
  revert n. induction chunks as [|c chunks IH]; intros n Hn; simpl in *.
  - assert (n = 0) as -> by lia. reflexivity.
  - destruct n as [|m]; simpl.
    + rewrite (IH 0) by lia. lia.
    + rewrite (IH m) by lia. lia.
Qed.

End Loop.

(** ** Stable sorting *)

Section Sorting.
Import JS.
Context {A : Type}.

Lemma sort_insert_perm (cmp : A -> A -> Z) x l :
  Permutation (sort_insert cmp x l) (x :: l).
Proof.
  induction l as [|y l IH]; cbn; [reflexivity|].
  destruct (0 <? cmp x y)%Z; [|reflexivity].
  rewrite IH. apply perm_swap.
Qed.

Lemma sort_perm (cmp : A -> A -> Z) l : Permutation (sort cmp l) l.
Proof.
  induction l as [|x l IH]; cbn; [reflexivity|].
  unfold sort in IH. rewrite sort_insert_perm. now constructor.
Qed.

Lemma sort_insert_map {B} (f : B -> A) (cmp : A -> A -> Z) (x : B) (s : list B) :
  sort_insert cmp (f x) (map f s)
  = map f (sort_insert (fun a b => cmp (f a) (f b)) x s).
Proof.
  induction s as [|y s IH]; [reflexivity|].
  cbn. destruct (0 <? cmp (f x) (f y))%Z; [|reflexivity]. cbn. now rewrite IH.
Qed.

Lemma sort_map {B} (f : B -> A) (cmp : A -> A -> Z) (l : list B) :
  sort cmp (map f l) = map f (sort (fun a b => cmp (f a) (f b)) l).
Proof.
  induction l as [|x l IH]; [reflexivity|].
  cbn. fold (sort cmp (map f l)) (sort (fun a b => cmp (f a) (f b)) l).
  rewrite IH. apply sort_insert_map.
Qed.

Variable key : A -> nat.

#[local] Abbreviation by_key_desc := (Spec.by_key_desc key).
#[local] Abbreviation stable_desc := (Spec.stable_desc key).
#[local] Abbreviation precedes := Spec.precedes.

Lemma stable_desc_key l a b : stable_desc l a b -> key b <= key a.
Proof. intros [H | [H _]]; lia. Qed.

Lemma sort_insert_sorted R x s :
  StronglySorted R s ->
  (forall a b, R a b -> key b <= key a) ->
  (forall y, In y s -> key y < key x -> R x y) ->
  (forall y, In y s -> key y = key x -> R x y) ->
  (forall y, In y s -> key x < key y -> R y x) ->
  StronglySorted R (sort_insert by_key_desc x s).
Proof.
  intros Hs Hkey Hlt Heq Hgt. induction Hs as [|y s Hs IH Hy]; cbn.
  - repeat constructor.
  - unfold Spec.by_key_desc at 1. destruct (Z.ltb_spec 0 (Z.of_nat (key y) - Z.of_nat (key x))).
    + constructor.
      * apply IH; intros; [apply Hlt | apply Heq | apply Hgt]; auto; now right.
      * eapply Permutation_Forall; [symmetry; apply sort_insert_perm|].
        constructor; [|exact Hy]. apply Hgt; [now left | lia].
    + constructor; [now constructor|].
      assert (Hall : forall z, In z (y :: s) -> key z <= key x).
      { intros z [<- | Hz]; [lia|].
        rewrite List.Forall_forall in Hy. specialize (Hkey _ _ (Hy z Hz)). lia. }
      apply List.Forall_forall. intros z Hz. specialize (Hall z Hz).
      destruct (Nat.eq_dec (key z) (key x)); [now apply Heq | apply Hlt; [exact Hz | lia]].
Qed.

Lemma StronglySorted_mono (R R' : A -> A -> Prop) s :
  (forall a b, R a b -> R' a b) -> StronglySorted R s -> StronglySorted R' s.
Proof.
  intros HR Hs. induction Hs as [|y s Hs IH Hy]; constructor; [exact IH|].
  eapply List.Forall_impl; [|exact Hy]. intros b. apply HR.
Qed.

Lemma precedes_cons (l : list A) x a b :
  Spec.precedes l a b -> Spec.precedes (x :: l) a b.
Proof. intros (l1 & l2 & -> & Hb). now exists (x :: l1), l2. Qed.

Lemma sort_stable l : StronglySorted (stable_desc l) (sort by_key_desc l).
Proof.
  induction l as [|x l IH]; cbn; [constructor|]. fold (sort by_key_desc l).
  assert (Hin : forall y, In y (sort by_key_desc l) -> In y l)
    by (intros y Hy; eapply Permutation_in; [apply sort_perm | exact Hy]).
  apply sort_insert_sorted.
  - eapply StronglySorted_mono; [|exact IH].
    intros a b [H | [H Hp]]; [now left | right; split; [exact H | now apply precedes_cons]].
  - apply stable_desc_key.
  - intros y _ Hy. now left.
  - intros y Hy Hk. right. split; [now symmetry|]. exists [], l. split; [reflexivity | auto].
  - intros y _ Hy. now left.
Qed.

End Sorting.

(** ** The profile normalizer *)

Section Normalizer.
Import JS Letterboxd.

Lemma append_nonempty_r (a b : string) : b <> EmptyString -> a +:+ b <> EmptyString.
Proof.
  intros Hb. destruct a as [|c a]; [exact Hb|].
  change (String c (a +:+ b) <> EmptyString). discriminate.
Qed.

Lemma describe_nonempty e : describe e <> EmptyString.
Proof.
  destruct e as [message name|]; [|discriminate].
  unfold describe. apply append_nonempty_r.
  change (String " " (String "(" (name +:+ ")")) <> EmptyString). discriminate.
Qed.

(** A channel gives a profile or an error with a message, never the
    [not_provided] variant. *)
Lemma profile_of_channel_variant channel :
  match profile_of_channel channel with
  | success _ => True
  | error message => message <> EmptyString
  | not_provided => False
  end.
Proof.
  unfold profile_of_channel.
  destruct (default [] (item channel)) as [|it its]; [discriminate|].
  destruct (process_items [] (slice0 20 (it :: its))) as [freq processed].
  destruct (non_null processed); [discriminate | exact I].
Qed.

(** The outcomes of the body of the [try], step by step. *)
Lemma fetch_profile_cases env url :
  (validateLetterboxdUrl env url = false
   /\ fetch_profile env url = Returns (error "Invalid Letterboxd URL format"))
  \/ (validateLetterboxdUrl env url = true
      /\ exists username,
           extractUsername env url = Returns username
           /\ ((exists e,
                  axios_get env (rssUrl username)
                  = Throws e
                  /\ fetch_profile env url = Throws e)
               \/ exists response,
                    axios_get env (rssUrl username)
                    = Returns response
                    /\ ((data response = None
                         /\ fetch_profile env url
                            = Throws (TypeError "response.data.substring is not a function"))
                        \/ exists text,
                             data response = Some text
                             /\ ((exists e,
                                    parseXml env text = Throws e
                                    /\ fetch_profile env url
                                       = Returns (error "Invalid XML response from Letterboxd"))
                                 \/ (parseXml env text = Returns None
                                     /\ fetch_profile env url
                                        = Returns (error "Invalid RSS data structure"))
                                 \/ exists channel,
                                      parseXml env text = Returns (Some channel)
                                      /\ fetch_profile env url
                                         = Returns (profile_of_channel channel))))).
Proof.
  unfold fetch_profile.
  destruct (validateLetterboxdUrl env url) eqn:Hvalid; [right | left; split; reflexivity].
  split; [reflexivity|].
  assert (exists username, extractUsername env url = Returns username) as [username Hname].
  { unfold validateLetterboxdUrl in Hvalid. unfold extractUsername.
    destruct (new_URL env url); [eauto | discriminate]. }
  exists username. split; [exact Hname|]. rewrite Hname.
  unfold mbind, Outcome_bind. cbn [negb bind].
  destruct (axios_get env _) as [response|e] eqn:Hget; cbn [bind].
  2:{ left. exists e. split; reflexivity. }
  right. exists response. split; [reflexivity|].
  destruct (data response) as [text|] eqn:Hdata; cbn [bind].
  2:{ left. split; reflexivity. }
  right. exists text. split; [reflexivity|].
  destruct (parseXml env text) as [[channel|]|e] eqn:Hparse.
  - right. right. exists channel. split; reflexivity.
  - right. left. split; reflexivity.
  - left. exists e. split; reflexivity.
Qed.

(** C7. For every URL and every behaviour of the URL parser, the HTTP client
    and the XML parser, [getLetterboxdProfile] returns a value and never
    throws.  Whatever the body throws becomes the error variant with the
    message of the [catch]; an invalid URL, a failed request, unparsable XML,
    a feed without channel and a feed without items each give the error
    variant; the message is never empty, and the result is never
    [not_provided]. *)
Theorem C7_profile_fetch_never_throws env url :
  exists r,
    getLetterboxdProfile env url = Returns r
    /\ (forall e, fetch_profile env url = Throws e -> r = error (describe e))
    /\ (validateLetterboxdUrl env url = false ->
        r = error "Invalid Letterboxd URL format")
    /\ (forall username e,
          validateLetterboxdUrl env url = true ->
          extractUsername env url = Returns username ->
          axios_get env (rssUrl username)
          = Throws e ->
          r = error (describe e))
    /\ (forall username response text,
          validateLetterboxdUrl env url = true ->
          extractUsername env url = Returns username ->
          axios_get env (rssUrl username)
          = Returns response ->
          data response = Some text ->
          (forall e, parseXml env text = Throws e ->
                     r = error "Invalid XML response from Letterboxd")
          /\ (parseXml env text = Returns None ->
              r = error "Invalid RSS data structure")
          /\ (forall channel,
                parseXml env text = Returns (Some channel) ->
                default [] (item channel) = [] ->
                r = error "No activity found in profile"))
    /\ match r with
       | success _ => True
       | error message => message <> EmptyString
       | not_provided => False
       end.
Proof.
  unfold getLetterboxdProfile.
  destruct (fetch_profile_cases env url)
    as [[Hv Hf] | [Hv (username & Hname & [(e & Hget & Hf) | (response & Hget & Hrest)])]].
  - rewrite Hf. eexists. split; [reflexivity|].
    split; [discriminate|]. split; [reflexivity|].
    split; [intros; congruence|]. split; [intros; congruence | discriminate].
  - rewrite Hf. eexists. split; [reflexivity|].
    split; [intros e' [= <-]; reflexivity|]. split; [congruence|].
    split; [intros u e' _ Hu He'; congruence|].
    split; [intros u rsp t _ Hu He'; congruence | apply describe_nonempty].
  - destruct Hrest as [[Hdata Hf] | (text & Hdata & Hrest)].
    + rewrite Hf. eexists. split; [reflexivity|].
      split; [intros e' [= <-]; reflexivity|]. split; [congruence|].
      split; [intros u e' _ Hu He'; congruence|].
      split; [intros u rsp t _ Hu He' Hd; congruence | apply describe_nonempty].
    + assert (Hsame : forall u rsp t,
                extractUsername env url = Returns u ->
                axios_get env (rssUrl u)
                = Returns rsp ->
                data rsp = Some t -> t = text) by (intros; congruence).
      destruct Hrest as [(e & Hparse & Hf) | [[Hparse Hf] | (channel & Hparse & Hf)]];
        rewrite Hf; eexists; (split; [reflexivity|]);
        (split; [discriminate|]); (split; [congruence|]);
        (split; [intros u e' _ Hu He'; congruence|]).
      * split; [|discriminate].
        intros u rsp t _ Hu Hg Hd. rewrite (Hsame u rsp t Hu Hg Hd).
        repeat split; intros; congruence.
      * split; [|discriminate].
        intros u rsp t _ Hu Hg Hd. rewrite (Hsame u rsp t Hu Hg Hd).
        repeat split; intros; congruence.
      * split; [|apply profile_of_channel_variant].
        intros u rsp t _ Hu Hg Hd. rewrite (Hsame u rsp t Hu Hg Hd).
        split; [intros; congruence|]. split; [intros; congruence|].
        intros ch Hch Hnil. assert (ch = channel) as -> by congruence.
        unfold profile_of_channel. now rewrite Hnil.
Qed.

(** *** What a successful fetch is made of *)

(** The callback on one item: the genres read from it are counted, and the
    record it gives does not depend on the table. *)
Lemma process_item_spec freq it :
  process_item freq it
  = (fold_left increment (Spec.genres_read it) freq, snd (process_item [] it)).
Proof.
  unfold process_item, item_genres, Spec.genres_read.
  now destruct (filmGenres it) as [[g|properties]|].
Qed.

Lemma process_items_snd freq its :
  snd (process_items freq its) = map (fun it => snd (process_item [] it)) its.
Proof.
  revert freq. induction its as [|it its IH]; intros freq; [reflexivity|].
  cbn [process_items]. rewrite (process_item_spec freq it).
  specialize (IH (fold_left increment (Spec.genres_read it) freq)).
  destruct (process_items _ its) as [f2 rs].
  cbn [snd map] in *. now rewrite IH.
Qed.

Lemma process_items_fst freq its :
  fst (process_items freq its)
  = fold_left increment (flat_map Spec.genres_read its) freq.
Proof.
  revert freq. induction its as [|it its IH]; intros freq; [reflexivity|].
  cbn [process_items flat_map]. rewrite fold_left_app.
  rewrite (process_item_spec freq it).
  specialize (IH (fold_left increment (Spec.genres_read it) freq)).
  destruct (process_items _ its) as [f2 rs].
  cbn [fst] in *. now rewrite IH.
Qed.

Lemma non_null_map {A B} (f : A -> option B) (l : list A) :
  non_null (map f l) = omap f l.
Proof.
  unfold non_null. induction l as [|x l IH]; [reflexivity|].
  cbn. rewrite IH. now destruct (f x).
Qed.

Lemma profile_of_channel_success channel p :
  profile_of_channel channel = success p ->
  recentRatings p = take 10 (Spec.processed channel)
  /\ favoriteFilms p = favorite_films (Spec.processed channel)
  /\ favoriteGenres p
     = favorite_genres (fold_left increment (Spec.all_genres channel) []).
Proof.
  unfold profile_of_channel, Spec.processed, Spec.all_genres, Spec.examined.
  destruct (default [] (item channel)) as [|it its]; [discriminate|].
  unfold slice0 at 1.
  pose proof (process_items_snd [] (take 20 (it :: its))) as Hsnd.
  pose proof (process_items_fst [] (take 20 (it :: its))) as Hfst.
  destruct (process_items [] (take 20 (it :: its))) as [freq rs].
  cbn [fst snd] in Hsnd, Hfst. subst freq rs. rewrite non_null_map.
  destruct (omap _ _) eqn:Hratings; [discriminate|].
  intros [= <-]. cbn. repeat split.
Qed.

Lemma success_feed env url p :
  getLetterboxdProfile env url = Returns (success p) ->
  exists channel,
    Spec.feed env url = Some channel /\ profile_of_channel channel = success p.
Proof.
  unfold getLetterboxdProfile, Spec.feed.
  destruct (fetch_profile_cases env url)
    as [[Hv Hf] | [Hv (username & Hname & [(e & Hget & Hf) | (response & Hget & Hrest)])]];
    try (rewrite Hf; discriminate).
  destruct Hrest as [[Hdata Hf] | (text & Hdata & Hrest)];
    [rewrite Hf; discriminate|].
  destruct Hrest as [(e & Hparse & Hf) | [[Hparse Hf] | (channel & Hparse & Hf)]];
    try (rewrite Hf; discriminate).
  rewrite Hf, Hname, Hget, Hdata, Hparse. cbn. intros [= H]. eauto.
Qed.

Lemma sublist_filter_bool {A} (f : A -> bool) (l : list A) :
  sublist (List.filter f l) l.
Proof.
  induction l as [|x l IH]; cbn; [constructor|].
  destruct (f x); now constructor.
Qed.

(** C4. After a successful fetch the favorites are the titles of the first
    five processed items that are rated at least 90% of the maximum, in the
    order of the feed: they are not sorted by rating, every one of them is
    high rated, and when at most five items are high rated all of them are
    favorites. *)
Theorem C4_favorite_films env url p :
  getLetterboxdProfile env url = Returns (success p) ->
  exists channel favorites,
    Spec.feed env url = Some channel
    /\ favoriteFilms p = map title favorites
    /\ favorites = take 5 (List.filter Spec.high_rated (Spec.processed channel))
    /\ sublist favorites (Spec.processed channel)
    /\ Forall (fun r => Spec.high_rated r = true) favorites
    /\ length (favoriteFilms p) <= 5
    /\ (length (List.filter Spec.high_rated (Spec.processed channel)) <= 5 ->
        favorites = List.filter Spec.high_rated (Spec.processed channel)).
Proof.
  intros Hok. destruct (success_feed env url p Hok) as (channel & Hfeed & Hprofile).
  destruct (profile_of_channel_success channel p Hprofile) as (_ & Hfilms & _).
  exists channel, (take 5 (List.filter Spec.high_rated (Spec.processed channel))).
  split; [exact Hfeed|]. split.
  { rewrite Hfilms. unfold favorite_films, slice0. now rewrite firstn_map. }
  split; [reflexivity|]. split.
  { etransitivity; [apply sublist_take | apply sublist_filter_bool]. }
  split.
  { apply Forall_take. apply List.Forall_forall. intros r Hr.
    now apply filter_In in Hr. }
  split.
  { rewrite Hfilms. unfold favorite_films, slice0. rewrite length_take. lia. }
  intros Hfew. now apply take_ge.
Qed.

(** *** The genre table and its ranking *)

Lemma existsb_eqb_In (g : string) (l : list string) :
  existsb (String.eqb g) l = true <-> In g l.
Proof.
  rewrite existsb_exists. split.
  - intros (x & Hx & Heq). apply String.eqb_eq in Heq. now subst.
  - intros H. exists g. split; [exact H | apply String.eqb_refl].
Qed.

Lemma first_seen_snoc gs g :
  Spec.first_seen (gs ++ [g])
  = if existsb (String.eqb g) (Spec.first_seen gs) then Spec.first_seen gs
    else Spec.first_seen gs ++ [g].
Proof. unfold Spec.first_seen. now rewrite fold_left_app. Qed.

Lemma first_seen_In gs g : In g (Spec.first_seen gs) <-> In g gs.
Proof.
  induction gs as [|x gs IH] using rev_ind; [reflexivity|].
  rewrite first_seen_snoc, in_app_iff. cbn [In].
  destruct (existsb (String.eqb x) (Spec.first_seen gs)) eqn:E.
  - apply existsb_eqb_In in E. rewrite IH in *. intuition (subst; auto).
  - rewrite in_app_iff, IH. cbn [In]. reflexivity.
Qed.

Lemma first_seen_NoDup gs : NoDup (Spec.first_seen gs).
Proof.
  induction gs as [|x gs IH] using rev_ind; [constructor|].
  rewrite first_seen_snoc.
  destruct (existsb (String.eqb x) (Spec.first_seen gs)) eqn:E; [exact IH|].
  apply NoDup_app. split; [exact IH|]. split; [|apply NoDup_singleton].
  intros y Hy Hx. apply list_elem_of_In in Hy, Hx. destruct Hx as [<- | []].
  apply existsb_eqb_In in Hy. congruence.
Qed.

Lemma own_counts_In f keys g :
  In g keys -> own (Spec.counts f keys) g = Some (Num (f g)).
Proof.
  induction keys as [|k keys IH]; [inversion 1|]. cbn.
  destruct (String.eqb g k) eqn:E.
  - apply String.eqb_eq in E. now subst.
  - intros [-> | H]; [now rewrite String.eqb_refl in E | auto].
Qed.

Lemma own_counts_not_In f keys g :
  ~ In g keys -> own (Spec.counts f keys) g = None.
Proof.
  induction keys as [|k keys IH]; [reflexivity|]. cbn. intros H.
  destruct (String.eqb g k) eqn:E.
  - apply String.eqb_eq in E. subst. tauto.
  - apply IH. tauto.
Qed.

Lemma set_counts_new f keys g n :
  ~ In g keys -> f g = n ->
  set (Spec.counts f keys) g (Num n) = Spec.counts f (keys ++ [g]).
Proof.
  intros Hg <-. induction keys as [|k keys IH]; [reflexivity|]. cbn.
  destruct (String.eqb g k) eqn:E.
  - apply String.eqb_eq in E. subst. cbn in Hg. tauto.
  - f_equal. apply IH. cbn in Hg. tauto.
Qed.

Lemma set_counts_old f f' keys g :
  NoDup keys -> In g keys ->
  (forall k, k <> g -> f' k = f k) ->
  set (Spec.counts f keys) g (Num (f' g)) = Spec.counts f' keys.
Proof.
  intros Hnd Hg Hf. induction Hnd as [|k keys Hk Hnd IH]; [inversion Hg|]. cbn.
  destruct (String.eqb g k) eqn:E.
  - apply String.eqb_eq in E. subst k. f_equal.
    unfold Spec.counts. apply map_ext_in. intros k Hin.
    rewrite Hf; [reflexivity|]. intros Heq. apply Hk. apply list_elem_of_In. congruence.
  - destruct Hg as [-> | Hg]; [now rewrite String.eqb_refl in E|].
    rewrite (Hf k) by (intros Heq; subst; now rewrite String.eqb_refl in E).
    f_equal. now apply IH.
Qed.

Lemma frequency_snoc gs g k :
  Spec.frequency (gs ++ [g]) k
  = Spec.frequency gs k + (if String.string_dec g k then 1 else 0).
Proof.
  unfold Spec.frequency. rewrite count_occ_app. cbn.
  now destruct (String.string_dec g k).
Qed.

Lemma plain_spec g :
  Spec.plain g = true ->
  array_index g = None /\ inherits_function g = false /\ String.eqb g "__proto__" = false.
Proof.
  unfold Spec.plain. destruct (array_index g); [discriminate|].
  intros H. apply andb_true_iff in H as [H1 H2].
  now rewrite negb_true_iff in H1, H2.
Qed.

(** The table the loop builds from plain genre names. *)
Lemma tally_plain gs :
  Forall (fun g => Spec.plain g = true) gs ->
  fold_left increment gs [] = Spec.counts (Spec.frequency gs) (Spec.first_seen gs).
Proof.
  induction gs as [|g gs IH] using rev_ind; intros Hplain; [reflexivity|].
  apply Forall_app in Hplain as [Hgs Hg]. apply Forall_inv in Hg.
  apply plain_spec in Hg as (_ & Hfun & Hproto).
  rewrite fold_left_app. cbn [fold_left]. rewrite (IH Hgs).
  rewrite first_seen_snoc. unfold increment.
  destruct (existsb (String.eqb g) (Spec.first_seen gs)) eqn:E.
  - apply existsb_eqb_In in E.
    rewrite (own_counts_In _ _ _ E).
    replace (Spec.frequency gs g + 1) with (Spec.frequency (gs ++ [g]) g).
    2:{ rewrite frequency_snoc. now destruct (String.string_dec g g). }
    apply set_counts_old; [apply first_seen_NoDup | exact E |].
    intros k Hk. rewrite frequency_snoc.
    destruct (String.string_dec g k); [congruence | lia].
  - assert (Hnot : ~ In g (Spec.first_seen gs)).
    { intros H. apply existsb_eqb_In in H. congruence. }
    rewrite (own_counts_not_In _ _ _ Hnot), Hfun, Hproto.
    assert (Hsame : Spec.counts (Spec.frequency gs) (Spec.first_seen gs)
                    = Spec.counts (Spec.frequency (gs ++ [g])) (Spec.first_seen gs)).
    { unfold Spec.counts. apply map_ext_in. intros k Hk. rewrite frequency_snoc.
      destruct (String.string_dec g k); [subst; contradiction|].
      now rewrite Nat.add_0_r. }
    rewrite Hsame. apply set_counts_new; [exact Hnot|].
    rewrite frequency_snoc. destruct (String.string_dec g g); [|congruence].
    unfold Spec.frequency.
    rewrite (proj1 (count_occ_not_In String.string_dec gs g)); [reflexivity|].
    now rewrite <- first_seen_In.
Qed.

(** With no array index among its keys, a table is enumerated in creation
    order. *)
Lemma entries_named (o : Obj) :
  Forall (fun e => array_index (fst e) = None) o -> entries o = o.
Proof.
  intros H. unfold entries.
  assert (Hnamed : named_entries o = o).
  { unfold named_entries. induction H as [|e o He H IH]; [reflexivity|].
    cbn. rewrite He. now f_equal. }
  assert (Hidx : index_entries o = []).
  { unfold index_entries. clear Hnamed. induction H as [|e o He H IH]; [reflexivity|].
    cbn. now rewrite He, IH. }
  now rewrite Hidx, Hnamed.
Qed.

Lemma favorite_genres_plain gs :
  Forall (fun g => Spec.plain g = true) gs ->
  favorite_genres (fold_left increment gs [])
  = take 5 (sort (Spec.by_key_desc (Spec.frequency gs)) (Spec.first_seen gs)).
Proof.
  intros Hplain. rewrite (tally_plain gs Hplain). unfold favorite_genres, slice0.
  rewrite entries_named.
  - unfold Spec.counts. rewrite sort_map, <- firstn_map, map_map. cbn.
    rewrite map_id. reflexivity.
  - unfold Spec.counts. apply Forall_map. apply List.Forall_forall. intros k Hk. cbn.
    apply (proj1 (first_seen_In _ _)) in Hk. rewrite List.Forall_forall in Hplain.
    now destruct (plain_spec k (Hplain k Hk)).
Qed.

Lemma first_occurrence (gs : list string) a :
  In a gs -> exists l1 l2, gs = l1 ++ a :: l2 /\ ~ In a l1.
Proof.
  induction gs as [|x gs IH]; [inversion 1|]. intros Ha.
  destruct (String.string_dec x a) as [-> | Hx].
  - exists [], gs. split; [reflexivity | inversion 1].
  - destruct Ha as [-> | Ha]; [contradiction|].
    destruct (IH Ha) as (l1 & l2 & -> & Hl1).
    exists (x :: l1), l2. split; [reflexivity|]. intros [-> | H]; tauto.
Qed.

Lemma seen_before_snoc gs g a b :
  Spec.seen_before gs a b -> Spec.seen_before (gs ++ [g]) a b.
Proof.
  intros (l1 & l2 & -> & H). exists l1, (l2 ++ [g]). split; [|exact H].
  now rewrite <- app_assoc.
Qed.

Lemma precedes_first_seen gs a b :
  Spec.precedes (Spec.first_seen gs) a b -> Spec.seen_before gs a b.
Proof.
  induction gs as [|g gs IH] using rev_ind.
  - intros (l1 & l2 & H & _). now destruct l1.
  - rewrite first_seen_snoc.
    destruct (existsb (String.eqb g) (Spec.first_seen gs)) eqn:E.
    + intros H. apply seen_before_snoc. auto.
    + assert (Hg : ~ In g gs).
      { rewrite <- first_seen_In, <- existsb_eqb_In. congruence. }
      intros (l1 & l2 & Hsplit & Hb).
      destruct (exists_last (l := l2)) as (l2' & z & ->); [now destruct l2|].
      change (l1 ++ a :: l2' ++ [z]) with (l1 ++ (a :: l2') ++ [z]) in Hsplit.
      rewrite app_assoc in Hsplit. apply app_inj_tail in Hsplit as [Hsplit <-].
      apply in_app_iff in Hb as [Hb | [<- | []]].
      * apply seen_before_snoc, IH. now exists l1, l2'.
      * assert (Ha : In a gs).
        { apply first_seen_In. rewrite Hsplit. apply in_app_iff. right. now left. }
        destruct (first_occurrence gs a Ha) as (m1 & m2 & -> & Hm1).
        exists m1, (m2 ++ [g]). split; [now rewrite <- app_assoc|].
        split; [exact Hm1|]. split.
        -- intros H. apply Hg. apply in_app_iff. now left.
        -- intros ->. contradiction.
Qed.

(** The full ranking of plain genre names. *)
Lemma ranking_sorted gs :
  StronglySorted (Spec.ranks_before gs)
    (sort (Spec.by_key_desc (Spec.frequency gs)) (Spec.first_seen gs)).
Proof.
  eapply StronglySorted_mono; [|apply sort_stable].
  intros a b [H | [H Hp]]; [now left | right].
  split; [exact H | now apply precedes_first_seen].
Qed.

(** C5, as the code has it.  After a successful fetch in which every genre
    name of the examined items is plain (not an array index such as [7], and
    not the name of a member of [Object.prototype]), the favorite genres are
    the first five of a ranking of all those genres, each once, in which a
    genre stands before another when it is more frequent or, at equal
    frequency, was seen first. *)
Theorem C5_genre_ranking env url p channel :
  getLetterboxdProfile env url = Returns (success p) ->
  Spec.feed env url = Some channel ->
  Forall (fun g => Spec.plain g = true) (Spec.all_genres channel) ->
  exists ranking,
    favoriteGenres p = take 5 ranking
    /\ NoDup ranking
    /\ (forall g, In g ranking <-> In g (Spec.all_genres channel))
    /\ StronglySorted (Spec.ranks_before (Spec.all_genres channel)) ranking
    /\ length (favoriteGenres p) <= 5.
Proof.
  intros Hok Hfeed Hplain.
  destruct (success_feed env url p Hok) as (channel' & Hfeed' & Hprofile).
  assert (channel' = channel) as -> by congruence.
  destruct (profile_of_channel_success channel p Hprofile) as (_ & _ & Hgenres).
  rewrite (favorite_genres_plain _ Hplain) in Hgenres.
  set (gs := Spec.all_genres channel) in *.
  exists (sort (Spec.by_key_desc (Spec.frequency gs)) (Spec.first_seen gs)).
  split; [exact Hgenres|]. split.
  { rewrite sort_perm. apply first_seen_NoDup. }
  split.
  { intros g. split; intros H.
    - apply first_seen_In. eapply Permutation_in; [apply sort_perm | exact H].
    - eapply Permutation_in; [symmetry; apply sort_perm | now apply first_seen_In]. }
  split; [apply ranking_sorted|].
  rewrite Hgenres, length_take. lia.
Qed.

(** The ratings returned are the first ten processed items. *)
Lemma recentRatings_first_ten env url p :
  getLetterboxdProfile env url = Returns (success p) ->
  exists channel,
    Spec.feed env url = Some channel
    /\ recentRatings p = take 10 (Spec.processed channel)
    /\ length (recentRatings p) <= 10.
Proof.
  intros Hok. destruct (success_feed env url p Hok) as (channel & Hfeed & Hprofile).
  destruct (profile_of_channel_success channel p Hprofile) as (Hr & _ & _).
  exists channel. split; [exact Hfeed|]. split; [exact Hr|].
  rewrite Hr, length_take. lia.
Qed.

End Normalizer.

(** ** Persona synthesis *)

Section Synthesis.
Import JS OpenAI.

Lemma lookup_set_prop props k v k' :
  lookup_prop (set_prop props k v) k'
  = if String.eqb k' k then Some v else lookup_prop props k'.
Proof.
  induction props as [|[k0 v0] props IH]; simpl.
  - reflexivity.
  - destruct (String.eqb k k0) eqn:Hk; simpl.
    + apply String.eqb_eq in Hk. subst k0.
      now destruct (String.eqb k' k).
    + destruct (String.eqb k' k0) eqn:Hk'; [|exact IH].
      apply String.eqb_eq in Hk'. subst k0.
      rewrite String.eqb_sym in Hk. now rewrite Hk.
Qed.

(** What [generateTwinPersonality] returns once both calls and [JSON.parse]
    have succeeded: no field of the parsed response is looked at. *)
Lemma generateTwinPersonality_returns env name bio lb sp insight response content data :
  analyzePersonality env bio lb sp = Returns insight ->
  create env (persona_prompt name bio lb sp insight) true = Returns response ->
  first_content response = Returns content ->
  JSON_parse env (or_else content "{}") = Returns data ->
  generateTwinPersonality env name bio lb sp
  = Returns (JObject (set_prop (spread data) "personalityInsight" (JString insight))).
Proof.
  intros Hinsight Hcreate Hfirst Hparse. unfold generateTwinPersonality.
  unfold mbind, Outcome_bind.
  rewrite Hinsight. cbn [bind]. rewrite Hcreate. cbn [bind].
  rewrite Hfirst. cbn [bind]. rewrite Hparse. reflexivity.
Qed.

(** The user row [create_user] leaves when the persona call returns. *)
Lemma create_user_stores_twin lb ai userData db result twin :
  Routes.integration lb userData = Returns result ->
  generateTwinPersonality ai (Storage.ins_name userData) (Storage.ins_bio userData)
    (Routes.if_success (Routes.profile_data result)) None = Returns twin ->
  exists stored,
    Storage.users (fst (Routes.create_user lb ai (Returns userData) db))
      !! Storage.next_user db = Some stored
    /\ Storage.twinPersonality stored = twin
    /\ snd (Routes.create_user lb ai (Returns userData) db)
       = Routes.status_json 200 (Routes.UserObject stored).
Proof.
  intros Hfetch Htwin. unfold Routes.create_user. cbn [Storage.createUser].
  rewrite Hfetch. unfold Storage.updateUser.
  cbn [Storage.users Storage.user_id]. rewrite lookup_insert_eq.
  cbn [Storage.ins_name Storage.ins_bio]. rewrite Htwin.
  unfold Storage.updateUserTwin, Storage.with_users.
  cbn [Storage.users]. rewrite lookup_insert_eq.
  cbn [fst snd Storage.users]. rewrite lookup_insert_eq.
  eexists. split; [reflexivity|]. split; reflexivity.
Qed.

(** C2, as the code has it.  Once both model calls and [JSON.parse] have
    succeeded, [generateTwinPersonality] returns without looking at the
    fields: [personalityInsight] is always the text of the first call, every
    other field is present exactly when the parsed response has it, and the
    route stores that object as the user's persona. *)
Theorem C2_persona_is_not_validated lb ai userData db result insight response content data :
  Routes.integration lb userData = Returns result ->
  analyzePersonality ai (Storage.ins_bio userData)
    (Routes.if_success (Routes.profile_data result)) None = Returns insight ->
  create ai
    (persona_prompt (Storage.ins_name userData) (Storage.ins_bio userData)
       (Routes.if_success (Routes.profile_data result)) None insight) true
  = Returns response ->
  first_content response = Returns content ->
  JSON_parse ai (or_else content "{}") = Returns data ->
  exists persona stored,
    generateTwinPersonality ai (Storage.ins_name userData) (Storage.ins_bio userData)
      (Routes.if_success (Routes.profile_data result)) None
    = Returns (JObject persona)
    /\ lookup_prop persona "personalityInsight" = Some (JString insight)
    /\ (forall k, k <> "personalityInsight" ->
                  lookup_prop persona k = lookup_prop (spread data) k)
    /\ Storage.users (fst (Routes.create_user lb ai (Returns userData) db))
         !! Storage.next_user db = Some stored
    /\ Storage.twinPersonality stored = JObject persona
    /\ Routes.statusCode (snd (Routes.create_user lb ai (Returns userData) db)) = 200%Z.
Proof.
  intros Hfetch Hinsight Hcreate Hfirst Hparse.
  pose proof (generateTwinPersonality_returns _ _ _ _ _ _ _ _ _
                Hinsight Hcreate Hfirst Hparse) as Htwin.
  destruct (create_user_stores_twin lb ai userData db result _ Hfetch Htwin)
    as (stored & Hstored & Hpersona & Hres).
  eexists _, stored. split; [exact Htwin|].
  split; [rewrite lookup_set_prop; reflexivity|].
  split.
  - intros k Hk. rewrite lookup_set_prop.
    destruct (String.eqb k "personalityInsight") eqn:E; [|reflexivity].
    apply String.eqb_eq in E. contradiction.
  - split; [exact Hstored|]. split; [exact Hpersona|]. now rewrite Hres.
Qed.

(** C3, as the code has it.  An error of the model call is passed on; a
    response whose content is [null] or empty gives the empty string; any
    other content is returned as it is. *)
Theorem C3_insight_of_each_outcome env bio lb sp :
  (forall e,
      create env (analysis_prompt bio lb sp) false = Throws e ->
      analyzePersonality env bio lb sp = Throws e)
  /\ (forall content rest,
        create env (analysis_prompt bio lb sp) false
        = Returns {| choices := content :: rest |} ->
        truthy content = false ->
        analyzePersonality env bio lb sp = Returns EmptyString)
  /\ (forall text rest,
        create env (analysis_prompt bio lb sp) false
        = Returns {| choices := Some text :: rest |} ->
        text <> EmptyString ->
        analyzePersonality env bio lb sp = Returns text).
Proof.
  unfold analyzePersonality. repeat split.
  - intros e ->. reflexivity.
  - intros content rest -> Hfalsy. cbn.
    destruct content as [[|c r]|]; [reflexivity | discriminate | reflexivity].
  - intros text rest -> Htext. cbn. destruct text; [contradiction | reflexivity].
Qed.

(** The generator yields the non-empty contents of the upstream chunks, in
    arrival order, and ends the way the upstream stream ends. *)
Lemma streamChatResponse_yields env persona name message context prompt upstream :
  chat_prompt persona name message context = Returns prompt ->
  create_stream env prompt = Returns upstream ->
  items (streamChatResponse env persona name message context)
  = fragments (items upstream)
  /\ ending (streamChatResponse env persona name message context)
     = ending upstream
  /\ sublist
       (Some <$> items (streamChatResponse env persona name message context))
       (items upstream)
  /\ Forall (fun fragment => fragment <> EmptyString)
       (items (streamChatResponse env persona name message context)).
Proof.
  intros Hprompt Hopen. unfold streamChatResponse.
  rewrite Hprompt, Hopen. cbn [items ending].
  split; [reflexivity|]. split; [reflexivity|].
  unfold fragments. split.
  - induction (items upstream) as [|c cs IH]; [constructor|].
    cbn. destruct c as [[|a s]|]; cbn; now constructor.
  - induction (items upstream) as [|c cs IH]; [constructor|].
    cbn. destruct c as [[|a s]|]; cbn; [exact IH | | exact IH].
    constructor; [discriminate | exact IH].
Qed.

(** When persona synthesis throws, the route answers 400 with the message of
    the error and the user row it created keeps a [null] persona. *)
Lemma create_user_synthesis_fails lb ai userData db result e :
  Routes.integration lb userData = Returns result ->
  generateTwinPersonality ai (Storage.ins_name userData) (Storage.ins_bio userData)
    (Routes.if_success (Routes.profile_data result)) None = Throws e ->
  snd (Routes.create_user lb ai (Returns userData) db)
  = Routes.status_json 400 (Routes.MessageObject (Routes.message_of e))
  /\ exists stored,
       Storage.users (fst (Routes.create_user lb ai (Returns userData) db))
         !! Storage.next_user db = Some stored
       /\ Storage.twinPersonality stored = JNull
       /\ Storage.letterboxdData stored = Routes.profile_data result.
Proof.
  intros Hfetch Htwin. unfold Routes.create_user. cbn [Storage.createUser].
  rewrite Hfetch. unfold Storage.updateUser.
  cbn [Storage.users Storage.user_id]. rewrite lookup_insert_eq.
  cbn [Storage.ins_name Storage.ins_bio]. rewrite Htwin.
  split; [reflexivity|]. unfold Storage.with_users.
  cbn [fst Storage.users]. rewrite lookup_insert_eq.
  eexists. split; [reflexivity|]. split; reflexivity.
Qed.

End Synthesis.

(** ** The chat route *)

Section Chat.
Import Routes.

Lemma completed_interrupted db resp_body ev user_line chunks :
  resp_body = user_line :: map Raw chunks ++ [ErrorObject "Failed to generate response"] ->
  Spec.completed
    {| db_after := db;
       response := {| statusCode := 200; body := resp_body; writableEnded := true |};
       events := ev |} = false.
Proof.
  intros ->. unfold Spec.completed. cbn [response body statusCode writableEnded].
  cbn [forallb]. rewrite forallb_app. cbn. rewrite !andb_false_r. reflexivity.
Qed.

Lemma send_message_events ai client uid content db user :
  Storage.getUser db uid = Some user ->
  events (send_message ai client uid content db)
  = flat_map (fun c => [Next; Forward c])
      (OpenAI.items (Spec.generated ai db uid user content))
    ++ [Next].
Proof.
  intros Huser. rewrite (send_message_existing ai client uid content db user Huser).
  cbv zeta. now destruct (OpenAI.ending _).
Qed.

(** C1. When a chat request completes normally, the text persisted as the
    twin's turn is the concatenation, in arrival order, of exactly the
    fragments the generator produced, and these are exactly the raw chunks
    written to the response, in the same order. *)
Theorem C1_persisted_reply_is_streamed_text ai client uid content db :
  Spec.completed (send_message ai client uid content db) = true ->
  exists user userTurn twinTurn,
    Storage.getUser db uid = Some user
    /\ Spec.forwarded (events (send_message ai client uid content db))
       = OpenAI.items (Spec.generated ai db uid user content)
    /\ Spec.raw_chunks (body (response (send_message ai client uid content db)))
       = Spec.forwarded (events (send_message ai client uid content db))
    /\ Storage.messages (db_after (send_message ai client uid content db))
       = Storage.messages db ++ [userTurn; twinTurn]
    /\ Storage.fromUser twinTurn = false
    /\ Storage.userId twinTurn = uid
    /\ Storage.content twinTurn
       = Spec.concatenation
           (Spec.forwarded (events (send_message ai client uid content db))).
Proof.
  destruct (Storage.getUser db uid) as [user|] eqn:Huser.
  2:{ unfold send_message. rewrite Huser. discriminate. }
  rewrite (send_message_existing ai client uid content db user Huser).
  cbv zeta.
  destruct (OpenAI.ending _) eqn:Hend.
  - intros _. eexists user, _, _. split; [reflexivity|].
    cbn [events response body db_after].
    rewrite forwarded_loop. simpl Spec.raw_chunks. rewrite raw_chunks_Raw.
    split; [reflexivity|]. split; [reflexivity|].
    split; [simpl; rewrite <- app_assoc; reflexivity|]. repeat split.
  - intros H. erewrite completed_interrupted in H by reflexivity. discriminate.
Qed.

(** The bytes of a run of raw chunks followed by more payloads. *)
Lemma sent_chunks chunks rest :
  sent (map Raw chunks ++ rest)
  = (fun more => Spec.concatenation chunks +:+ more) <$> sent rest.
Proof.
  induction chunks as [|c chunks IH]; cbn [map app sent written].
  - now destruct (sent rest).
  - rewrite IH. destruct (sent rest) as [more|]; [|reflexivity].
    cbn. now rewrite append_assoc.
Qed.

(** C8, as the code has it.  When the reply stream fails, every fragment
    forwarded stays in the response, unchanged and in order, and the partial
    text is not stored.  The failure is not signalled apart from the reply:
    the response keeps status 200, and the handler ends its body with the
    text of [JSON.stringify({ error })] right after the last fragment.  The
    bytes sent are the control line, the fragments and that text, and they
    are, with the same status, the bytes of a reply that ends normally after
    yielding that text as its last fragment. *)
Theorem C8_failure_is_sent_as_reply_text ai ai' client uid content db user e :
  Storage.getUser db uid = Some user ->
  OpenAI.ending (Spec.generated ai db uid user content) = OpenAI.Interrupted e ->
  OpenAI.items (Spec.generated ai' db uid user content)
  = OpenAI.items (Spec.generated ai db uid user content) ++ [Spec.error_text] ->
  OpenAI.ending (Spec.generated ai' db uid user content) = OpenAI.EndOfStream ->
  let failed := send_message ai client uid content db in
  let clean := send_message ai' client uid content db in
  let chunks := OpenAI.items (Spec.generated ai db uid user content) in
  exists userTurn control,
    written (UserMessageLine userTurn) = Some control
    /\ Spec.forwarded (events failed) = chunks
    /\ body (response failed)
       = UserMessageLine userTurn :: map Raw chunks
         ++ [ErrorObject "Failed to generate response"]
    /\ statusCode (response failed) = 200%Z
    /\ sent (body (response failed))
       = Some (control +:+ Spec.concatenation chunks +:+ Spec.error_text)
    /\ Storage.messages (db_after failed) = Storage.messages db ++ [userTurn]
    /\ Spec.completed clean = true
    /\ statusCode (response clean) = statusCode (response failed)
    /\ writableEnded (response clean) = writableEnded (response failed)
    /\ sent (body (response clean)) = sent (body (response failed)).
Proof.
  intros Huser Hend Hitems Hend' failed clean chunks. subst failed clean.
  rewrite !(send_message_existing _ client uid content db user Huser).
  cbv zeta. rewrite Hend, Hend', Hitems. fold chunks.
  cbn [events response body db_after statusCode writableEnded].
  eexists _, _. split; [reflexivity|].
  split; [apply forwarded_loop|]. split; [reflexivity|]. split; [reflexivity|].
  assert (Hsent : forall tail,
             sent (UserMessageLine
                     {| Storage.id := Storage.next_message db; Storage.userId := uid;
                        Storage.content := content; Storage.fromUser := true |}
                   :: map Raw chunks ++ tail)
             = (fun more =>
                  (stringify_control
                     {| Storage.id := Storage.next_message db; Storage.userId := uid;
                        Storage.content := content; Storage.fromUser := true |}
                   +:+ JS.nl)
                  +:+ Spec.concatenation chunks +:+ more) <$> sent tail).
  { intros tail. cbn [sent written]. rewrite sent_chunks.
    now destruct (sent tail). }
  split.
  { rewrite Hsent. cbn [sent written fmap option_fmap option_map].
    unfold Spec.error_text. now rewrite append_empty_r. }
  split; [reflexivity|].
  split.
  { unfold Spec.completed. cbn [response statusCode writableEnded body forallb].
    cbn [Z.eqb Pos.eqb andb]. rewrite forallb_forall. intros p Hp.
    apply in_map_iff in Hp as (c & <- & _). reflexivity. }
  split; [reflexivity|]. split; [reflexivity|].
  rewrite map_app, !Hsent. cbn [map sent written fmap option_fmap option_map].
  unfold Spec.error_text. now rewrite !append_empty_r.
Qed.

(** C10. For a request addressed to an existing user, the user's message is
    stored first: the stored row is the first thing written to the response,
    the reply is generated from a log that already holds it, and it stays
    stored whether the reply stream ends or fails; the twin's turn is stored
    only when the stream ends. *)
Theorem C10_user_turn_is_kept ai client uid content db user :
  Storage.getUser db uid = Some user ->
  exists userTurn,
    userTurn
    = {| Storage.id := Storage.next_message db; Storage.userId := uid;
         Storage.content := content; Storage.fromUser := true |}
    /\ Storage.messages (fst (Storage.addMessage db uid content true))
       = Storage.messages db ++ [userTurn]
    /\ head (body (response (send_message ai client uid content db)))
       = Some (UserMessageLine userTurn)
    /\ Spec.forwarded (events (send_message ai client uid content db))
       = OpenAI.items (Spec.generated ai db uid user content)
    /\ match OpenAI.ending (Spec.generated ai db uid user content) with
       | OpenAI.EndOfStream =>
           exists twinTurn,
             Storage.fromUser twinTurn = false
             /\ Storage.messages (db_after (send_message ai client uid content db))
                = Storage.messages db ++ [userTurn; twinTurn]
       | OpenAI.Interrupted _ =>
           Storage.messages (db_after (send_message ai client uid content db))
           = Storage.messages db ++ [userTurn]
       end.
Proof.
  intros Huser.
  rewrite (send_message_existing ai client uid content db user Huser).
  cbv zeta. eexists. split; [reflexivity|]. split; [reflexivity|].
  destruct (OpenAI.ending _) eqn:Hend; cbn [events response body db_after];
    rewrite forwarded_loop; repeat split.
  eexists. split; [|simpl; rewrite <- app_assoc; reflexivity]. reflexivity.
Qed.

(** C9, as the code has it.  The handler does not see the client leave: for
    every client it does what it does for one that stays.  It asks for every
    fragment of the stream, so after [n] forwarded fragments it still makes
    one request for each remaining fragment and one that meets the end; when
    the stream ends it stores the whole reply. *)
Theorem C9_disconnect_is_not_observed ai client uid content db :
  send_message ai client uid content db = send_message ai patient uid content db
  /\ forall user,
       Storage.getUser db uid = Some user ->
       let chunks :=
         OpenAI.items (Spec.generated ai db uid user content) in
       Spec.forwarded (events (send_message ai client uid content db)) = chunks
       /\ (forall n, n <= length chunks ->
             Spec.requests_after n (events (send_message ai client uid content db))
             = length chunks - n + 1)
       /\ (OpenAI.ending (Spec.generated ai db uid user content)
           = OpenAI.EndOfStream ->
           exists userTurn twinTurn,
             Storage.messages (db_after (send_message ai client uid content db))
             = Storage.messages db ++ [userTurn; twinTurn]
             /\ Storage.content twinTurn = Spec.concatenation chunks).
Proof.
  split; [reflexivity|]. intros user Huser chunks.
  rewrite (send_message_events ai client uid content db user Huser).
  split; [apply forwarded_loop|].
  split; [intros n Hn; now apply requests_after_loop|].
  intros Hend. rewrite (send_message_existing ai client uid content db user Huser).
  cbv zeta. rewrite Hend. cbn [db_after]. eexists _, _.
  split; [simpl; rewrite <- app_assoc; reflexivity | reflexivity].
Qed.


End Chat.

(** ** The Spotify client *)

Section SpotifyClient.
Import JS Spotify.

Lemma append_cons c (s t : string) : String c s +:+ t = String c (s +:+ t).
Proof. reflexivity. Qed.

Lemma append_nil (t : string) : EmptyString +:+ t = t.
Proof. reflexivity. Qed.

(** *** The redirect URI *)



Lemma is_port_spec (port : string) :
  port <> EmptyString -> digits_only port = true -> is_port (":" +:+ port) = true.
Proof.
  intros Hne Hd. destruct port as [|c r]; [contradiction|].
  change (is_port (String ":" (String c r)) = true).
  cbn [is_port]. cbn [digits_only] in Hd. now destruct (digit c).
Qed.




(** *** The urlencoded serializer and its reading *)

Lemma occurs_app c (s t : string) :
  Spec.occurs c (s +:+ t) = Spec.occurs c s || Spec.occurs c t.
Proof.
  induction s as [|d s IH]; [reflexivity|].
  rewrite append_cons. cbn [Spec.occurs]. now rewrite IH, orb_assoc.
Qed.

Lemma urldecode_byte (c : ascii) (r : string) :
  Spec.urldecode (urlencode_byte c +:+ r) = String c (Spec.urldecode r).
Proof.
  destruct c as [[] [] [] [] [] [] [] []]; reflexivity.
Qed.

Lemma urldecode_urlencode_app (s r : string) :
  Spec.urldecode (urlencode s +:+ r) = s +:+ Spec.urldecode r.
Proof.
  induction s as [|c s IH]; [reflexivity|].
  cbn [urlencode]. rewrite append_assoc, urldecode_byte, IH. reflexivity.
Qed.

Lemma urldecode_urlencode (s : string) : Spec.urldecode (urlencode s) = s.
Proof.
  rewrite <- (append_empty_r (urlencode s)), urldecode_urlencode_app.
  apply append_empty_r.
Qed.

Lemma urlencode_byte_clean (c : ascii) :
  Spec.occurs "&" (urlencode_byte c) = false
  /\ Spec.occurs "=" (urlencode_byte c) = false.
Proof.
  destruct c as [[] [] [] [] [] [] [] []]; split; reflexivity.
Qed.

Lemma urlencode_clean (s : string) :
  Spec.occurs "&" (urlencode s) = false /\ Spec.occurs "=" (urlencode s) = false.
Proof.
  induction s as [|c s [IH1 IH2]]; [split; reflexivity|].
  cbn [urlencode]. rewrite !occurs_app, IH1, IH2.
  destruct (urlencode_byte_clean c) as [-> ->]. split; reflexivity.
Qed.

Lemma split_clean sep (s : string) : Spec.occurs sep s = false -> split sep s = [s].
Proof.
  induction s as [|c s IH]; [reflexivity|].
  cbn [Spec.occurs split]. intros H. apply orb_false_elim in H as [Hc Hs].
  rewrite Hc, (IH Hs). reflexivity.
Qed.

Lemma split_app sep (s t : string) :
  Spec.occurs sep s = false ->
  split sep (s +:+ String sep t) = s :: split sep t.
Proof.
  induction s as [|c s IH]; intros H.
  - rewrite append_nil. cbn [split]. now rewrite Ascii.eqb_refl.
  - cbn [Spec.occurs] in H. apply orb_false_elim in H as [Hc Hs].
    rewrite append_cons. cbn [split]. rewrite Hc, (IH Hs). reflexivity.
Qed.

Lemma parse_pair_encoded (k v : string) :
  Spec.parse_pair (urlencode k +:+ "=" +:+ urlencode v) = (k, v).
Proof.
  unfold Spec.parse_pair.
  change (urlencode k +:+ "=" +:+ urlencode v)
    with (urlencode k +:+ String "=" (urlencode v)).
  rewrite split_app by apply urlencode_clean.
  rewrite split_clean by apply urlencode_clean.
  cbn [join]. now rewrite !urldecode_urlencode.
Qed.

Lemma encoded_pair_clean p :
  Spec.occurs "&" (Spec.encoded_pair p) = false
  /\ Spec.encoded_pair p <> EmptyString.
Proof.
  unfold Spec.encoded_pair. split.
  - rewrite !occurs_app. destruct (urlencode_clean (fst p)) as [-> _].
    destruct (urlencode_clean (snd p)) as [-> _]. reflexivity.
  - destruct (urlencode (fst p)); discriminate.
Qed.

(** Reading a serialized query gives back the pairs that were serialized,
    whatever characters they contain. *)
Lemma parse_query_toString (params : list (string * string)) :
  Spec.parse_query (URLSearchParams_toString params) = params.
Proof.
  unfold URLSearchParams_toString, Spec.parse_query.
  change (fun p : string * string => urlencode (fst p) +:+ "=" +:+ urlencode (snd p))
    with Spec.encoded_pair.
  induction params as [|p params IH]; [reflexivity|].
  destruct (encoded_pair_clean p) as [Hamp Hne].
  destruct params as [|q params].
  - cbn [map join]. rewrite split_clean by exact Hamp.
    cbn [List.filter map].
    destruct (String.eqb_spec (Spec.encoded_pair p) "") as [E|_];
      [contradiction|].
    cbn [negb map]. unfold Spec.encoded_pair. rewrite parse_pair_encoded.
    now destruct p.
  - change (join "&" (map Spec.encoded_pair (p :: q :: params)))
      with (Spec.encoded_pair p
            +:+ String "&" (join "&" (map Spec.encoded_pair (q :: params)))).
    rewrite split_app by exact Hamp. cbn [List.filter].
    destruct (String.eqb_spec (Spec.encoded_pair p) "") as [E|_];
      [contradiction|].
    cbn [negb]. rewrite List.map_cons, IH. f_equal.
    unfold Spec.encoded_pair. rewrite parse_pair_encoded. now destruct p.
Qed.

(** [getAuthUrl] fails exactly when no client id is configured; otherwise the
    URL it returns is the authorization endpoint followed by a query that
    reads back as the client id, the response type, the redirect URI made
    of the host, the three scopes and, when there is one, the state: no
    character of the state or of the host adds to or alters a parameter. *)
Theorem auth_url_query env (state requestHost : option string) :
  match getAuthUrl env state requestHost with
  | Returns authUrl =>
      exists client_id query,
        SPOTIFY_CLIENT_ID env = Some client_id
        /\ client_id <> EmptyString
        /\ authUrl = "https://accounts.spotify.com/authorize?" +:+ query
        /\ Spec.parse_query query
           = [ ("client_id", client_id);
               ("response_type", "code");
               ("redirect_uri", getRedirectUri env requestHost);
               ("scope", "user-read-recently-played user-top-read playlist-read-private") ]
             ++ (if truthy state then [("state", default EmptyString state)] else [])
  | Throws e =>
      e = Error "SPOTIFY_CLIENT_ID is not configured" "Error"
      /\ truthy (SPOTIFY_CLIENT_ID env) = false
  end.
Proof.
  unfold getAuthUrl. destruct (SPOTIFY_CLIENT_ID env) as [[|c r]|] eqn:Hid.
  - split; reflexivity.
  - exists (String c r),
      (URLSearchParams_toString (auth_params (String c r) state requestHost env)).
    split; [reflexivity|]. split; [discriminate|]. split; [reflexivity|].
    rewrite parse_query_toString. unfold auth_params.
    destruct state as [[|a s]|]; reflexivity.
  - split; reflexivity.
Qed.

(** *** The profile *)

Lemma tracks_of_returns its :
  Forall (fun it => track_artists it <> []) its ->
  exists ts, tracks_of its = Returns ts /\ Forall2 Spec.track_from its ts.
Proof.
  induction 1 as [|it its Hit _ (ts & Hts & Hall)].
  - exists []. split; [reflexivity | constructor].
  - destruct (track_artists it) as [|first others] eqn:Hartists; [contradiction|].
    exists ({| name := track_name it; artist := first; playedAt := played_at it |} :: ts).
    split.
    + cbn [tracks_of]. unfold track_of. rewrite Hartists, Hts. reflexivity.
    + constructor; [|exact Hall]. unfold Spec.track_from. now rewrite Hartists.
Qed.



Lemma StronglySorted_precedes {A} (R : A -> A -> Prop) (l : list A) :
  (forall a b, Spec.precedes l a b -> R a b) -> StronglySorted R l.
Proof.
  induction l as [|x l IH]; intros H; constructor.
  - apply IH. intros a b (l1 & l2 & -> & Hb). apply H.
    now exists (x :: l1), l2.
  - apply List.Forall_forall. intros b Hb. apply H. now exists [], l.
Qed.

Lemma In_flat_map_genres artists g :
  In g (flat_map genres artists) <-> exists a, In a artists /\ In g (genres a).
Proof. apply in_flat_map. Qed.

(** When both requests return and each of the first ten played items names
    an artist, [getUserData] succeeds: the top artists are the names of the
    first five artists; the top genres are the first five of the distinct
    genres of all the artists returned, not of the five that are named, in
    the order in which they are first met; the recent tracks are the first
    ten played items, each with the first of its artists. *)
Theorem getUserData_succeeds env token artists played :
  get_top_artists env ("Bearer " +:+ template token) = Fetched artists ->
  get_recently_played env ("Bearer " +:+ template token) = Fetched played ->
  Forall (fun it => track_artists it <> []) (take 10 played) ->
  exists s distinct,
    getUserData env token = Returns (success s)
    /\ topArtists s = map artist_name (take 5 artists)
    /\ topGenres s = take 5 distinct
    /\ NoDup distinct
    /\ (forall g, In g distinct <-> exists a, In a artists /\ In g (genres a))
    /\ StronglySorted (Spec.seen_before (flat_map genres artists)) distinct
    /\ Forall2 Spec.track_from (take 10 played) (recentTracks s).
Proof.
  intros Hartists Hplayed Hall.
  destruct (tracks_of_returns _ Hall) as (ts & Hts & Hfrom).
  eexists _, (Spec.first_seen (flat_map genres artists)).
  split.
  { unfold getUserData. rewrite Hartists, Hplayed. cbn [Promise_all].
    unfold slice0. rewrite Hts. reflexivity. }
  cbn [topArtists topGenres recentTracks].
  split; [reflexivity|]. split; [reflexivity|].
  split; [apply first_seen_NoDup|].
  split; [intros g; rewrite first_seen_In; apply In_flat_map_genres|].
  split; [|exact Hfrom].
  apply StronglySorted_precedes. intros a b. apply precedes_first_seen.
Qed.


(** *** The token exchange and the connect route *)


(** GET /api/connect/spotify answers 400 exactly when no user id is given,
    and then leaves the session alone; 500, with the message of the missing
    client id, exactly when a user id is given and no client id is
    configured; and otherwise redirects to the authorization URL, whose
    query reads back with the user id as its state.  The host of the request
    is kept in the session whenever a user id is given. *)
Theorem connect_spotify_replies sp userId host session :
  match Routes.connect_spotify sp userId host session with
  | (session1, Routes.Redirect authUrl) =>
      exists state client_id query,
        userId = Some state /\ state <> EmptyString
        /\ SPOTIFY_CLIENT_ID sp = Some client_id /\ client_id <> EmptyString
        /\ authUrl = "https://accounts.spotify.com/authorize?" +:+ query
        /\ Spec.parse_query query
           = [ ("client_id", client_id);
               ("response_type", "code");
               ("redirect_uri", getRedirectUri sp host);
               ("scope",
                "user-read-recently-played user-top-read playlist-read-private");
               ("state", state) ]
        /\ Routes.originalHost session1 = Some (or_else host EmptyString)
  | (session1, Routes.Json status text details) =>
      (status = 400%Z /\ text = "Missing userId parameter"
       /\ truthy userId = false /\ session1 = session)
      \/ (status = 500%Z /\ text = "SPOTIFY_CLIENT_ID is not configured"
          /\ truthy userId = true /\ truthy (SPOTIFY_CLIENT_ID sp) = false
          /\ Routes.originalHost session1 = Some (or_else host EmptyString))
  end.
Proof.
  unfold Routes.connect_spotify.
  destruct userId as [[|c r]|]; [left; auto | | left; auto].
  unfold getAuthUrl.
  destruct (SPOTIFY_CLIENT_ID sp) as [[|c' r']|] eqn:Hid;
    [right; auto 6 | | right; auto 6].
  exists (String c r), (String c' r'),
    (URLSearchParams_toString (auth_params (String c' r') (Some (String c r)) host sp)).
  split; [reflexivity|]. split; [discriminate|]. split; [reflexivity|].
  split; [discriminate|]. split; [reflexivity|].
  split; [|reflexivity]. now rewrite parse_query_toString.
Qed.

End SpotifyClient.

(** ** The store and the handlers that write to it *)

Section Store.
Import JS Storage.







Lemma integration_returns lb userData :
  exists result, Routes.integration lb userData = Returns result.
Proof.
  unfold Routes.integration.
  destruct (ins_letterboxdUrl userData) as [[|c r]|]; eauto.
  unfold Letterboxd.getLetterboxdProfile.
  destruct (Letterboxd.fetch_profile lb (String c r)); cbn; eauto.
Qed.









(** A chat request writes to the message log only, and only by appending:
    no stored message is changed or removed, at most two messages are added,
    both of the user addressed, and the users table and the stored turns of
    every other user are as before, so the history served for another user
    holds the same rows.  For a user that is not stored nothing is added: the
    store is left as it is, the answer is 404 and no reply is asked for; for
    a stored user the first message added is the user's turn. *)
Theorem chat_appends_to_one_history ai client uid content db :
  let handled := Routes.send_message ai client uid content db in
  let after := Routes.db_after handled in
  users after = users db
  /\ next_user after = next_user db
  /\ (exists added,
        messages after = messages db ++ added
        /\ length added <= 2
        /\ Forall (fun m => userId m = uid) added
        /\ (getUser db uid = None -> added = [])
        /\ (forall user, getUser db uid = Some user ->
              head added
              = Some {| id := next_message db; userId := uid;
                        content := content; fromUser := true |})
        /\ forall other, other <> uid ->
             Spec.turn_log after other = Spec.turn_log db other
             /\ Permutation (Routes.get_messages other after)
                  (Routes.get_messages other db))
  /\ (getUser db uid = None ->
      after = db
      /\ Routes.response handled
         = Routes.status_json 404 (Routes.MessageObject "User not found")
      /\ Routes.events handled = []).
Proof.
  intros handled after. subst after handled. unfold Routes.send_message.
  assert (Hother : forall other added, other <> uid ->
            Forall (fun m => userId m = uid) added ->
            List.filter (fun m => (userId m =? other)%Z) (messages db ++ added)
            = List.filter (fun m => (userId m =? other)%Z) (messages db)).
  { intros other added Hne Hall. rewrite List.filter_app.
    replace (List.filter _ added) with (@nil Message); [apply app_nil_r|].
    induction Hall as [|m l Hm _ IH]; [reflexivity|]. cbn.
    destruct (Z.eqb_spec (userId m) other); [congruence | exact IH]. }
  assert (Hserved : forall other after,
            Spec.turn_log after other = Spec.turn_log db other ->
            Permutation (Routes.get_messages other after)
              (Routes.get_messages other db)).
  { intros other after Hlog. unfold Routes.get_messages, getMessages.
    fold (Spec.turn_log after other). fold (Spec.turn_log db other).
    rewrite !rows_perm. now rewrite Hlog. }
  destruct (getUser db uid) as [user|].
  - cbn [addMessage]. destruct (OpenAI.ending _) as [|e]; cbn [Routes.db_after addMessage].
    + cbn [users next_user messages]. split; [reflexivity|]. split; [reflexivity|].
      split; [|discriminate].
      eexists [_; _]. rewrite <- app_assoc. split; [reflexivity|].
      split; [cbn; lia|]. split; [repeat constructor|].
      split; [discriminate|]. split; [reflexivity|]. intros other Hne.
      match goal with |- ?P /\ _ => assert (Hlog : P) end.
      { unfold Spec.turn_log. cbn [messages].
        now apply Hother; [|repeat constructor]. }
      split; [exact Hlog | now apply Hserved].
    + cbn [users next_user messages]. split; [reflexivity|]. split; [reflexivity|].
      split; [|discriminate].
      eexists [_]. split; [reflexivity|]. split; [cbn; lia|].
      split; [repeat constructor|].
      split; [discriminate|]. split; [reflexivity|]. intros other Hne.
      match goal with |- ?P /\ _ => assert (Hlog : P) end.
      { unfold Spec.turn_log. cbn [messages].
        apply Hother; [exact Hne | repeat constructor]. }
      split; [exact Hlog | now apply Hserved].
  - cbn [Routes.db_after Routes.response Routes.events].
    split; [reflexivity|]. split; [reflexivity|].
    split; [|intros _; repeat split].
    exists []. rewrite app_nil_r. split; [reflexivity|]. split; [cbn; lia|].
    split; [constructor|]. split; [reflexivity|]. split; [discriminate|].
    intros other _. split; reflexivity.
Qed.

(** PATCH /api/users/:id on a stored user rewrites the row before the
    persona is synthesized: the row takes the name and bio of the request and
    the film profile fetched for it, and its Spotify entry is never a
    success, whatever was stored before.  When synthesis fails the request is
    answered with 400 and the row keeps these new values with the persona it
    had; other rows and the messages are untouched. *)
Theorem update_user_effect lb ai userData userId db old :
  getUser db userId = Some old ->
  let patched := Routes.update_user lb ai (Returns userData) userId db in
  exists result row,
    Routes.integration lb userData = Returns result
    /\ getUser (fst patched) userId = Some row
    /\ name row = ins_name userData
    /\ bio row = ins_bio userData
    /\ letterboxdData row = Routes.profile_data result
    /\ OpenAI.sp_status (spotifyData row) <> OpenAI.Success
    /\ match OpenAI.generateTwinPersonality ai (ins_name userData) (ins_bio userData)
               (Routes.if_success (Routes.profile_data result)) None with
       | Returns twin =>
           twinPersonality row = twin
           /\ snd patched = Routes.status_json 200 (Routes.UserObject row)
       | Throws e =>
           twinPersonality row = twinPersonality old
           /\ snd patched
              = Routes.status_json 400 (Routes.MessageObject (Routes.message_of e))
       end
    /\ (forall k, k <> userId -> getUser (fst patched) k = getUser db k)
    /\ messages (fst patched) = messages db.
Proof.
  intros Hold patched. subst patched. unfold Routes.update_user. rewrite Hold.
  destruct (integration_returns lb userData) as (result & Hres). rewrite Hres.
  exists result. unfold getUser in *. unfold updateUser. rewrite Hold.
  cbn [ins_name ins_bio ins_spotifyUrl ins_letterboxdUrl ins_letterboxdData
       ins_spotifyData default].
  assert (Hsp : OpenAI.sp_status (Routes.patched_spotify userData) <> OpenAI.Success).
  { unfold Routes.patched_spotify. destruct (truthy _); discriminate. }
  destruct (OpenAI.generateTwinPersonality _ _ _ _ _) as [twin|e].
  - unfold updateUserTwin, with_users. cbn [users]. rewrite lookup_insert_eq.
    cbn [fst snd users messages]. rewrite lookup_insert_eq.
    eexists. split; [reflexivity|]. split; [reflexivity|].
    cbn [name bio letterboxdData spotifyData twinPersonality].
    split; [reflexivity|]. split; [reflexivity|]. split; [reflexivity|].
    split; [exact Hsp|]. split; [split; reflexivity|].
    split; [|reflexivity].
    intros k Hk. now rewrite !lookup_insert_ne by congruence.
  - unfold with_users. cbn [fst snd users messages]. rewrite lookup_insert_eq.
    eexists. split; [reflexivity|]. split; [reflexivity|].
    cbn [name bio letterboxdData spotifyData twinPersonality].
    split; [reflexivity|]. split; [reflexivity|]. split; [reflexivity|].
    split; [exact Hsp|]. split; [split; reflexivity|].
    split; [|reflexivity].
    intros k Hk. now rewrite !lookup_insert_ne by congruence.
Qed.

(** The Spotify callback changes the store in one case only: the code is
    exchanged for a token, the profile request returns (be it with the error
    variant), the state names a stored user and the persona is synthesized.
    Then the Spotify entry and the persona of that row are replaced, nothing
    else, and the reply is the redirect to the chat.  In every other case the
    store is as before and the reply is a redirect to the start page; the
    session is written only for the state [pending]. *)
Theorem spotify_callback_effect sp ai Number code userId error host session db :
  Spec.consistent db ->
  let called := Routes.spotify_callback sp ai Number code userId error host session db in
  (exists code' uid user token result twin,
      code = Some code' /\ userId = Some uid
      /\ getUser db (Number uid) = Some user
      /\ Spotify.getAccessToken sp code' host = Returns token
      /\ Spotify.getUserData sp token = Returns result
      /\ OpenAI.generateTwinPersonality ai (name user) (bio user)
           (Routes.if_success (letterboxdData user))
           (Routes.if_connected (Routes.spotify_data result)) = Returns twin
      /\ Routes.reply_sent called = Routes.Redirect ("/chat/" +:+ uid)
      /\ Routes.stored called
         = with_users db
             (<[Number uid := Spec.connected user (Routes.spotify_data result) twin]>
                (users db))
      /\ Routes.session_after called = session)
  \/ (Routes.stored called = db
      /\ exists reason,
           Routes.reply_sent called = Routes.Redirect ("/?" +:+ reason)
           /\ (Routes.session_after called = session
               \/ (userId = Some "pending"
                   /\ reason = "spotify=connected"
                   /\ Routes.originalHost (Routes.session_after called)
                      = Routes.originalHost session
                   /\ exists result,
                        Routes.pendingSpotifyData (Routes.session_after called)
                        = Some result))).
Proof.
  intros Hc called. subst called. unfold Routes.spotify_callback.
  destruct error as [[|c r]|].
  2: { right. split; [reflexivity|]. exists ("error=" +:+ String c r).
       split; [reflexivity | now left]. }
  all: destruct code as [[|c1 r1]|];
    try (right; split; [reflexivity|]; exists "error=missing_params";
         split; [reflexivity | now left]).
  all: destruct userId as [[|c2 r2]|];
    try (right; split; [reflexivity|]; exists "error=missing_params";
         split; [reflexivity | now left]).
  all: unfold Routes.exchange;
    destruct (Spotify.getAccessToken sp (String c1 r1) host) as [token|e] eqn:Htoken;
    [|right; split; [reflexivity|]; exists "error=spotify_auth_failed";
      split; [reflexivity | now left]];
    destruct (Spotify.getUserData sp token) as [result|e] eqn:Hdata;
    [|right; split; [reflexivity|]; exists "error=spotify_auth_failed";
      split; [reflexivity | now left]];
    destruct (String.eqb_spec (String c2 r2) "pending") as [Hp|Hp];
    [right; split; [reflexivity|]; exists "spotify=connected";
     split; [reflexivity|]; right; rewrite Hp; cbn; eauto |];
    destruct (getUser db (Number (String c2 r2))) as [user|] eqn:Huser;
    [|right; split; [reflexivity|]; exists "error=user_not_found";
      split; [reflexivity | now left]];
    destruct (OpenAI.generateTwinPersonality _ _ _ _ _) as [twin|e] eqn:Htwin;
    [|right; split; [reflexivity|]; exists "error=spotify_auth_failed";
      split; [reflexivity | now left]];
    left; exists (String c1 r1), (String c2 r2), user, token, result, twin;
    (split; [reflexivity|]); (split; [reflexivity|]); (split; [exact Huser|]);
    (split; [exact Htoken|]); (split; [exact Hdata|]); (split; [exact Htwin|]);
    pose proof (Spec.keyed db Hc _ _ Huser) as Hid;
    destruct (Spec.urls_stored db Hc _ _ Huser) as [Hs Hl];
    unfold Spec.stored_url in Hs, Hl;
    unfold updateUser, updateUserTwin, getUser in *; rewrite Hid, Huser;
    unfold with_users; cbn [users]; rewrite lookup_insert_eq;
    cbn [Routes.reply_sent Routes.stored Routes.session_after messages next_user
         next_message];
    (split; [reflexivity|]); (split; [|reflexivity]);
    rewrite insert_insert_eq; unfold Spec.connected, Routes.with_spotify;
    cbn [ins_name ins_bio ins_spotifyUrl ins_letterboxdUrl ins_letterboxdData
         ins_spotifyData default name bio spotifyUrl letterboxdUrl letterboxdData
         spotifyData twinPersonality user_id];
    rewrite Hs, Hl, Hid; reflexivity.
Qed.

Lemma getLetterboxdProfile_returns lb url :
  exists result,
    Letterboxd.getLetterboxdProfile lb url = Returns result
    /\ result <> Letterboxd.not_provided.
Proof.
  unfold Letterboxd.getLetterboxdProfile.
  destruct (fetch_profile_cases lb url)
    as [[Hv Hf] | [Hv (username & Hname & [(e & Hget & Hf) | (response & Hget & Hrest)])]].
  1, 2: rewrite Hf; cbn; eexists; split; [reflexivity | discriminate].
  destruct Hrest as [[Hdata Hf] | (text & Hdata & Hrest)].
  { rewrite Hf. cbn. eexists. split; [reflexivity | discriminate]. }
  destruct Hrest as [(e & Hparse & Hf) | [[Hparse Hf] | (channel & Hparse & Hf)]].
  1, 2: rewrite Hf; cbn; eexists; split; [reflexivity | discriminate].
  rewrite Hf. cbn. eexists. split; [reflexivity|].
  pose proof (profile_of_channel_variant channel) as Hv'.
  intros E. now rewrite E in Hv'.
Qed.

(** The test endpoint answers with the result of the profile fetch whenever
    a URL is given: its 500 branch cannot be reached, because the fetch does
    not throw. *)
Theorem test_letterboxd_replies lb url :
  match Routes.test_letterboxd lb url with
  | Routes.Profile result =>
      exists text,
        url = Some text /\ text <> EmptyString
        /\ Letterboxd.getLetterboxdProfile lb text = Returns result
        /\ result <> Letterboxd.not_provided
  | Routes.Refused status error =>
      status = 400%Z /\ error = "URL parameter required" /\ truthy url = false
  end.
Proof.
  unfold Routes.test_letterboxd. destruct url as [[|c r]|];
    [repeat split | | repeat split].
  destruct (getLetterboxdProfile_returns lb (String c r)) as (result & Hr & Hnp).
  rewrite Hr. exists (String c r). repeat split; [discriminate | exact Hr | exact Hnp].
Qed.

End Store.

(** ** The persona a chat needs *)

Section Persona.
Import JS OpenAI.

Lemma chat_prompt_ready persona name message context :
  match chat_prompt persona name message context with
  | Returns _ => Spec.chat_ready persona = true
  | Throws e => Spec.chat_ready persona = false /\ exists text, e = TypeError text
  end.
Proof.
  unfold chat_prompt, Spec.chat_ready, Spec.is_array.
  destruct persona as [| b | text | s | xs | props]; cbn; eauto.
  destruct (lookup_prop props "interests") as [[| b | text | s | xs | ps]|]; cbn;
    eauto.
  destruct (lookup_prop props "traits") as [[| b | text | s | ys | ps]|]; cbn;
    eauto.
Qed.


(** A chat request to a user whose stored persona is not one the prompt can
    be built from stores the user's turn and is answered with the control
    line followed by the error object; the model is not called, whatever it
    would answer, and no reply is stored. *)
Theorem chat_with_unready_persona ai client uid content db user :
  Storage.getUser db uid = Some user ->
  Spec.chat_ready (Storage.twinPersonality user) = false ->
  Routes.send_message ai client uid content db
  = {| Routes.db_after := fst (Storage.addMessage db uid content true);
       Routes.response :=
         {| Routes.statusCode := 200;
            Routes.body :=
              [ Routes.UserMessageLine (snd (Storage.addMessage db uid content true));
                Routes.ErrorObject "Failed to generate response" ];
            Routes.writableEnded := true |};
       Routes.events := [Routes.Next] |}.
Proof.
  intros Huser Hready. unfold Routes.send_message. rewrite Huser.
  cbn [Storage.addMessage]. unfold Routes.reply, streamChatResponse.
  destruct (chat_prompt _ _ _ _) as [prompt|e] eqn:Hprompt.
  - pose proof (chat_prompt_ready (Storage.twinPersonality user) (Storage.name user)
                  content
                  (Routes.context (Storage.name user)
                     (Storage.getMessages
                        (fst (Storage.addMessage db uid content true)) uid))) as H.
    cbn [Storage.addMessage fst] in H. rewrite Hprompt in H. congruence.
  - reflexivity.
Qed.

End Persona.

(** ** Sources that did not succeed *)

Section Sources.
Import JS OpenAI.

Lemma movie_section_unsuccessful heading letterboxdData :
  is_success (lb_status <$> letterboxdData) = false ->
  movie_section heading letterboxdData = movie_section heading None.
Proof.
  unfold movie_section. destruct letterboxdData as [d|]; [|reflexivity].
  cbn. now intros ->.
Qed.

Lemma music_section_unsuccessful heading spotifyData :
  is_success (sp_status <$> spotifyData) = false ->
  music_section heading spotifyData = music_section heading None.
Proof.
  unfold music_section. destruct spotifyData as [d|]; [|reflexivity].
  cbn. now intros ->.
Qed.

(** Nothing of a profile source whose status is not [success] reaches the
    model: neither its error text nor any field it may still carry.  Source
    by source, whatever the other one is: persona synthesis with such a
    source sends the same two prompts, and so has the same outcome, as
    synthesis with that source absent. *)
Theorem unsuccessful_sources_are_not_sent env name bio letterboxdData spotifyData :
  (is_success (lb_status <$> letterboxdData) = false ->
   analysis_prompt bio letterboxdData spotifyData
   = analysis_prompt bio None spotifyData
   /\ (forall insight,
         persona_prompt name bio letterboxdData spotifyData insight
         = persona_prompt name bio None spotifyData insight)
   /\ generateTwinPersonality env name bio letterboxdData spotifyData
      = generateTwinPersonality env name bio None spotifyData)
  /\ (is_success (sp_status <$> spotifyData) = false ->
      analysis_prompt bio letterboxdData spotifyData
      = analysis_prompt bio letterboxdData None
      /\ (forall insight,
            persona_prompt name bio letterboxdData spotifyData insight
            = persona_prompt name bio letterboxdData None insight)
      /\ generateTwinPersonality env name bio letterboxdData spotifyData
         = generateTwinPersonality env name bio letterboxdData None).
Proof.
  assert (Hsame : forall lb sp lb' sp',
             movie_section "Their movie preferences:" lb
             = movie_section "Their movie preferences:" lb' ->
             movie_section "Movie Preferences:" lb
             = movie_section "Movie Preferences:" lb' ->
             music_section "Their music preferences:" sp
             = music_section "Their music preferences:" sp' ->
             music_section "Music Preferences:" sp
             = music_section "Music Preferences:" sp' ->
             analysis_prompt bio lb sp = analysis_prompt bio lb' sp'
             /\ (forall insight,
                   persona_prompt name bio lb sp insight
                   = persona_prompt name bio lb' sp' insight)
             /\ generateTwinPersonality env name bio lb sp
                = generateTwinPersonality env name bio lb' sp').
  { intros lb sp lb' sp' H1 H2 H3 H4.
    assert (Ha : analysis_prompt bio lb sp = analysis_prompt bio lb' sp')
      by (unfold analysis_prompt; now rewrite H1, H3).
    assert (Hp : forall insight,
               persona_prompt name bio lb sp insight
               = persona_prompt name bio lb' sp' insight)
      by (intros insight; unfold persona_prompt; now rewrite H2, H4).
    split; [exact Ha|]. split; [exact Hp|].
    unfold generateTwinPersonality, analyzePersonality. rewrite Ha.
    unfold mbind, Outcome_bind.
    destruct (create env (analysis_prompt bio lb' sp') false) as [response|e];
      cbn [bind]; [|reflexivity].
    destruct (first_content response) as [content|e]; cbn [bind]; [|reflexivity].
    now rewrite Hp. }
  split; intros H; apply Hsame; try reflexivity;
    first [now apply movie_section_unsuccessful | now apply music_section_unsuccessful].
Qed.

End Sources.

(** ** The feed a profile is read from *)

Section Feed.
Import JS Letterboxd.

(** The first segment of a path that begins with a slash. *)
Lemma first_segment (segment rest : string) :
  Spec.occurs "/" segment = false ->
  rest = EmptyString \/ (exists r, rest = String "/" r) ->
  exists more, split "/" (String "/" (segment +:+ rest)) = EmptyString :: segment :: more.
Proof.
  intros Hclean [-> | (r & ->)]; cbn [split Ascii.eqb]; cbn.
  - rewrite append_empty_r, split_clean by exact Hclean. now exists [].
  - rewrite split_app by exact Hclean. now exists (split "/" r).
Qed.

(** A profile fetch makes at most one request, to the feed of the first
    segment of the path on letterboxd.com, whatever scheme, further segments
    or query the URL has: the outcome is the same under any two HTTP clients
    that agree on that one feed URL.  The first segment may be empty.  For a
    host other than letterboxd.com the answer is the format error. *)
Theorem profile_reads_one_feed env env' url parsed segment rest :
  new_URL env url = Some parsed ->
  new_URL env' url = Some parsed ->
  pathname parsed = String "/" (segment +:+ rest) ->
  Spec.occurs "/" segment = false ->
  rest = EmptyString \/ (exists r, rest = String "/" r) ->
  (forall text, parseXml env text = parseXml env' text) ->
  axios_get env ("https://letterboxd.com/" +:+ segment +:+ "/rss/")
  = axios_get env' ("https://letterboxd.com/" +:+ segment +:+ "/rss/") ->
  getLetterboxdProfile env url = getLetterboxdProfile env' url
  /\ (hostname parsed <> "letterboxd.com" ->
      getLetterboxdProfile env url = Returns (error "Invalid Letterboxd URL format")).
Proof.
  intros Hurl Hurl' Hpath Hclean Hrest Hxml Hget.
  destruct (first_segment segment rest Hclean Hrest) as (more & Hsplit).
  unfold getLetterboxdProfile, fetch_profile, validateLetterboxdUrl, extractUsername.
  rewrite Hurl, Hurl', Hpath, Hsplit.
  cbn [length Nat.leb andb lookup list_lookup]. rewrite andb_true_r.
  destruct (String.eqb_spec (hostname parsed) "letterboxd.com") as [Hhost|Hhost];
    cbn [negb]; [|split; reflexivity].
  split; [|contradiction].
  unfold mbind, Outcome_bind. cbn [bind]. unfold rssUrl, interpolate.
  rewrite Hget.
  destruct (axios_get env' _) as [response|e]; cbn [bind]; [|reflexivity].
  destruct (data response) as [text|]; cbn [bind]; [|reflexivity].
  now rewrite Hxml.
Qed.

End Feed.

(** ** Loading the configuration *)

Section Configuration.
Import JS Config.

Lemma missing_none env :
  missingEnvVars env = [] ->
  truthy (process_env env "DATABASE_URL") = true
  /\ truthy (process_env env "OPENAI_API_KEY") = true
  /\ truthy (process_env env "SESSION_SECRET") = true.
Proof.
  unfold missingEnvVars, requiredEnvVars. cbn [List.filter].
  destruct (truthy (process_env env "DATABASE_URL"));
    destruct (truthy (process_env env "OPENAI_API_KEY"));
    destruct (truthy (process_env env "SESSION_SECRET")); cbn; try discriminate.
  auto.
Qed.

(** Loading the configuration succeeds exactly when the three required
    variables are non-empty and the database URL parses with a host and a
    path.  It fails with one of two messages only: the list of the missing
    variables, or [Invalid DATABASE_URL format: ] followed by the message of
    what the check threw, which for a URL without host is that same text
    again.  The errors [DATABASE_URL is required] and
    [Configuration error: ...] are never raised. *)
Theorem config_load_outcomes env :
  match load env with
  | Returns config =>
      missingEnvVars env = []
      /\ (exists url dbUrl,
            process_env env "DATABASE_URL" = Some url
            /\ new_URL env url = Returns dbUrl
            /\ host dbUrl <> EmptyString /\ pathname dbUrl <> EmptyString)
      /\ truthy (openai_apiKey config) = true
      /\ truthy (database_url config) = true
      /\ truthy (session_secret config) = true
      /\ server_port config = parseInt (or_else (process_env env "PORT") "3000")
      /\ server_nodeEnv config <> EmptyString
      /\ (server_isProduction config = true <-> server_nodeEnv config = "production")
  | Throws e =>
      (missingEnvVars env <> []
       /\ e = Error ("Missing required environment variables: "
                     +:+ join ", " (missingEnvVars env)) "Error")
      \/ (missingEnvVars env = []
          /\ exists url,
               process_env env "DATABASE_URL" = Some url
               /\ ((exists cause, new_URL env url = Throws cause
                    /\ e = Error ("Invalid DATABASE_URL format: "
                                  +:+ match cause with
                                      | Error message _ => message
                                      | NonError => "unknown error"
                                      end) "Error")
                   \/ (exists dbUrl, new_URL env url = Returns dbUrl
                       /\ (host dbUrl = EmptyString \/ pathname dbUrl = EmptyString)
                       /\ e = Error
                                "Invalid DATABASE_URL format: Invalid DATABASE_URL format"
                                "Error")))
  end.
Proof.
  unfold load. destruct (missingEnvVars env) as [|v vs] eqn:Hmissing.
  2: { left. split; [discriminate | reflexivity]. }
  destruct (missing_none env Hmissing) as (Hdb & Hkey & Hsecret).
  destruct (process_env env "DATABASE_URL") as [[|c r]|] eqn:Hurl; try discriminate.
  unfold check_database_url, mbind, Outcome_bind.
  destruct (new_URL env (String c r)) as [dbUrl|cause] eqn:Hparse; cbn [bind try_catch].
  2: { right. split; [reflexivity|]. exists (String c r). split; [reflexivity|].
       left. now exists cause. }
  destruct (String.eqb_spec (host dbUrl) "") as [Hhost|Hhost]; cbn [orb try_catch bind].
  { right. split; [reflexivity|]. exists (String c r). split; [reflexivity|].
    right. exists dbUrl. auto. }
  destruct (String.eqb_spec (pathname dbUrl) "") as [Hpath|Hpath]; cbn [try_catch bind].
  { right. split; [reflexivity|]. exists (String c r). split; [reflexivity|].
    right. exists dbUrl. auto. }
  unfold undefined_entries.
  cbn [openai_apiKey database_url session_secret].
  destruct (process_env env "OPENAI_API_KEY") as [[|c1 r1]|]; try discriminate.
  destruct (process_env env "SESSION_SECRET") as [[|c2 r2]|]; try discriminate.
  cbn [is_undefined type_guard bind].
  split; [reflexivity|].
  split; [exists (String c r), dbUrl; auto|].
  cbn [openai_apiKey database_url session_secret server_port server_nodeEnv
       server_isProduction].
  split; [reflexivity|]. split; [reflexivity|]. split; [reflexivity|].
  split; [reflexivity|].
  split; [destruct (process_env env "NODE_ENV") as [[|a b]|]; discriminate|].
  apply String.eqb_eq.
Qed.

End Configuration.

(** ** The page that shows the stream *)

Section ClientLoop.
Import JS Client.

Lemma fold_show view texts :
  fold_left show texts view
  = {| streamingMessage := streamingMessage view +:+ Spec.concatenation texts;
       cached := cached view;
       optimisticMessage := optimisticMessage view;
       isStreaming := isStreaming view |}.
Proof.
  revert view. induction texts as [|t texts IH]; intros view.
  - cbn. rewrite append_empty_r. now destruct view.
  - cbn [fold_left]. rewrite IH. unfold show. cbn.
    now rewrite append_assoc.
Qed.

Lemma length_append (a b : string) :
  String.length (a +:+ b) = String.length a + String.length b.
Proof.
  induction a as [|c a IH]; [reflexivity|].
  rewrite append_cons. cbn [String.length]. now rewrite IH.
Qed.

Lemma append_fixed (p s : string) : p +:+ s = s -> p = EmptyString.
Proof.
  intros H. apply (f_equal String.length) in H. rewrite length_append in H.
  destruct p; [reflexivity | cbn in H; lia].
Qed.

(** What the page shows of a streamed reply.  The read that carries the
    control line is taken whole for it: the part [p] of the reply that
    arrives in the same read is not shown, so the text on the page is the
    reply without [p], and it is the whole reply exactly when the first
    read ends with the control line.  The message of the control line goes
    into the cached history, and the optimistic message and the streaming
    flag are cleared however the body ends. *)
Theorem client_shows_reply_after_first_read
  env id content view line p rest reply ending parsed :
  fetch env ("/api/users/" +:+ Letterboxd.interpolate id +:+ "/messages") content
  = Returns {| ok := true;
               body := Some {| OpenAI.items := (line +:+ nl +:+ p) :: rest;
                               OpenAI.ending := ending |} |} ->
  Spec.occurs (ascii_of_nat 10) line = false ->
  JSON_parse env line = Returns parsed ->
  parsed <> JNull ->
  reply = p +:+ Spec.concatenation rest ->
  let after := fst (sendMessage env id content view) in
  reply = p +:+ streamingMessage after
  /\ (streamingMessage after = reply <-> p = EmptyString)
  /\ (exists userMessage,
        get parsed "userMessage" = Returns userMessage
        /\ cached after = cached view ++ [userMessage])
  /\ optimisticMessage after = None
  /\ isStreaming after = false.
Proof.
  intros Hfetch Hline Hparse Hnull -> after. subst after.
  unfold sendMessage. rewrite Hfetch.
  cbn [ok negb body OpenAI.items OpenAI.ending read_all].
  rewrite fold_show. unfold first_read, userMessage_of, first_line.
  change (line +:+ nl +:+ p) with (line +:+ String (ascii_of_nat 10) p).
  rewrite split_app by exact Hline. rewrite Hparse.
  unfold mbind, Outcome_bind. cbn [bind].
  assert (Hget : exists userMessage, get parsed "userMessage" = Returns userMessage).
  { destruct parsed; cbn; eauto. contradiction. }
  destruct Hget as (userMessage & Hget). rewrite Hget.
  cbn [streamingMessage cached optimisticMessage isStreaming].
  destruct ending; cbn [fst settle streamingMessage cached optimisticMessage isStreaming];
    rewrite append_nil.
  all: split; [reflexivity|]; split;
    [split; [intros H; symmetry in H; now apply append_fixed in H
            | now intros ->]|];
    split; [now exists userMessage|]; split; reflexivity.
Qed.

End ClientLoop.

(** ** Ratings and the outcomes of a channel *)

Section Ratings.
Import JS Letterboxd.

Lemma trimStart_slash_head u : trimStart (String "/" u) = String "/" u.
Proof. destruct u as [|c2 [|c3 r3]]; reflexivity. Qed.

Lemma is_space2_slash c : is_space2 c "/" = false.
Proof. unfold is_space2. apply andb_false_r. Qed.

Lemma is_space3_slash_mid c1 c3 : is_space3 c1 "/" c3 = false.
Proof. destruct c1 as [[] [] [] [] [] [] [] []]; reflexivity. Qed.

Lemma is_space3_slash_last c1 c2 : is_space3 c1 c2 "/" = false.
Proof.
  unfold is_space3. cbv zeta.
  change (nat_of_ascii "/") with 47.
  cbn [Nat.eqb Nat.leb andb orb]. now rewrite !andb_false_r.
Qed.

Lemma trimStart_slash_bounded n s u :
  String.length s <= n ->
  trimStart (s +:+ String "/" u) = trimStart s +:+ String "/" u.
Proof.
  revert s. induction n as [|n IH]; intros s Hn.
  - destruct s; [|cbn in Hn; lia]. rewrite append_nil. apply trimStart_slash_head.
  - destruct s as [|c1 r1]; [rewrite append_nil; apply trimStart_slash_head|].
    cbn [String.length] in Hn. rewrite append_cons.
    destruct r1 as [|c2 r2].
    + rewrite append_nil. cbn [trimStart]. destruct (is_space c1).
      * apply trimStart_slash_head.
      * rewrite is_space2_slash. destruct u as [|c3 r3]; [reflexivity|].
        now rewrite is_space3_slash_mid.
    + cbn [String.length] in Hn. rewrite append_cons.
      destruct r2 as [|c3 r3].
      * rewrite append_nil. cbn [trimStart]. destruct (is_space c1).
        -- destruct (is_space c2); [apply trimStart_slash_head|].
           rewrite is_space2_slash. destruct u as [|c4 r4]; [reflexivity|].
           now rewrite is_space3_slash_mid.
        -- destruct (is_space2 c1 c2); [apply trimStart_slash_head|].
           now rewrite is_space3_slash_last.
      * cbn [String.length] in Hn. rewrite append_cons.
        change (trimStart (String c1 (String c2 (String c3 (r3 +:+ String "/" u)))))
          with (if is_space c1
                then trimStart (String c2 (String c3 (r3 +:+ String "/" u)))
                else if is_space2 c1 c2
                     then trimStart (String c3 (r3 +:+ String "/" u))
                     else if is_space3 c1 c2 c3
                          then trimStart (r3 +:+ String "/" u)
                          else String c1 (String c2 (String c3 (r3 +:+ String "/" u)))).
        change (trimStart (String c1 (String c2 (String c3 r3))))
          with (if is_space c1
                then trimStart (String c2 (String c3 r3))
                else if is_space2 c1 c2
                     then trimStart (String c3 r3)
                     else if is_space3 c1 c2 c3
                          then trimStart r3
                          else String c1 (String c2 (String c3 r3))).
        destruct (is_space c1).
        { rewrite <- !append_cons. apply IH. cbn [String.length]. lia. }
        destruct (is_space2 c1 c2).
        { rewrite <- !append_cons. apply IH. cbn [String.length]. lia. }
        destruct (is_space3 c1 c2 c3); [apply IH; lia | reflexivity].
Qed.

Lemma trimStart_slash s u :
  trimStart (s +:+ String "/" u) = trimStart s +:+ String "/" u.
Proof. now apply (trimStart_slash_bounded (String.length s)). Qed.

Lemma prefix_slash p s u :
  Spec.occurs "/" p = false ->
  String.prefix p (s +:+ String "/" u) = String.prefix p s.
Proof.
  revert s. induction p as [|a p IH]; intros s Hp.
  - now destruct s.
  - cbn [Spec.occurs] in Hp. apply orb_false_elim in Hp as [Ha Hp].
    destruct s as [|b s].
    + rewrite append_nil. cbn [String.prefix].
      destruct (ascii_dec a "/") as [->|_]; [discriminate | reflexivity].
    + rewrite append_cons. cbn [String.prefix].
      destruct (ascii_dec a b); [now apply IH | reflexivity].
Qed.

Lemma digits_slash s u acc n :
  digits (s +:+ String "/" u) acc n
  = let '(a, k, r) := digits s acc n in (a, k, r +:+ String "/" u).
Proof.
  revert acc n. induction s as [|c s IH]; intros acc n; [reflexivity|].
  rewrite append_cons. cbn [digits]. destruct (digit c); [apply IH | reflexivity].
Qed.

Lemma exponent_slash r u : exponent (r +:+ String "/" u) = exponent r.
Proof.
  destruct r as [|c r]; [reflexivity|].
  rewrite append_cons. unfold exponent.
  destruct (Ascii.eqb c "e" || Ascii.eqb c "E"); [|reflexivity].
  destruct r as [|d r].
  - reflexivity.
  - rewrite append_cons.
    destruct d as [[] [] [] [] [] [] [] []]; cbv beta iota zeta;
      first
        [ rewrite digits_slash;
          now destruct (digits r 0%Z 0%nat) as [[e n] rest]
        | match goal with
          | |- context [digits (String ?d (r +:+ ?t))] =>
              change (String d (r +:+ t)) with (String d r +:+ t);
              rewrite digits_slash;
              now destruct (digits (String d r) 0%Z 0%nat) as [[e n] rest]
          end ].
Qed.

(** A tail that begins with a slash does not change what [parseFloat]
    reads. *)
Lemma parseFloat_slash s u : parseFloat (s +:+ String "/" u) = parseFloat s.
Proof.
  assert (Hbody : forall neg s1,
    (if String.prefix "Infinity" (s1 +:+ String "/" u) then Infinity neg
     else
       let '(i, ni, r1) := digits (s1 +:+ String "/" u) 0%Z 0%nat in
       let '(m, nf, r2) :=
         match r1 with
         | String "." t => let '(m, n, r) := digits t i 0%nat in (m, n, r)
         | _ => (i, 0%nat, r1)
         end in
       match (ni + nf)%nat with
       | O => NaN
       | S _ =>
           match binary64 (inject_Z m * Qpower (10 # 1) (exponent r2 - Z.of_nat nf))%Q with
           | Some v => Fin (if neg then Qopp v else v)
           | None => Infinity neg
           end
       end)
    = (if String.prefix "Infinity" s1 then Infinity neg
       else
         let '(i, ni, r1) := digits s1 0%Z 0%nat in
         let '(m, nf, r2) :=
           match r1 with
           | String "." t => let '(m, n, r) := digits t i 0%nat in (m, n, r)
           | _ => (i, 0%nat, r1)
           end in
         match (ni + nf)%nat with
         | O => NaN
         | S _ =>
             match binary64 (inject_Z m * Qpower (10 # 1) (exponent r2 - Z.of_nat nf))%Q with
             | Some v => Fin (if neg then Qopp v else v)
             | None => Infinity neg
             end
         end)).
  { intros neg s1. rewrite prefix_slash by reflexivity.
    destruct (String.prefix "Infinity" s1); [reflexivity|].
    rewrite digits_slash. destruct (digits s1 0%Z 0%nat) as [[i ni] r1].
    destruct r1 as [|c r1].
    - rewrite append_nil. cbv beta iota zeta.
      change (exponent (String "/" u)) with (exponent ("" +:+ String "/" u)).
      now rewrite exponent_slash.
    - rewrite append_cons.
      assert (Hfrac :
        (let '(m, nf, r2) :=
           let '(m, n, r) := digits (r1 +:+ String "/" u) i 0%nat in (m, n, r) in
         match (ni + nf)%nat with
         | O => NaN
         | S _ =>
             match binary64 (inject_Z m * Qpower (10 # 1) (exponent r2 - Z.of_nat nf))%Q with
             | Some v => Fin (if neg then Qopp v else v)
             | None => Infinity neg
             end
         end)
        = (let '(m, nf, r2) :=
             let '(m, n, r) := digits r1 i 0%nat in (m, n, r) in
           match (ni + nf)%nat with
           | O => NaN
           | S _ =>
               match binary64 (inject_Z m * Qpower (10 # 1) (exponent r2 - Z.of_nat nf))%Q with
               | Some v => Fin (if neg then Qopp v else v)
               | None => Infinity neg
               end
           end)).
      { rewrite digits_slash. destruct (digits r1 i 0%nat) as [[m n] r].
        cbv beta iota zeta. now rewrite exponent_slash. }
      assert (Hwhole :
        match (ni + 0)%nat with
        | O => NaN
        | S _ =>
            match binary64
                    (inject_Z i
                     * Qpower (10 # 1)
                         (exponent (String c r1 +:+ String "/" u) - Z.of_nat 0))%Q with
            | Some v => Fin (if neg then Qopp v else v)
            | None => Infinity neg
            end
        end
        = match (ni + 0)%nat with
          | O => NaN
          | S _ =>
              match binary64
                      (inject_Z i
                       * Qpower (10 # 1) (exponent (String c r1) - Z.of_nat 0))%Q with
              | Some v => Fin (if neg then Qopp v else v)
              | None => Infinity neg
              end
          end) by now rewrite exponent_slash.
      destruct c as [[] [] [] [] [] [] [] []];
        first [exact Hfrac | exact Hwhole]. }
  unfold parseFloat. rewrite trimStart_slash.
  destruct (trimStart s) as [|c r].
  - rewrite append_nil. exact (Hbody false EmptyString).
  - rewrite append_cons.
    pose proof (Hbody true r) as Hminus.
    pose proof (Hbody false r) as Hplus.
    pose proof (Hbody false (String c r)) as Hnone.
    rewrite append_cons in Hnone.
    destruct c as [[] [] [] [] [] [] [] []];
      first [exact Hminus | exact Hplus | exact Hnone].
Qed.


Lemma processed_favorite f it :
  match snd (process_item f it) with
  | Some r =>
      Spec.kept it = true /\ present (filmTitle it) = true
      /\ (if ge (parseFloat (rating r)) (45 # 10) then Some (title r) else None)
         = Spec.favorite_title it
  | None =>
      (Spec.kept it = false \/ present (filmTitle it) = false)
      /\ Spec.favorite_title it = None
  end.
Proof.
  unfold process_item, item_genres, Spec.favorite_title, Spec.kept, Spec.stars_high.
  destruct (filmGenres it) as [[g|properties]|]; cbn [snd andb];
    try (split; [now left | reflexivity]).
  all: destruct (filmTitle it) as [[[|c t]|props]|] eqn:Htitle; cbn [present andb];
    try (split; [now right | reflexivity]).
  all: split; [reflexivity|]; split; [reflexivity|];
    cbn [rating_of rating title]; rewrite Htitle; cbn [or_empty];
    destruct (memberRating it) as [[[|d stars]|props']|]; try reflexivity;
    change (String d stars +:+ "/5") with (String d stars +:+ String "/" "5");
    rewrite parseFloat_slash; now destruct (ge _ _).
Qed.

Lemma favorite_titles_of (its : list Item) :
  map title
    (List.filter (fun r => ge (parseFloat (rating r)) (45 # 10))
       (omap (fun it => snd (process_item [] it)) its))
  = omap Spec.favorite_title its.
Proof.
  induction its as [|it its IH]; [reflexivity|].
  cbn [omap list_omap]. pose proof (processed_favorite [] it) as H.
  destruct (snd (process_item [] it)) as [r|].
  - destruct H as (_ & _ & H). cbn [List.filter].
    destruct (ge (parseFloat (rating r)) (45 # 10));
      rewrite <- H; cbn [map]; now rewrite IH.
  - destruct H as [_ H]. now rewrite H.
Qed.

(** The favorite films in terms of the feed: the titles of the first five of
    the examined items that the callback keeps (their genre element is not an
    object), that have a title, and whose member rating is text that reads
    as at least 4.5.  The [/5] the code appends to a rating does not change
    what is read from it; an item without a rating, or whose rating is an
    object, is never a favorite. *)
Theorem favorite_films_of_feed env url p :
  getLetterboxdProfile env url = Returns (success p) ->
  exists channel,
    Spec.feed env url = Some channel
    /\ favoriteFilms p = take 5 (omap Spec.favorite_title (Spec.examined channel))
    /\ Forall (fun film =>
                 exists it stars,
                   In it (Spec.examined channel)
                   /\ filmTitle it = Some film
                   /\ (forall properties, filmGenres it <> Some (Node properties))
                   /\ memberRating it = Some (Leaf stars)
                   /\ ge (parseFloat stars) (45 # 10) = true)
         (favoriteFilms p).
Proof.
  intros Hok. destruct (success_feed env url p Hok) as (channel & Hfeed & Hprofile).
  destruct (profile_of_channel_success channel p Hprofile) as (_ & Hfilms & _).
  exists channel. split; [exact Hfeed|].
  assert (Heq : favoriteFilms p
                = take 5 (omap Spec.favorite_title (Spec.examined channel))).
  { rewrite Hfilms. unfold favorite_films, slice0, Spec.processed.
    now rewrite favorite_titles_of. }
  split; [exact Heq|]. rewrite Heq. apply Forall_take.
  apply List.Forall_forall. intros film Hfilm.
  apply list_elem_of_In, list_elem_of_omap in Hfilm as (it & Hit & Hfav).
  apply list_elem_of_In in Hit.
  unfold Spec.favorite_title, Spec.stars_high, Spec.kept in Hfav.
  destruct (filmGenres it) as [[g|properties]|] eqn:Hgenres; cbn [andb] in Hfav;
    try discriminate.
  all: destruct (present (filmTitle it)); cbn [andb] in Hfav; [|discriminate].
  all: destruct (memberRating it) as [[stars|props]|] eqn:Hstars; try discriminate.
  all: destruct (ge (parseFloat stars) (45 # 10)) eqn:Hge; [|discriminate].
  all: exists it, stars; split; [exact Hit|]; split; [exact Hfav|];
    split; [intros properties; rewrite Hgenres; discriminate|];
    split; [exact Hstars | exact Hge].
Qed.


End Ratings.

(** ** The scenarios of the specification and the inputs that decide a claim *)

Section Scenarios.
Import JS Routes.

(** What the primitives give on the texts of a feed. *)
Example parseFloat_rating : JS.parseFloat "4.5/5" = JS.Fin (9 # 2).
Proof. reflexivity. Qed.

Example parseFloat_watched : JS.parseFloat "Watched" = JS.NaN.
Proof. reflexivity. Qed.

Example parseFloat_rounds :
  JS.parseFloat "4.4999999999999999999/5" = JS.Fin (9 # 2)
  /\ JS.parseFloat "4.499999999999999/5" = JS.Fin (5066549580791807 # 1125899906842624)
  /\ JS.parseFloat "1e400" = JS.Infinity false.
Proof. repeat split; vm_compute; reflexivity. Qed.

Example split_genres :
  map JS.trim (JS.split "," "Drama, Sci-Fi ,Horror") = ["Drama"; "Sci-Fi"; "Horror"].
Proof. reflexivity. Qed.

(** White space that is not ASCII: a no-break space (U+00A0) before a rating
    and an ideographic space (U+3000) after a genre are skipped. *)
Example parseFloat_no_break_space :
  JS.parseFloat (String (ascii_of_nat 194) (String (ascii_of_nat 160) "5"))
  = JS.Fin 5.
Proof. reflexivity. Qed.

Example trim_ideographic_space :
  JS.trim ("Drama" +:+ String (ascii_of_nat 227)
                         (String (ascii_of_nat 128) (String (ascii_of_nat 128) "")))
  = "Drama".
Proof. reflexivity. Qed.

(** An item whose genre element has an attribute: the callback gives it up,
    and neither its genres nor its rating are kept.  An item whose rating
    element has one keeps its record, with a rating that is not a number. *)
Example item_with_genre_attribute :
  Letterboxd.process_item [("Drama", Num 1)] Stub.tagged = ([("Drama", Num 1)], None).
Proof. reflexivity. Qed.

Example item_with_rating_attribute :
  Letterboxd.rating
    <$> snd (Letterboxd.process_item []
               {| Letterboxd.filmTitle := Some (Leaf "Only");
                  Letterboxd.filmYear := Some (Leaf "1999");
                  Letterboxd.memberRating :=
                    Some (Node [("_", JString "5.0");
                                ("$", JObject [("scale", JString "5")])]);
                  Letterboxd.filmGenres := Some (Leaf "Drama") |})
  = Some "[object Object]/5"
  /\ JS.parseFloat "[object Object]/5" = JS.NaN.
Proof. split; reflexivity. Qed.

(** The streaming scenario: the service emits [Hel], [lo], [ there] and ends;
    the consumer receives them in that order and [Hello there] is stored. *)
Lemma C1_streaming_scenario :
  Spec.completed (send_message Stub.hello patient 1 "Hi" Stub.db) = true
  /\ (exists user userTurn twinTurn,
        Storage.getUser Stub.db 1 = Some user
        /\ Spec.forwarded (events (send_message Stub.hello patient 1 "Hi" Stub.db))
           = OpenAI.items (Spec.generated Stub.hello Stub.db 1 user "Hi")
        /\ Spec.raw_chunks (body (response (send_message Stub.hello patient 1 "Hi" Stub.db)))
           = Spec.forwarded (events (send_message Stub.hello patient 1 "Hi" Stub.db))
        /\ Storage.messages (db_after (send_message Stub.hello patient 1 "Hi" Stub.db))
           = Storage.messages Stub.db ++ [userTurn; twinTurn]
        /\ Storage.fromUser twinTurn = false
        /\ Storage.userId twinTurn = 1%Z
        /\ Storage.content twinTurn
           = Spec.concatenation
               (Spec.forwarded (events (send_message Stub.hello patient 1 "Hi" Stub.db))))
  /\ Spec.forwarded (events (send_message Stub.hello patient 1 "Hi" Stub.db))
     = ["Hel"; "lo"; " there"]
  /\ map Storage.content
       (Storage.messages (db_after (send_message Stub.hello patient 1 "Hi" Stub.db)))
     = ["Hi"; "Hello there"].
Proof.
  split; [vm_compute; reflexivity|].
  split; [apply (C1_persisted_reply_is_streamed_text Stub.hello patient 1 "Hi" Stub.db);
          vm_compute; reflexivity|].
  split; vm_compute; reflexivity.
Defined.

(** The cancellation scenario: the client leaves after the first of three
    fragments; three more requests are made and the whole reply is stored. *)
Lemma C9_requests_continue_after_cancel :
  received Stub.leaving
    (response (send_message (Stub.streaming [Some "a"; Some "b"; Some "c"] OpenAI.EndOfStream)
                 Stub.leaving 1 "Hi" Stub.db))
  = [UserMessageLine Stub.hi; Raw "a"]
  /\ Spec.requests_after 1
       (events (send_message (Stub.streaming [Some "a"; Some "b"; Some "c"] OpenAI.EndOfStream)
                  Stub.leaving 1 "Hi" Stub.db))
     = 3
  /\ map Storage.content
       (Storage.messages
          (db_after (send_message (Stub.streaming [Some "a"; Some "b"; Some "c"] OpenAI.EndOfStream)
                       Stub.leaving 1 "Hi" Stub.db)))
     = ["Hi"; "abc"].
Proof. repeat split; vm_compute; reflexivity. Qed.



(** A model that answers the insight call with no content: the empty string
    is returned. *)
Lemma C3_empty_content_is_returned :
  OpenAI.create Stub.silent (OpenAI.analysis_prompt "Engineer" None None) false
  = Returns {| OpenAI.choices := [None] |}
  /\ OpenAI.analyzePersonality Stub.silent "Engineer" None None = Returns EmptyString.
Proof. split; reflexivity. Qed.

(** The same model, through the second part of C3. *)
Lemma C3_silent_model :
  OpenAI.create Stub.silent (OpenAI.analysis_prompt "Engineer" None None) false
  = Returns {| OpenAI.choices := [None] |}
  /\ truthy None = false
  /\ OpenAI.analyzePersonality Stub.silent "Engineer" None None = Returns EmptyString.
Proof.
  split; [reflexivity|]. split; [reflexivity|].
  exact (proj1 (proj2 (C3_insight_of_each_outcome Stub.silent "Engineer" None None))
           None [] eq_refl eq_refl).
Defined.

(** A structured response with no content: the persona returned and stored
    has the insight and none of the other three fields, and a message sent
    to the user it was stored for is answered with the error object, without
    a call to the model. *)
Lemma C2_partial_persona_is_stored :
  OpenAI.generateTwinPersonality Stub.sparse "Ada" "Engineer" None None
  = Returns (JObject [("personalityInsight", JString "Curious engineer.")])
  /\ lookup_prop [("personalityInsight", JString "Curious engineer.")] "interests" = None
  /\ Storage.twinPersonality
       <$> Storage.users
             (fst (Routes.create_user Stub.offline Stub.sparse (Returns Stub.engineer) Stub.db))
           !! 2%Z
     = Some (JObject [("personalityInsight", JString "Curious engineer.")])
  /\ Routes.statusCode
       (snd (Routes.create_user Stub.offline Stub.sparse (Returns Stub.engineer) Stub.db))
     = 200%Z
  /\ Spec.chat_ready (JObject [("personalityInsight", JString "Curious engineer.")])
     = false
  /\ body (response
             (send_message Stub.hello patient 2 "Hi"
                (fst (Routes.create_user Stub.offline Stub.sparse (Returns Stub.engineer)
                        Stub.db))))
     = [ UserMessageLine {| Storage.id := 1; Storage.userId := 2;
                            Storage.content := "Hi"; Storage.fromUser := true |};
         ErrorObject "Failed to generate response" ]
  /\ events (send_message Stub.hello patient 2 "Hi"
               (fst (Routes.create_user Stub.offline Stub.sparse (Returns Stub.engineer)
                       Stub.db)))
     = [Next].
Proof. repeat split; vm_compute; reflexivity. Qed.

(** The same response, through C2. *)
Lemma C2_sparse_response :
  (Routes.integration Stub.offline Stub.engineer = Returns Letterboxd.not_provided
   /\ OpenAI.analyzePersonality Stub.sparse "Engineer" None None
      = Returns "Curious engineer."
   /\ OpenAI.first_content {| OpenAI.choices := [None] |} = Returns None
   /\ OpenAI.JSON_parse Stub.sparse (or_else None "{}") = Returns (JObject []))
  /\ exists persona stored,
       OpenAI.generateTwinPersonality Stub.sparse "Ada" "Engineer" None None
       = Returns (JObject persona)
       /\ lookup_prop persona "personalityInsight" = Some (JString "Curious engineer.")
       /\ (forall k, k <> "personalityInsight" ->
                     lookup_prop persona k = lookup_prop (spread (JObject [])) k)
       /\ Storage.users
            (fst (Routes.create_user Stub.offline Stub.sparse (Returns Stub.engineer) Stub.db))
          !! 2%Z = Some stored
       /\ Storage.twinPersonality stored = JObject persona
       /\ Routes.statusCode
            (snd (Routes.create_user Stub.offline Stub.sparse (Returns Stub.engineer) Stub.db))
          = 200%Z.
Proof.
  split; [repeat split|].
  exact (C2_persona_is_not_validated Stub.offline Stub.sparse Stub.engineer Stub.db
           Letterboxd.not_provided "Curious engineer." {| OpenAI.choices := [None] |}
           None (JObject []) eq_refl eq_refl eq_refl eq_refl eq_refl).
Defined.

(** Items rated 5/5, 4.5/5 and 3/5: the first two are the favorites. *)
Lemma C4_three_films :
  Letterboxd.getLetterboxdProfile (Stub.serving Stub.three_films) "https://letterboxd.com/ada/"
  = Returns (Letterboxd.success
               {| Letterboxd.recentRatings := Spec.processed {| Letterboxd.item := Some Stub.three_films |};
                  Letterboxd.favoriteGenres := ["A"; "B"; "C"];
                  Letterboxd.favoriteFilms := [Leaf "First"; Leaf "Second"] |})
  /\ exists channel favorites,
       Spec.feed (Stub.serving Stub.three_films) "https://letterboxd.com/ada/" = Some channel
       /\ [Leaf "First"; Leaf "Second"] = map Letterboxd.title favorites
       /\ favorites = take 5 (List.filter Spec.high_rated (Spec.processed channel))
       /\ sublist favorites (Spec.processed channel)
       /\ Forall (fun r => Spec.high_rated r = true) favorites
       /\ length [Leaf "First"; Leaf "Second"] <= 5
       /\ (length (List.filter Spec.high_rated (Spec.processed channel)) <= 5 ->
           favorites = List.filter Spec.high_rated (Spec.processed channel)).
Proof.
  split; [vm_compute; reflexivity|].
  exact (C4_favorite_films (Stub.serving Stub.three_films) "https://letterboxd.com/ada/"
           {| Letterboxd.recentRatings := Spec.processed {| Letterboxd.item := Some Stub.three_films |};
              Letterboxd.favoriteGenres := ["A"; "B"; "C"];
              Letterboxd.favoriteFilms := [Leaf "First"; Leaf "Second"] |} eq_refl).
Defined.

(** One item tagged [Drama, 7]: both genres occur once and [Drama] is seen
    first, yet [7] is ranked first, where it does not rank before [Drama]. *)
Lemma C5_numeral_genre_comes_first :
  Letterboxd.getLetterboxdProfile (Stub.serving Stub.numbered) "https://letterboxd.com/ada/"
  = Returns (Letterboxd.success
               {| Letterboxd.recentRatings := Spec.processed {| Letterboxd.item := Some Stub.numbered |};
                  Letterboxd.favoriteGenres := ["7"; "Drama"];
                  Letterboxd.favoriteFilms := [] |})
  /\ Spec.all_genres {| Letterboxd.item := Some Stub.numbered |} = ["Drama"; "7"]
  /\ Spec.frequency ["Drama"; "7"] "Drama" = 1
  /\ Spec.frequency ["Drama"; "7"] "7" = 1
  /\ Spec.seen_before ["Drama"; "7"] "Drama" "7"
  /\ ~ Spec.ranks_before ["Drama"; "7"] "7" "Drama".
Proof.
  split; [vm_compute; reflexivity|]. split; [reflexivity|].
  split; [reflexivity|]. split; [reflexivity|]. split.
  - exists [], ["7"]. split; [reflexivity|]. split; [inversion 1|].
    split; [inversion 1 | discriminate].
  - intros [Hfreq | [_ (l1 & l2 & Hsplit & _ & Hdrama & _)]].
    + vm_compute in Hfreq. lia.
    + destruct l1 as [|x l1]; [discriminate|].
      injection Hsplit as <- _. apply Hdrama. now left.
Qed.

(** Items tagged [A,B], [A,C], [A]: the ranking is A, B, C. *)
Lemma C5_three_films :
  (Letterboxd.getLetterboxdProfile (Stub.serving Stub.three_films) "https://letterboxd.com/ada/"
   = Returns (Letterboxd.success
                {| Letterboxd.recentRatings := Spec.processed {| Letterboxd.item := Some Stub.three_films |};
                   Letterboxd.favoriteGenres := ["A"; "B"; "C"];
                   Letterboxd.favoriteFilms := [Leaf "First"; Leaf "Second"] |})
   /\ Spec.feed (Stub.serving Stub.three_films) "https://letterboxd.com/ada/"
      = Some {| Letterboxd.item := Some Stub.three_films |}
   /\ Forall (fun g => Spec.plain g = true)
        (Spec.all_genres {| Letterboxd.item := Some Stub.three_films |}))
  /\ exists ranking,
       ["A"; "B"; "C"] = take 5 ranking
       /\ NoDup ranking
       /\ (forall g, In g ranking
                     <-> In g (Spec.all_genres {| Letterboxd.item := Some Stub.three_films |}))
       /\ StronglySorted
            (Spec.ranks_before (Spec.all_genres {| Letterboxd.item := Some Stub.three_films |}))
            ranking
       /\ length ["A"; "B"; "C"] <= 5.
Proof.
  assert (Hplain : Forall (fun g => Spec.plain g = true)
                     (Spec.all_genres {| Letterboxd.item := Some Stub.three_films |}))
    by (repeat constructor).
  split; [split; [vm_compute; reflexivity | split; [reflexivity | exact Hplain]]|].
  exact (C5_genre_ranking (Stub.serving Stub.three_films) "https://letterboxd.com/ada/"
           {| Letterboxd.recentRatings := Spec.processed {| Letterboxd.item := Some Stub.three_films |};
              Letterboxd.favoriteGenres := ["A"; "B"; "C"];
              Letterboxd.favoriteFilms := [Leaf "First"; Leaf "Second"] |}
           {| Letterboxd.item := Some Stub.three_films |} eq_refl eq_refl Hplain).
Defined.


(** The interrupted-stream scenario: one fragment, then the stream fails;
    next to it, a reply that ends normally in the text of the error object. *)
Lemma C8_interrupted_stream :
  (Storage.getUser Stub.db 1 = Some Stub.ada
   /\ OpenAI.ending (Spec.generated Stub.broken Stub.db 1 Stub.ada "Hi")
      = OpenAI.Interrupted Stub.StreamInterruptedError
   /\ OpenAI.items (Spec.generated Stub.imitating Stub.db 1 Stub.ada "Hi")
      = OpenAI.items (Spec.generated Stub.broken Stub.db 1 Stub.ada "Hi")
        ++ [Spec.error_text]
   /\ OpenAI.ending (Spec.generated Stub.imitating Stub.db 1 Stub.ada "Hi")
      = OpenAI.EndOfStream)
  /\ exists userTurn control,
       written (UserMessageLine userTurn) = Some control
       /\ Spec.forwarded (events (send_message Stub.broken patient 1 "Hi" Stub.db))
          = ["Hel"]
       /\ body (response (send_message Stub.broken patient 1 "Hi" Stub.db))
          = UserMessageLine userTurn :: map Raw ["Hel"]
            ++ [ErrorObject "Failed to generate response"]
       /\ statusCode (response (send_message Stub.broken patient 1 "Hi" Stub.db)) = 200%Z
       /\ sent (body (response (send_message Stub.broken patient 1 "Hi" Stub.db)))
          = Some (control +:+ Spec.concatenation ["Hel"] +:+ Spec.error_text)
       /\ Storage.messages (db_after (send_message Stub.broken patient 1 "Hi" Stub.db))
          = Storage.messages Stub.db ++ [userTurn]
       /\ Spec.completed (send_message Stub.imitating patient 1 "Hi" Stub.db) = true
       /\ statusCode (response (send_message Stub.imitating patient 1 "Hi" Stub.db))
          = statusCode (response (send_message Stub.broken patient 1 "Hi" Stub.db))
       /\ writableEnded (response (send_message Stub.imitating patient 1 "Hi" Stub.db))
          = writableEnded (response (send_message Stub.broken patient 1 "Hi" Stub.db))
       /\ sent (body (response (send_message Stub.imitating patient 1 "Hi" Stub.db)))
          = sent (body (response (send_message Stub.broken patient 1 "Hi" Stub.db))).
Proof.
  split; [repeat split|].
  exact (C8_failure_is_sent_as_reply_text Stub.broken Stub.imitating patient 1 "Hi"
           Stub.db Stub.ada Stub.StreamInterruptedError
           eq_refl eq_refl eq_refl eq_refl).
Defined.

(** The failed reply and the reply that ends normally are the same response:
    the same status and the same bytes, in which the error object is text
    that follows the fragment.  The page that reads either of them shows that
    text as the end of the twin's reply and does not throw. *)
Lemma C8_failure_reads_as_reply :
  OpenAI.ending (Spec.generated Stub.broken Stub.db 1 Stub.ada "Hi")
  = OpenAI.Interrupted Stub.StreamInterruptedError
  /\ Spec.completed (send_message Stub.broken patient 1 "Hi" Stub.db) = false
  /\ Spec.completed (send_message Stub.imitating patient 1 "Hi" Stub.db) = true
  /\ statusCode (response (send_message Stub.broken patient 1 "Hi" Stub.db)) = 200%Z
  /\ statusCode (response (send_message Stub.imitating patient 1 "Hi" Stub.db)) = 200%Z
  /\ sent (body (response (send_message Stub.broken patient 1 "Hi" Stub.db)))
     = Some (stringify_control Stub.hi +:+ nl +:+ "Hel" +:+ Spec.error_text)
  /\ sent (body (response (send_message Stub.imitating patient 1 "Hi" Stub.db)))
     = Some (stringify_control Stub.hi +:+ nl +:+ "Hel" +:+ Spec.error_text)
  /\ Client.sendMessage
       (Stub.answered (response (send_message Stub.broken patient 1 "Hi" Stub.db)))
       (Some "1") "Hi" Stub.idle
     = Client.sendMessage
         (Stub.answered (response (send_message Stub.imitating patient 1 "Hi" Stub.db)))
         (Some "1") "Hi" Stub.idle
  /\ Client.streamingMessage
       (fst (Client.sendMessage
               (Stub.answered (response (send_message Stub.broken patient 1 "Hi" Stub.db)))
               (Some "1") "Hi" Stub.idle))
     = "Hel" +:+ Spec.error_text
  /\ snd (Client.sendMessage
            (Stub.answered (response (send_message Stub.broken patient 1 "Hi" Stub.db)))
            (Some "1") "Hi" Stub.idle)
     = Returns tt.
Proof. repeat split; vm_compute; reflexivity. Qed.

(** The same failure: the user's turn is the only one stored. *)
Lemma C10_failed_reply_keeps_user_turn :
  Storage.getUser Stub.db 1 = Some Stub.ada
  /\ (exists userTurn,
        userTurn
        = {| Storage.id := Storage.next_message Stub.db; Storage.userId := 1;
             Storage.content := "Hi"; Storage.fromUser := true |}
        /\ Storage.messages (fst (Storage.addMessage Stub.db 1 "Hi" true))
           = Storage.messages Stub.db ++ [userTurn]
        /\ head (body (response (send_message Stub.broken patient 1 "Hi" Stub.db)))
           = Some (UserMessageLine userTurn)
        /\ Spec.forwarded (events (send_message Stub.broken patient 1 "Hi" Stub.db))
           = OpenAI.items (Spec.generated Stub.broken Stub.db 1 Stub.ada "Hi")
        /\ match OpenAI.ending (Spec.generated Stub.broken Stub.db 1 Stub.ada "Hi") with
           | OpenAI.EndOfStream =>
               exists twinTurn,
                 Storage.fromUser twinTurn = false
                 /\ Storage.messages (db_after (send_message Stub.broken patient 1 "Hi" Stub.db))
                    = Storage.messages Stub.db ++ [userTurn; twinTurn]
           | OpenAI.Interrupted _ =>
               Storage.messages (db_after (send_message Stub.broken patient 1 "Hi" Stub.db))
               = Storage.messages Stub.db ++ [userTurn]
           end)
  /\ Storage.messages (db_after (send_message Stub.broken patient 1 "Hi" Stub.db))
     = [Stub.hi].
Proof.
  split; [reflexivity|]. split; [|vm_compute; reflexivity].
  apply (C10_user_turn_is_kept Stub.broken patient 1 "Hi" Stub.db Stub.ada). reflexivity.
Defined.



(** A request that fails becomes the error variant with the message and the
    name of the error. *)
Lemma C7_network_failure :
  Letterboxd.getLetterboxdProfile Stub.unreachable "https://letterboxd.com/ada/"
  = Returns (Letterboxd.error "Network Error (AxiosError)").
Proof.
  destruct (C7_profile_fetch_never_throws Stub.unreachable "https://letterboxd.com/ada/")
    as (r & Hr & _ & _ & Hnet & _).
  rewrite Hr. f_equal.
  apply (Hnet (Some "ada") (Error "Network Error" "AxiosError")); reflexivity.
Defined.

(** The streaming scenario with a client that leaves after the first
    fragment: the handler does what it does for one that stays. *)
Lemma C9_leaving_client :
  send_message Stub.hello Stub.leaving 1 "Hi" Stub.db
  = send_message Stub.hello patient 1 "Hi" Stub.db
  /\ Spec.requests_after 1 (events (send_message Stub.hello Stub.leaving 1 "Hi" Stub.db)) = 3
  /\ map Storage.content
       (Storage.messages (db_after (send_message Stub.hello Stub.leaving 1 "Hi" Stub.db)))
     = ["Hi"; "Hello there"].
Proof.
  destruct (C9_disconnect_is_not_observed Stub.hello Stub.leaving 1 "Hi" Stub.db)
    as [Hsame Hall].
  split; [exact Hsame|].
  destruct (Hall Stub.ada eq_refl) as (_ & Hrequests & _).
  split; [apply (Hrequests 1); vm_compute; lia | vm_compute; reflexivity].
Defined.

(** Genre names that name members of [Object.prototype]: [__proto__] is
    never counted, and [constructor] is counted as a string, not a number. *)
Example inherited_genre_names :
  fold_left increment ["Drama"; "__proto__"; "constructor"] []
  = [("Drama", Num 1); ("constructor", Text)].
Proof. reflexivity. Qed.

Example inherited_genres_ranking :
  Letterboxd.favorite_genres (fold_left increment ["Drama"; "__proto__"; "constructor"] [])
  = ["Drama"; "constructor"].
Proof. reflexivity. Qed.

(** A stream whose chunks are not all text: only the texts are yielded. *)
Lemma sputtering_stream :
  exists prompt,
    OpenAI.chat_prompt Stub.persona "Ada" "Hi" [] = Returns prompt
    /\ OpenAI.create_stream Stub.sputtering prompt
       = Returns {| OpenAI.items := [Some "a"; None; Some EmptyString; Some "b"];
                    OpenAI.ending := OpenAI.EndOfStream |}
    /\ OpenAI.items (OpenAI.streamChatResponse Stub.sputtering Stub.persona "Ada" "Hi" [])
       = ["a"; "b"]
    /\ OpenAI.items (OpenAI.streamChatResponse Stub.sputtering Stub.persona "Ada" "Hi" [])
       = OpenAI.fragments [Some "a"; None; Some EmptyString; Some "b"].
Proof.
  eexists. split; [reflexivity|]. split; [reflexivity|]. split; [reflexivity|].
  refine (proj1 (streamChatResponse_yields Stub.sputtering Stub.persona "Ada" "Hi" [] _
                   {| OpenAI.items := [Some "a"; None; Some EmptyString; Some "b"];
                      OpenAI.ending := OpenAI.EndOfStream |} eq_refl eq_refl)).
Defined.

(** The three-film feed returns its three ratings. *)
Lemma three_films_ratings :
  Letterboxd.getLetterboxdProfile (Stub.serving Stub.three_films) "https://letterboxd.com/ada/"
  = Returns (Letterboxd.success
               {| Letterboxd.recentRatings := Spec.processed {| Letterboxd.item := Some Stub.three_films |};
                  Letterboxd.favoriteGenres := ["A"; "B"; "C"];
                  Letterboxd.favoriteFilms := [Leaf "First"; Leaf "Second"] |})
  /\ exists channel,
       Spec.feed (Stub.serving Stub.three_films) "https://letterboxd.com/ada/" = Some channel
       /\ Spec.processed {| Letterboxd.item := Some Stub.three_films |}
          = take 10 (Spec.processed channel)
       /\ length (Spec.processed {| Letterboxd.item := Some Stub.three_films |}) <= 10.
Proof.
  split; [vm_compute; reflexivity|].
  exact (recentRatings_first_ten (Stub.serving Stub.three_films) "https://letterboxd.com/ada/"
           {| Letterboxd.recentRatings := Spec.processed {| Letterboxd.item := Some Stub.three_films |};
              Letterboxd.favoriteGenres := ["A"; "B"; "C"];
              Letterboxd.favoriteFilms := [Leaf "First"; Leaf "Second"] |} eq_refl).
Defined.

(** A model service that cannot be reached while a user is created. *)
Lemma synthesis_fails :
  (Routes.integration Stub.offline Stub.engineer = Returns Letterboxd.not_provided
   /\ OpenAI.generateTwinPersonality Stub.hello "Ada" "Engineer" None None
      = Throws NonError)
  /\ snd (create_user Stub.offline Stub.hello (Returns Stub.engineer) Stub.db)
     = status_json 400 (MessageObject "An error occurred")
  /\ exists stored,
       Storage.users (fst (create_user Stub.offline Stub.hello (Returns Stub.engineer) Stub.db))
         !! 2%Z = Some stored
       /\ Storage.twinPersonality stored = JNull
       /\ Storage.letterboxdData stored = Storage.lb_not_provided.
Proof.
  split; [split; reflexivity|].
  exact (create_user_synthesis_fails Stub.offline Stub.hello Stub.engineer Stub.db
           Letterboxd.not_provided NonError eq_refl eq_refl).
Defined.


(** Two artists who share a genre, and one played track. *)
Lemma two_artists :
  exists s distinct,
    Spotify.getUserData Stub.connected_account (Some (JString "token"))
    = Returns (Spotify.success s)
    /\ Spotify.topArtists s = ["Miles Davis"; "Nina Simone"]
    /\ Spotify.topGenres s = take 5 distinct
    /\ Spotify.topGenres s = ["jazz"; "bebop"; "soul"]
    /\ length (Spotify.recentTracks s) = 1.
Proof.
  destruct (getUserData_succeeds Stub.connected_account (Some (JString "token"))
              _ _ eq_refl eq_refl ltac:(repeat constructor; discriminate))
    as (s & distinct & Hs & Ha & Hg & _ & _ & _ & Ht).
  exists s, distinct. split; [exact Hs|]. split; [exact Ha|]. split; [exact Hg|].
  vm_compute in Hs. injection Hs as <-. split; reflexivity.
Defined.

Lemma two_users_consistent : Spec.consistent Stub.two_users.
Proof.
  assert (H : forall k u, Storage.users Stub.two_users !! k = Some u ->
                          (k = 2%Z /\ u = Stub.grace) \/ (k = 1%Z /\ u = Stub.ada)).
  { intros k u. unfold Stub.two_users. cbn [Storage.users].
    rewrite lookup_insert_Some, lookup_singleton_Some. intuition auto. }
  split.
  - intros k u Hk. destruct (H k u Hk) as [[-> ->] | [-> ->]]; reflexivity.
  - intros k u Hk. destruct (H k u Hk) as [[-> ->] | [-> ->]]; reflexivity.
  - intros k u Hk. destruct (H k u Hk) as [[-> ->] | [-> ->]]; split; reflexivity.
  - constructor.
  - constructor.
Qed.



(** The profile of a stored user is edited while the model service cannot be
    reached: the row changes, the persona does not. *)
Lemma edited_offline :
  Storage.getUser Stub.two_users 1 = Some Stub.ada
  /\ exists row,
       Storage.getUser
         (fst (update_user Stub.offline Stub.hello (Returns Stub.engineer) 1 Stub.two_users))
         1 = Some row
       /\ Storage.twinPersonality row = Stub.persona
       /\ snd (update_user Stub.offline Stub.hello (Returns Stub.engineer) 1 Stub.two_users)
          = status_json 400 (MessageObject "An error occurred").
Proof.
  split; [reflexivity|].
  destruct (update_user_effect Stub.offline Stub.hello Stub.engineer 1 Stub.two_users
              Stub.ada eq_refl)
    as (result & row & Hres & Hrow & _ & _ & _ & _ & Htwin & _).
  exists row. split; [exact Hrow|].
  injection Hres as <-. exact Htwin.
Defined.

(** A callback for a stored user, with every service answering. *)
Lemma spotify_connected :
  Spec.consistent Stub.two_users
  /\ reply_sent
       (spotify_callback Stub.connected_account Stub.sparse (fun _ => 1%Z)
          (Some "code") (Some "1") None None
          {| originalHost := None; pendingSpotifyData := None |} Stub.two_users)
     = Redirect "/chat/1"
  /\ exists row,
       Storage.getUser
         (stored
            (spotify_callback Stub.connected_account Stub.sparse (fun _ => 1%Z)
               (Some "code") (Some "1") None None
               {| originalHost := None; pendingSpotifyData := None |} Stub.two_users))
         1 = Some row
       /\ OpenAI.topGenres (Storage.spotifyData row) = Some ["jazz"; "bebop"; "soul"].
Proof.
  split; [exact two_users_consistent|].
  destruct (spotify_callback_effect Stub.connected_account Stub.sparse (fun _ => 1%Z)
              (Some "code") (Some "1") None None
              {| originalHost := None; pendingSpotifyData := None |} Stub.two_users
              two_users_consistent)
    as [(code' & uid & user & token & result & twin & Hcode & Huid & Huser & Htoken
         & Hdata & Htwin & Hreply & Hstored & _) | (_ & reason & Hreply & _)].
  - injection Hcode as <-. injection Huid as <-. split; [exact Hreply|].
    rewrite Hstored. unfold Storage.getUser, Storage.with_users.
    cbn [Storage.users]. rewrite lookup_insert_eq. eexists. split; [reflexivity|].
    vm_compute in Htoken. injection Htoken as <-.
    vm_compute in Hdata. injection Hdata as <-. reflexivity.
  - vm_compute in Hreply. discriminate Hreply.
Defined.

(** A chat request to the user without a persona. *)
Lemma chat_without_persona :
  (Storage.getUser Stub.two_users 2 = Some Stub.grace
   /\ Spec.chat_ready (Storage.twinPersonality Stub.grace) = false)
  /\ Routes.body (response (send_message Stub.hello patient 2 "Hi" Stub.two_users))
     = [ UserMessageLine {| Storage.id := 1; Storage.userId := 2;
                            Storage.content := "Hi"; Storage.fromUser := true |};
         ErrorObject "Failed to generate response" ]
  /\ Storage.messages (db_after (send_message Stub.hello patient 2 "Hi" Stub.two_users))
     = [ {| Storage.id := 1; Storage.userId := 2;
            Storage.content := "Hi"; Storage.fromUser := true |} ].
Proof.
  split; [split; reflexivity|].
  rewrite (chat_with_unready_persona Stub.hello patient 2 "Hi" Stub.two_users Stub.grace
             eq_refl eq_refl).
  split; reflexivity.
Defined.

(** A film source that failed next to a Spotify source that was read: the
    error text of the first is not part of what is sent, the second is
    sent. *)
Lemma failed_profile_is_not_sent :
  OpenAI.is_success (OpenAI.lb_status <$> Some Stub.failed_profile) = false
  /\ OpenAI.is_success (OpenAI.sp_status <$> Some Stub.listener) = true
  /\ OpenAI.analysis_prompt "Engineer" (Some Stub.failed_profile) (Some Stub.listener)
     = OpenAI.analysis_prompt "Engineer" None (Some Stub.listener)
  /\ OpenAI.analysis_prompt "Engineer" None (Some Stub.listener)
     <> OpenAI.analysis_prompt "Engineer" None None
  /\ OpenAI.generateTwinPersonality Stub.sparse "Ada" "Engineer"
       (Some Stub.failed_profile) (Some Stub.listener)
     = OpenAI.generateTwinPersonality Stub.sparse "Ada" "Engineer" None
         (Some Stub.listener).
Proof.
  destruct (proj1 (unsuccessful_sources_are_not_sent Stub.sparse "Ada" "Engineer"
                     (Some Stub.failed_profile) (Some Stub.listener)) eq_refl)
    as (Hanalysis & _ & Hsame).
  split; [reflexivity|]. split; [reflexivity|]. split; [exact Hanalysis|].
  split; [vm_compute; discriminate | exact Hsame].
Defined.

(** Two HTTP clients that agree on the feed of [ada] and on nothing else. *)
Lemma one_feed :
  Letterboxd.axios_get Stub.unreachable "https://letterboxd.com/x/rss/"
  <> Letterboxd.axios_get Stub.selective "https://letterboxd.com/x/rss/"
  /\ Letterboxd.getLetterboxdProfile Stub.unreachable "https://letterboxd.com/ada/"
     = Letterboxd.getLetterboxdProfile Stub.selective "https://letterboxd.com/ada/".
Proof.
  split; [discriminate|].
  exact (proj1 (profile_reads_one_feed Stub.unreachable Stub.selective
                  "https://letterboxd.com/ada/"
                  {| Letterboxd.hostname := "letterboxd.com";
                     Letterboxd.pathname := "/ada/" |}
                  "ada" "/" eq_refl eq_refl eq_refl eq_refl
                  (or_intror (ex_intro _ EmptyString eq_refl))
                  (fun _ => eq_refl) eq_refl)).
Defined.

(** A reply whose first three characters arrive with the control line. *)
Lemma coalesced_reads :
  Client.streamingMessage
    (fst (Client.sendMessage Stub.coalescing (Some "1") "Hi" Stub.idle)) = "lo"
  /\ "Hello" = "Hel" +:+ Client.streamingMessage
                 (fst (Client.sendMessage Stub.coalescing (Some "1") "Hi" Stub.idle)).
Proof.
  split; [reflexivity|].
  exact (proj1 (client_shows_reply_after_first_read Stub.coalescing (Some "1") "Hi"
                  Stub.idle Stub.control_line "Hel" ["lo"] "Hello" OpenAI.EndOfStream
                  (JObject [("userMessage", JString "Hi")])
                  eq_refl eq_refl eq_refl ltac:(discriminate) eq_refl)).
Defined.

(** The favorites of the three-film feed, read from its items. *)
Lemma three_films_favorites :
  Letterboxd.getLetterboxdProfile (Stub.serving Stub.three_films)
    "https://letterboxd.com/ada/"
  = Returns (Letterboxd.success
               {| Letterboxd.recentRatings :=
                    Spec.processed {| Letterboxd.item := Some Stub.three_films |};
                  Letterboxd.favoriteGenres := ["A"; "B"; "C"];
                  Letterboxd.favoriteFilms := [Leaf "First"; Leaf "Second"] |})
  /\ exists channel,
       Spec.feed (Stub.serving Stub.three_films) "https://letterboxd.com/ada/"
       = Some channel
       /\ [Leaf "First"; Leaf "Second"]
          = take 5 (omap Spec.favorite_title (Spec.examined channel)).
Proof.
  split; [vm_compute; reflexivity|].
  destruct (favorite_films_of_feed (Stub.serving Stub.three_films)
              "https://letterboxd.com/ada/"
              {| Letterboxd.recentRatings :=
                   Spec.processed {| Letterboxd.item := Some Stub.three_films |};
                 Letterboxd.favoriteGenres := ["A"; "B"; "C"];
                 Letterboxd.favoriteFilms := [Leaf "First"; Leaf "Second"] |} eq_refl)
    as (channel & Hfeed & Hfilms & _).
  exists channel. split; [exact Hfeed | exact Hfilms].
Defined.


(** A message for a user that is not stored: nothing is added. *)
Lemma unknown_user_adds_nothing :
  Storage.getUser Stub.two_users 9 = None
  /\ db_after (send_message Stub.hello patient 9 "Hi" Stub.two_users) = Stub.two_users
  /\ response (send_message Stub.hello patient 9 "Hi" Stub.two_users)
     = status_json 404 (MessageObject "User not found")
  /\ events (send_message Stub.hello patient 9 "Hi" Stub.two_users) = [].
Proof.
  split; [reflexivity|].
  exact (proj2 (proj2 (proj2 (chat_appends_to_one_history Stub.hello patient 9 "Hi"
                                Stub.two_users))) eq_refl).
Defined.

End Scenarios.
